(** * vncdotool: the RFB client protocol engine and the high-level client

    A shallow embedding of [vncdotool/rfb.py] and [vncdotool/client.py].
    Python integers are [Z], [bytes] and [bytearray] are lists of 8-bit
    characters, exceptions are an explicit error type, and the mutable
    client object is a record threaded through every method. *)

From Stdlib Require Import ZArith List String Ascii Bool Lia.
From stdpp Require Import base tactics option list numbers strings gmap pretty.

Import ListNotations.
Local Open Scope Z_scope.
Local Open Scope list_scope.

(** ** Bytes and exceptions *)

Abbreviation byte := ascii.
Abbreviation bytes := (list ascii).

Definition b2z (b : byte) : Z := Z.of_N (N_of_ascii b).
Definition z2b (z : Z) : byte := ascii_of_N (Z.to_N z).

(** A bytes literal [b"..."]. *)
Definition bytes_of (s : string) : bytes := list_ascii_of_string s.

Definition NUL : byte := z2b 0.
Definition LF : byte := z2b 10.

(** [len(b)] as a Python integer. *)
Definition len {A} (l : list A) : Z := Z.of_nat (length l).

(** Slices [b[i:j]], [b[:j]], [b[i:]] for non-negative bounds. *)
Definition slice {A} (l : list A) (i j : Z) : list A :=
  take (Z.to_nat (j - i)) (drop (Z.to_nat i) l).
Definition slice_to {A} (l : list A) (j : Z) : list A := take (Z.to_nat j) l.
Definition slice_from {A} (l : list A) (i : Z) : list A := drop (Z.to_nat i) l.

(** [b * n]: sequence repetition, empty for [n <= 0]. *)
Definition bytes_mul {A} (b : list A) (n : Z) : list A :=
  mjoin (replicate (Z.to_nat n) b).

Inductive exn :=
| StructError        (* struct.error *)
| ValueError
| IndexError
| TypeError
| StopIteration      (* next() on an exhausted iterator *)
| RuntimeError       (* StopIteration raised inside a generator *)
| UnicodeEncodeError
| AssertionError
| ZlibError          (* zlib.error *)
| AttributeError.

Inductive result (A : Type) :=
| Ok (a : A)
| Raise (e : exn).
Arguments Ok {A} a.
Arguments Raise {A} e.

Definition rbind {A B} (r : result A) (k : A -> result B) : result B :=
  match r with Ok a => k a | Raise e => Raise e end.

Notation "'let?' x ':=' r 'in' k" := (rbind r (fun x => k))
  (at level 10, x name, r at level 100, k at level 200).

(** ** The [struct] module, for the network-order formats the program uses *)

Module Struct.

(** Values passed to [pack] and returned by [unpack]. *)
Inductive pyval :=
| VInt (z : Z)
| VBool (b : bool)
| VBytes (bs : bytes).

(** One field of a format string. *)
Inductive fcode :=
| FPad                (* x *)
| FU8                 (* B *)
| FBool               (* ? *)
| FU16                (* H *)
| FI32                (* i *)
| FU32                (* I, L *)
| FStr (n : nat).     (* <n>s *)

Definition digit_val (c : ascii) : option nat :=
  let n := nat_of_ascii c in
  if ((48 <=? n) && (n <=? 57))%nat then Some (n - 48)%nat else None.

(** The format characters this program uses. Any other character is
    rejected; CPython accepts a few more standard codes (c b h l q Q e f d
    p n N P) that no format string of the program contains, and rejects
    everything else, braces included, with "bad char in struct format". *)
Definition code_of (c : ascii) : option fcode :=
  if Ascii.eqb c "x" then Some FPad
  else if Ascii.eqb c "B" then Some FU8
  else if Ascii.eqb c "?" then Some FBool
  else if Ascii.eqb c "H" then Some FU16
  else if Ascii.eqb c "i" then Some FI32
  else if Ascii.eqb c "I" then Some FU32
  else if Ascii.eqb c "L" then Some FU32
  else None.

Fixpoint parse_items (fmt : list ascii) (count : option nat)
  : result (list fcode) :=
  match fmt with
  | [] => match count with None => Ok [] | Some _ => Raise StructError end
  | c :: rest =>
      match digit_val c with
      | Some d => parse_items rest (Some (10 * default 0 count + d)%nat)
      | None =>
          let n := default 1%nat count in
          if Ascii.eqb c "s" then
            let? items := parse_items rest None in Ok (FStr n :: items)
          else
            match code_of c with
            | Some k =>
                let? items := parse_items rest None in
                Ok (replicate n k ++ items)
            | None => Raise StructError
            end
      end
  end.

(** Every format of the program starts with [!] (network order, standard
    sizes, no alignment). *)
Definition parse_format (fmt : string) : result (list fcode) :=
  match list_ascii_of_string fmt with
  | c :: rest =>
      if Ascii.eqb c "!" then parse_items rest None else Raise StructError
  | [] => Raise StructError
  end.

Definition size_of (k : fcode) : nat :=
  match k with
  | FPad | FU8 | FBool => 1
  | FU16 => 2
  | FI32 | FU32 => 4
  | FStr n => n
  end.

Definition calcsize_items (items : list fcode) : nat :=
  foldr (fun k acc => (size_of k + acc)%nat) 0%nat items.

(** Big-endian encoding of [v] on [n] bytes, least significant byte last. *)
Fixpoint le_encode (n : nat) (v : Z) : bytes :=
  match n with
  | O => []
  | S k => z2b (v mod 256) :: le_encode k (v / 256)
  end.
Definition be_encode (n : nat) (v : Z) : bytes := rev (le_encode n v).
Definition be_decode (bs : bytes) : Z :=
  fold_left (fun acc b => acc * 256 + b2z b) bs 0.

(** An argument used where an integer is required: [bool] is an [int]. *)
Definition as_int (v : pyval) : result Z :=
  match v with
  | VInt z => Ok z
  | VBool b => Ok (if b then 1 else 0)
  | VBytes _ => Raise StructError
  end.

Definition truth (v : pyval) : bool :=
  match v with
  | VInt z => negb (z =? 0)
  | VBool b => b
  | VBytes bs => negb (len bs =? 0)
  end.

Definition pack_uint (n : nat) (v : pyval) : result bytes :=
  let? z := as_int v in
  if (0 <=? z) && (z <? 256 ^ Z.of_nat n) then Ok (be_encode n z)
  else Raise StructError.

Definition pack_i32 (v : pyval) : result bytes :=
  let? z := as_int v in
  if (- 2 ^ 31 <=? z) && (z <? 2 ^ 31) then Ok (be_encode 4 (z mod 2 ^ 32))
  else Raise StructError.

Definition pack_str (n : nat) (v : pyval) : result bytes :=
  match v with
  | VBytes bs => Ok (take n bs ++ replicate (n - length bs) NUL)
  | _ => Raise StructError
  end.

Fixpoint pack_items (items : list fcode) (vals : list pyval) : result bytes :=
  match items with
  | [] => match vals with [] => Ok [] | _ => Raise StructError end
  | FPad :: items' =>
      let? tl := pack_items items' vals in Ok (NUL :: tl)
  | k :: items' =>
      match vals with
      | [] => Raise StructError
      | v :: vals' =>
          let? hd :=
            match k with
            | FU8 => pack_uint 1 v
            | FU16 => pack_uint 2 v
            | FU32 => pack_uint 4 v
            | FI32 => pack_i32 v
            | FBool => Ok [z2b (if truth v then 1 else 0)]
            | FStr n => pack_str n v
            | FPad => Ok []
            end in
          let? tl := pack_items items' vals' in
          Ok (hd ++ tl)
      end
  end.

Definition unpack_field (k : fcode) (bs : bytes) : list pyval :=
  match k with
  | FPad => []
  | FU8 | FU16 | FU32 => [VInt (be_decode bs)]
  | FI32 =>
      let u := be_decode bs in
      [VInt (if 2 ^ 31 <=? u then u - 2 ^ 32 else u)]
  | FBool => [VBool (negb (be_decode bs =? 0))]
  | FStr _ => [VBytes bs]
  end.

Fixpoint unpack_items (items : list fcode) (block : bytes) : list pyval :=
  match items with
  | [] => []
  | k :: items' =>
      unpack_field k (take (size_of k) block)
        ++ unpack_items items' (drop (size_of k) block)
  end.

(** [struct.pack(fmt, *vals)]. *)
Definition pack (fmt : string) (vals : list pyval) : result bytes :=
  let? items := parse_format fmt in pack_items items vals.

(** [struct.unpack(fmt, block)]: the block must have exactly the size the
    format describes. *)
Definition unpack (fmt : string) (block : bytes) : result (list pyval) :=
  let? items := parse_format fmt in
  if (length block =? calcsize_items items)%nat
  then Ok (unpack_items items block)
  else Raise StructError.

End Struct.

Import Struct.

Arguments be_decode : simpl never.
Arguments z2b : simpl never.
Arguments b2z : simpl never.

(** ** [PixelFormat] (RFC 6143, 7.4) *)

Module PixelFormat.

Record t := mk {
  bpp : Z;             (* u8: bits-per-pixel *)
  depth : Z;           (* u8 *)
  bigendian : bool;    (* u8 *)
  truecolor : bool;    (* u8 *)
  redmax : Z;          (* u16 *)
  greenmax : Z;        (* u16 *)
  bluemax : Z;         (* u16 *)
  redshift : Z;        (* u8 *)
  greenshift : Z;      (* u8 *)
  blueshift : Z        (* u8 *)
}.

(** The dataclass defaults, [PixelFormat()]. *)
Definition default : t := mk 32 24 false true 255 255 255 0 8 16.

Definition STRUCT : string := "!BB??HHHBBBxxx".

(** [int.bit_length()] of a non-negative integer. *)
Definition bit_length (z : Z) : Z := if z =? 0 then 0 else Z.log2 z + 1.

(** The assertions of [__post_init__] (run only when [VALIDATE] is set). *)
Definition channel_ok (bpp max shift : Z) : bool :=
  (1 <=? max) && (max <=? 65535)
  && (Z.land max (max + 1) =? 0)
  && (0 <=? shift) && (shift <=? bpp - bit_length max).

Definition post_init_ok (pf : t) : bool :=
  ((bpp pf =? 8) || (bpp pf =? 16) || (bpp pf =? 24) || (bpp pf =? 32))
  && (1 <=? depth pf) && (depth pf <=? bpp pf)
  && (if truecolor pf then
        channel_ok (bpp pf) (redmax pf) (redshift pf)
        && channel_ok (bpp pf) (greenmax pf) (greenshift pf)
        && channel_ok (bpp pf) (bluemax pf) (blueshift pf)
      else true).

(** The field widths declared next to each field ([u8], [u16]). *)
Definition u8 (z : Z) : bool := (0 <=? z) && (z <? 256).
Definition u16 (z : Z) : bool := (0 <=? z) && (z <? 65536).

Definition fields_typed (pf : t) : bool :=
  u8 (bpp pf) && u8 (depth pf)
  && u16 (redmax pf) && u16 (greenmax pf) && u16 (bluemax pf)
  && u8 (redshift pf) && u8 (greenshift pf) && u8 (blueshift pf).

(** A valid pixel format: typed fields that pass the validation. *)
Definition valid (pf : t) : Prop :=
  fields_typed pf = true /\ post_init_ok pf = true.

(** [bypp]: bytes per pixel. *)
Definition bypp (pf : t) : Z := (7 + bpp pf) / 8.

(** [dataclasses.astuple(self)]. *)
Definition astuple (pf : t) : list pyval :=
  [VInt (bpp pf); VInt (depth pf); VBool (bigendian pf); VBool (truecolor pf);
   VInt (redmax pf); VInt (greenmax pf); VInt (bluemax pf);
   VInt (redshift pf); VInt (greenshift pf); VInt (blueshift pf)].

Definition to_bytes (pf : t) : result bytes := pack STRUCT (astuple pf).

(** [from_bytes] builds the dataclass from the unpacked tuple; [VALIDATE]
    is [False], so
    [__post_init__] returns at once. *)
Definition from_bytes (block : bytes) : result t :=
  let? vs := unpack STRUCT block in
  match vs with
  | [VInt a; VInt b; VBool c; VBool d; VInt e; VInt f; VInt g;
     VInt h; VInt i; VInt j] => Ok (mk a b c d e f g h i j)
  | _ => Raise TypeError
  end.

End PixelFormat.

(** ** VNC authentication key: [_vnc_des] *)

(** [sum(...)] over a list of integers. *)
Definition py_sum (l : list Z) : Z := foldr Z.add 0 l.

(** [range(n)]. *)
Definition range (n : Z) : list Z := seqZ 0 n.

(** The [f"{password:\0<8.8}"] format: at most 8 characters, left aligned,
    filled with NUL up to width 8. Characters are code points below 256. *)
Definition format_nul_8_8 (password : string) : list ascii :=
  let s := list_ascii_of_string password in
  take 8 s ++ replicate (8 - length (take 8 s)) NUL.

(** [str.encode("ASCII")]. *)
Definition encode_ascii (s : list ascii) : result bytes :=
  if forallb (fun c => b2z c <? 128) s then Ok s else Raise UnicodeEncodeError.

(** [sum((128 >> i) if (k & (1 << i)) else 0 for i in range(8))]. *)
Definition reverse_bits (k : Z) : Z :=
  py_sum (map (fun i => if Z.land k (Z.shiftl 1 i) =? 0 then 0
                        else Z.shiftr 128 i)
              (range 8)).

Definition _vnc_des (password : string) : result bytes :=
  let pw := format_nul_8_8 password in
  let? key := encode_ascii pw in
  Ok (map (fun k => z2b (reverse_bits (b2z k))) key).

(** ** The protocol engine: [RFBClient] *)

Module RFB.

Definition Rect : Type := Z * Z * Z * Z.
Definition Ver : Type := Z * Z.

(** Tuple comparison, as Python compares [(major, minor)] pairs. *)
Definition ver_le (a b : Ver) : bool :=
  (a.1 <? b.1) || ((a.1 =? b.1) && (a.2 <=? b.2)).
Definition ver_lt (a b : Ver) : bool :=
  (a.1 <? b.1) || ((a.1 =? b.1) && (a.2 <? b.2)).

(** The members of [Encoding], [AuthTypes], [MsgS2C] and [HextileEncoding]
    that the engine tests for. *)
Module Encoding.
Definition RAW := 0.
Definition COPY_RECTANGLE := 1.
Definition RRE := 2.
Definition CORRE := 4.
Definition HEXTILE := 5.
Definition ZRLE := 16.
Definition PSEUDO_DESKTOP_SIZE := -223.
Definition PSEUDO_LAST_RECT := -224.
Definition PSEUDO_CURSOR := -239.
Definition PSEUDO_QEMU_EXTENDED_KEY_EVENT := -258.
Definition PSEUDO_QEMU_AUDIO := -259.
End Encoding.

Module AuthTypes.
Definition INVALID := 0.
Definition NONE := 1.
Definition VNC_AUTHENTICATION := 2.
Definition DIFFIE_HELLMAN := 30.
End AuthTypes.

Module MsgS2C.
Definition FRAMEBUFFER_UPDATE := 0.
Definition SET_COLOUR_MAP_ENTRIES := 1.
Definition BELL := 2.
Definition SERVER_CUT_TEXT := 3.
Definition QEMU_SERVER_MESSAGE := 255.
End MsgS2C.

Module HextileEncoding.
Definition RAW := 1.
Definition BACKGROUND_SPECIFIED := 2.
Definition FOREGROUND_SPECIFIED := 4.
Definition ANY_SUBRECTS := 8.
Definition SUBRECTS_COLORED := 16.
End HextileEncoding.

(** [SUPPORTED_SERVER_VERSIONS], [MAX_CLIENT_VERSION], [SUPPORTED_AUTHS]:
    constant sets, listed in source order. *)
Definition SUPPORTED_SERVER_VERSIONS : list Ver :=
  [(3, 3); (3, 7); (3, 8); (3, 889); (4, 0); (4, 1); (5, 0)].
Definition MAX_CLIENT_VERSION : Ver := (3, 8).
Definition SUPPORTED_AUTHS : list Z :=
  [AuthTypes.NONE; AuthTypes.VNC_AUTHENTICATION; AuthTypes.DIFFIE_HELLMAN].

(** The handler stored by [expect], together with the positional
    arguments stored with it. *)
Inductive Handler :=
| HUnset
| HNumberSecurityTypes
| HSecurityTypes
| HAuth
| HConnFailed
| HConnMessage
| HVNCAuth
| HDHAuth
| HDHAuthKey
| HDHAuthCert
| HVNCAuthResult
| HAuthFailed
| HAuthFailedMessage
| HServerInit
| HServerName
| HConnection
| HQEMUServerMessage
| HQEMUAudioServerMessage
| HQEMUAudioServerProviderMessage
| HQEMUAudioServerStreamMessage (size : Z)
| HFramebufferUpdate
| HRectangle
| HDecodeRAW (x y width height : Z)
| HDecodeCopyrect (x y width height : Z)
| HDecodeRRE (x y width height : Z)
| HRRESubRectangles (topx topy : Z)
| HDecodeCORRE (x y width height : Z)
| HDecodeCORRERectangles (topx topy : Z)
| HDecodeHextile (bg color : option bytes) (x y width height tx ty : Z)
| HDecodeHextileSubrect (subencoding : Z) (bg color : option bytes)
    (x y width height tx ty tw th : Z)
| HDecodeHextileRAW (bg color : option bytes)
    (x y width height tx ty tw th : Z)
| HDecodeHextileSubrectsColoured (bg color : option bytes) (subrects : Z)
    (x y width height tx ty tw th : Z)
| HDecodeHextileSubrectsFG (bg color : option bytes) (subrects : Z)
    (x y width height tx ty tw th : Z)
| HDecodeZRLE (x y width height : Z)
| HDecodeZRLEdata (x y width height : Z)
| HDecodePsuedoCursor (x y width height : Z)
| HColourMapEntries
| HColourMapEntriesValue (first_color : Z)
| HServerCutText
| HServerCutTextValue.

(** [self._handler]: what [dataReceived] calls. *)
Inductive TopHandler := HandleInitial | HandleExpected.

(** What the client does to the outside: bytes written to the transport,
    pauses, and the overridable callbacks, whose bodies are empty in
    [RFBClient]. *)
Inductive Event :=
| Write (data : bytes)
| Close
| Sleep (ms : Z)
| CbConnectionMade
| CbAuthFailed (reason : bytes)
| CbBeginUpdate
| CbCommitUpdate (rects : list Rect)
| CbUpdateRectangle (x y width height : Z) (data : bytes)
| CbCopyRectangle (srcx srcy x y width height : Z)
| CbUpdateCursor (x y width height : Z) (image mask : bytes)
| CbUpdateDesktopSize (width height : Z)
| CbSetColorMap (first : Z) (colors : list (Z * Z * Z))
| CbBell
| CbCopyText (text : bytes)
| CbAudioStreamBegin
| CbAudioStreamData (size : Z) (data : bytes)
| CbAudioStreamEnd.

Record State := mkState {
  _packet : bytes;
  _handler : TopHandler;
  _expected_handler : Handler;
  _expected_len : Z;
  _already_expecting : bool;
  _version : Ver;
  _version_server : Ver;
  _zlib_stream : bytes;  (* the compressed input fed to the inflater so far *)
  negotiated_encodings : gset Z;
  pixel_format : PixelFormat.t;
  username : option string;
  password : option string;
  shared : bool;
  writer : bool;  (* the transport is attached (reader and writer not None) *)
  width : Z;
  height : Z;
  name : bytes;
  rectangles : Z;
  rectanglePos : list Rect;
  _challenge : bytes;
  generator : Z;
  keyLen : Z;
  modulus : bytes;
  serverKey : bytes;
  trace : list Event  (* ghost: writes, sleeps and callback invocations, in order *)
}.

(** Attribute assignment [self.f = v]: one setter per attribute. *)
Definition set_packet (v : bytes) (st : State) : State :=
  mkState v (_handler st) (_expected_handler st) (_expected_len st)
    (_already_expecting st) (_version st) (_version_server st)
    (_zlib_stream st) (negotiated_encodings st) (pixel_format st)
    (username st) (password st) (shared st) (writer st) (width st)
    (height st) (name st) (rectangles st) (rectanglePos st)
    (_challenge st) (generator st) (keyLen st) (modulus st) (serverKey st)
    (trace st).
Definition set_handler (v : TopHandler) (st : State) : State :=
  mkState (_packet st) v (_expected_handler st) (_expected_len st)
    (_already_expecting st) (_version st) (_version_server st)
    (_zlib_stream st) (negotiated_encodings st) (pixel_format st)
    (username st) (password st) (shared st) (writer st) (width st)
    (height st) (name st) (rectangles st) (rectanglePos st)
    (_challenge st) (generator st) (keyLen st) (modulus st) (serverKey st)
    (trace st).
Definition set_expected_handler (v : Handler) (st : State) : State :=
  mkState (_packet st) (_handler st) v (_expected_len st)
    (_already_expecting st) (_version st) (_version_server st)
    (_zlib_stream st) (negotiated_encodings st) (pixel_format st)
    (username st) (password st) (shared st) (writer st) (width st)
    (height st) (name st) (rectangles st) (rectanglePos st)
    (_challenge st) (generator st) (keyLen st) (modulus st) (serverKey st)
    (trace st).
Definition set_expected_len (v : Z) (st : State) : State :=
  mkState (_packet st) (_handler st) (_expected_handler st) v
    (_already_expecting st) (_version st) (_version_server st)
    (_zlib_stream st) (negotiated_encodings st) (pixel_format st)
    (username st) (password st) (shared st) (writer st) (width st)
    (height st) (name st) (rectangles st) (rectanglePos st)
    (_challenge st) (generator st) (keyLen st) (modulus st) (serverKey st)
    (trace st).
Definition set_already_expecting (v : bool) (st : State) : State :=
  mkState (_packet st) (_handler st) (_expected_handler st)
    (_expected_len st) v (_version st) (_version_server st)
    (_zlib_stream st) (negotiated_encodings st) (pixel_format st)
    (username st) (password st) (shared st) (writer st) (width st)
    (height st) (name st) (rectangles st) (rectanglePos st)
    (_challenge st) (generator st) (keyLen st) (modulus st) (serverKey st)
    (trace st).
Definition set_version (v : Ver) (st : State) : State :=
  mkState (_packet st) (_handler st) (_expected_handler st)
    (_expected_len st) (_already_expecting st) v (_version_server st)
    (_zlib_stream st) (negotiated_encodings st) (pixel_format st)
    (username st) (password st) (shared st) (writer st) (width st)
    (height st) (name st) (rectangles st) (rectanglePos st)
    (_challenge st) (generator st) (keyLen st) (modulus st) (serverKey st)
    (trace st).
Definition set_version_server (v : Ver) (st : State) : State :=
  mkState (_packet st) (_handler st) (_expected_handler st)
    (_expected_len st) (_already_expecting st) (_version st) v
    (_zlib_stream st) (negotiated_encodings st) (pixel_format st)
    (username st) (password st) (shared st) (writer st) (width st)
    (height st) (name st) (rectangles st) (rectanglePos st)
    (_challenge st) (generator st) (keyLen st) (modulus st) (serverKey st)
    (trace st).
Definition set_zlib_stream (v : bytes) (st : State) : State :=
  mkState (_packet st) (_handler st) (_expected_handler st)
    (_expected_len st) (_already_expecting st) (_version st)
    (_version_server st) v (negotiated_encodings st) (pixel_format st)
    (username st) (password st) (shared st) (writer st) (width st)
    (height st) (name st) (rectangles st) (rectanglePos st)
    (_challenge st) (generator st) (keyLen st) (modulus st) (serverKey st)
    (trace st).
Definition set_negotiated_encodings (v : gset Z) (st : State) : State :=
  mkState (_packet st) (_handler st) (_expected_handler st)
    (_expected_len st) (_already_expecting st) (_version st)
    (_version_server st) (_zlib_stream st) v (pixel_format st)
    (username st) (password st) (shared st) (writer st) (width st)
    (height st) (name st) (rectangles st) (rectanglePos st)
    (_challenge st) (generator st) (keyLen st) (modulus st) (serverKey st)
    (trace st).
Definition set_pixel_format (v : PixelFormat.t) (st : State) : State :=
  mkState (_packet st) (_handler st) (_expected_handler st)
    (_expected_len st) (_already_expecting st) (_version st)
    (_version_server st) (_zlib_stream st) (negotiated_encodings st) v
    (username st) (password st) (shared st) (writer st) (width st)
    (height st) (name st) (rectangles st) (rectanglePos st)
    (_challenge st) (generator st) (keyLen st) (modulus st) (serverKey st)
    (trace st).
Definition set_username (v : option string) (st : State) : State :=
  mkState (_packet st) (_handler st) (_expected_handler st)
    (_expected_len st) (_already_expecting st) (_version st)
    (_version_server st) (_zlib_stream st) (negotiated_encodings st)
    (pixel_format st) v (password st) (shared st) (writer st) (width st)
    (height st) (name st) (rectangles st) (rectanglePos st)
    (_challenge st) (generator st) (keyLen st) (modulus st) (serverKey st)
    (trace st).
Definition set_password (v : option string) (st : State) : State :=
  mkState (_packet st) (_handler st) (_expected_handler st)
    (_expected_len st) (_already_expecting st) (_version st)
    (_version_server st) (_zlib_stream st) (negotiated_encodings st)
    (pixel_format st) (username st) v (shared st) (writer st) (width st)
    (height st) (name st) (rectangles st) (rectanglePos st)
    (_challenge st) (generator st) (keyLen st) (modulus st) (serverKey st)
    (trace st).
Definition set_shared (v : bool) (st : State) : State :=
  mkState (_packet st) (_handler st) (_expected_handler st)
    (_expected_len st) (_already_expecting st) (_version st)
    (_version_server st) (_zlib_stream st) (negotiated_encodings st)
    (pixel_format st) (username st) (password st) v (writer st) (width st)
    (height st) (name st) (rectangles st) (rectanglePos st)
    (_challenge st) (generator st) (keyLen st) (modulus st) (serverKey st)
    (trace st).
Definition set_writer (v : bool) (st : State) : State :=
  mkState (_packet st) (_handler st) (_expected_handler st)
    (_expected_len st) (_already_expecting st) (_version st)
    (_version_server st) (_zlib_stream st) (negotiated_encodings st)
    (pixel_format st) (username st) (password st) (shared st) v (width st)
    (height st) (name st) (rectangles st) (rectanglePos st)
    (_challenge st) (generator st) (keyLen st) (modulus st) (serverKey st)
    (trace st).
Definition set_width (v : Z) (st : State) : State :=
  mkState (_packet st) (_handler st) (_expected_handler st)
    (_expected_len st) (_already_expecting st) (_version st)
    (_version_server st) (_zlib_stream st) (negotiated_encodings st)
    (pixel_format st) (username st) (password st) (shared st) (writer st)
    v (height st) (name st) (rectangles st) (rectanglePos st)
    (_challenge st) (generator st) (keyLen st) (modulus st) (serverKey st)
    (trace st).
Definition set_height (v : Z) (st : State) : State :=
  mkState (_packet st) (_handler st) (_expected_handler st)
    (_expected_len st) (_already_expecting st) (_version st)
    (_version_server st) (_zlib_stream st) (negotiated_encodings st)
    (pixel_format st) (username st) (password st) (shared st) (writer st)
    (width st) v (name st) (rectangles st) (rectanglePos st)
    (_challenge st) (generator st) (keyLen st) (modulus st) (serverKey st)
    (trace st).
Definition set_name (v : bytes) (st : State) : State :=
  mkState (_packet st) (_handler st) (_expected_handler st)
    (_expected_len st) (_already_expecting st) (_version st)
    (_version_server st) (_zlib_stream st) (negotiated_encodings st)
    (pixel_format st) (username st) (password st) (shared st) (writer st)
    (width st) (height st) v (rectangles st) (rectanglePos st)
    (_challenge st) (generator st) (keyLen st) (modulus st) (serverKey st)
    (trace st).
Definition set_rectangles (v : Z) (st : State) : State :=
  mkState (_packet st) (_handler st) (_expected_handler st)
    (_expected_len st) (_already_expecting st) (_version st)
    (_version_server st) (_zlib_stream st) (negotiated_encodings st)
    (pixel_format st) (username st) (password st) (shared st) (writer st)
    (width st) (height st) (name st) v (rectanglePos st) (_challenge st)
    (generator st) (keyLen st) (modulus st) (serverKey st) (trace st).
Definition set_rectanglePos (v : list Rect) (st : State) : State :=
  mkState (_packet st) (_handler st) (_expected_handler st)
    (_expected_len st) (_already_expecting st) (_version st)
    (_version_server st) (_zlib_stream st) (negotiated_encodings st)
    (pixel_format st) (username st) (password st) (shared st) (writer st)
    (width st) (height st) (name st) (rectangles st) v (_challenge st)
    (generator st) (keyLen st) (modulus st) (serverKey st) (trace st).
Definition set_challenge (v : bytes) (st : State) : State :=
  mkState (_packet st) (_handler st) (_expected_handler st)
    (_expected_len st) (_already_expecting st) (_version st)
    (_version_server st) (_zlib_stream st) (negotiated_encodings st)
    (pixel_format st) (username st) (password st) (shared st) (writer st)
    (width st) (height st) (name st) (rectangles st) (rectanglePos st) v
    (generator st) (keyLen st) (modulus st) (serverKey st) (trace st).
Definition set_generator (v : Z) (st : State) : State :=
  mkState (_packet st) (_handler st) (_expected_handler st)
    (_expected_len st) (_already_expecting st) (_version st)
    (_version_server st) (_zlib_stream st) (negotiated_encodings st)
    (pixel_format st) (username st) (password st) (shared st) (writer st)
    (width st) (height st) (name st) (rectangles st) (rectanglePos st)
    (_challenge st) v (keyLen st) (modulus st) (serverKey st) (trace st).
Definition set_keyLen (v : Z) (st : State) : State :=
  mkState (_packet st) (_handler st) (_expected_handler st)
    (_expected_len st) (_already_expecting st) (_version st)
    (_version_server st) (_zlib_stream st) (negotiated_encodings st)
    (pixel_format st) (username st) (password st) (shared st) (writer st)
    (width st) (height st) (name st) (rectangles st) (rectanglePos st)
    (_challenge st) (generator st) v (modulus st) (serverKey st)
    (trace st).
Definition set_modulus (v : bytes) (st : State) : State :=
  mkState (_packet st) (_handler st) (_expected_handler st)
    (_expected_len st) (_already_expecting st) (_version st)
    (_version_server st) (_zlib_stream st) (negotiated_encodings st)
    (pixel_format st) (username st) (password st) (shared st) (writer st)
    (width st) (height st) (name st) (rectangles st) (rectanglePos st)
    (_challenge st) (generator st) (keyLen st) v (serverKey st) (trace st).
Definition set_serverKey (v : bytes) (st : State) : State :=
  mkState (_packet st) (_handler st) (_expected_handler st)
    (_expected_len st) (_already_expecting st) (_version st)
    (_version_server st) (_zlib_stream st) (negotiated_encodings st)
    (pixel_format st) (username st) (password st) (shared st) (writer st)
    (width st) (height st) (name st) (rectangles st) (rectanglePos st)
    (_challenge st) (generator st) (keyLen st) (modulus st) v (trace st).
Definition set_trace (v : list Event) (st : State) : State :=
  mkState (_packet st) (_handler st) (_expected_handler st)
    (_expected_len st) (_already_expecting st) (_version st)
    (_version_server st) (_zlib_stream st) (negotiated_encodings st)
    (pixel_format st) (username st) (password st) (shared st) (writer st)
    (width st) (height st) (name st) (rectangles st) (rectanglePos st)
    (_challenge st) (generator st) (keyLen st) (modulus st) (serverKey st)
    v.

(** [RFBClient.__init__]; the transport is attached by [connect]. *)
Definition init : State :=
  mkState [] HandleInitial HUnset 12 false (0, 0) (0, 0) []
    {[ Encoding.RAW ]} PixelFormat.default None None false false
    0 0 [] 0 [] [] 0 0 [] [] [].

(** [connect(reader, writer, username, password, shared)]. *)
Definition connect (username password : option string) (shared : bool)
    (st : State) : State :=
  set_shared shared (set_password password (set_username username
    (set_writer true st))).

(** The result of a method: it returns, or raises with the object in the
    state the exception left it in; [OutOfFuel] only bounds the model of
    the dispatch loop. *)
Inductive outcome :=
| Done (st : State)
| Raised (e : exn) (st : State)
| OutOfFuel.

Definition obind (o : outcome) (k : State -> outcome) : outcome :=
  match o with Done st => k st | _ => o end.

Definition lift {A} (st : State) (r : result A) (k : A -> outcome) : outcome :=
  match r with Ok a => k a | Raise e => Raised e st end.

Notation "'do' st '<-' m 'in' k" := (obind m (fun st => k))
  (at level 10, st name, m at level 100, k at level 200).
Notation "'let!' x ':=' r 'raising' st 'in' k" := (lift st r (fun x => k))
  (at level 10, x name, r at level 100, st at level 0, k at level 200).

Definition bypp (st : State) : Z := PixelFormat.bypp (pixel_format st).

Definition log (e : Event) (st : State) : State :=
  set_trace (trace st ++ [e]) st.

Definition _write (data : bytes) (st : State) : State :=
  if writer st then log (Write data) st else st.

Definition disconnect (st : State) : State :=
  if writer st then set_writer false (log Close st) else st.

(** [block[i]]. *)
Definition index (block : bytes) (i : Z) : result Z :=
  if i <? 0 then Raise IndexError
  else match block !! Z.to_nat i with
       | Some b => Ok (b2z b)
       | None => Raise IndexError
       end.

(** [max(...)] of a sequence of version pairs or of integers. *)
Definition max_ver (l : list Ver) : result Ver :=
  match l with
  | [] => Raise ValueError
  | v :: l' => Ok (fold_left (fun m w => if ver_lt m w then w else m) l' v)
  end.
Definition max_int (l : list Z) : result Z :=
  match l with
  | [] => Raise ValueError
  | v :: l' => Ok (fold_left Z.max l' v)
  end.

(** ** Connection start-up *)

Definition is_digit (c : ascii) : bool := (48 <=? b2z c) && (b2z c <=? 57).

Definition _HEADER : bytes := bytes_of "RFB 000.000" ++ [LF].

(** [bytes.translate(_HEADER_TRANSLATE)]: every digit becomes [0]. *)
Definition translate_header (head : bytes) : bytes :=
  map (fun c => if is_digit c then "0"%char else c) head.

(** [a.startswith(b)]. *)
Fixpoint startswith (a b : bytes) : bool :=
  match b, a with
  | [], _ => true
  | y :: b', x :: a' => Ascii.eqb x y && startswith a' b'
  | _ :: _, [] => false
  end.

(** [int(b)] for a run of ASCII digits. *)
Definition int_of_digits (b : bytes) : result Z :=
  if forallb is_digit b && negb (len b =? 0)
  then Ok (fold_left (fun acc c => acc * 10 + (b2z c - 48)) b 0)
  else Raise ValueError.

(** The [%03d] conversion of a non-negative integer. *)
Definition fmt_03d (n : Z) : bytes :=
  let s := list_ascii_of_string (pretty n) in
  replicate (3 - length s) "0"%char ++ s.

(** [b"RFB %03d.%03d\n" % version]. *)
Definition format_header (version : Ver) : bytes :=
  bytes_of "RFB " ++ fmt_03d version.1 ++ bytes_of "." ++ fmt_03d version.2
    ++ [LF].

Section Handlers.

(** The externals of the engine: the cryptographic primitives, the
    inflater of the connection (as a function of the compressed input
    it was fed before and of the new chunk), and the terminal prompts of
    Apple Remote Desktop authentication. *)
Record Externals := {
  des_ecb_encrypt : bytes -> bytes -> result bytes;
  zlib_decompress : bytes -> bytes -> result bytes;
  ard_response : string -> string -> Z -> bytes -> bytes -> result bytes;
  prompt_username : string;
  prompt_password : string
}.

Variable ext : Externals.

(** [_handleExpected], as seen from inside a handler. *)
Variable handleExpected : State -> outcome.

(** [expect(handler, size, *args)]. *)
Definition expect (handler : Handler) (size : Z) (st : State) : outcome :=
  let st := set_expected_handler handler st in
  let st := set_expected_len size st in
  if _already_expecting st then Done st
  else handleExpected st.  (* in case there is already enough data *)

Definition _handleInitial (st : State) : outcome :=
  let head := slice_to (_packet st) 12 in
  let norm := translate_header head in
  if decide (norm = _HEADER) then
    let! major := int_of_digits (slice head 4 7) raising st in
    let! minor := int_of_digits (slice head 8 11) raising st in
    let version_server := (major, minor) in
    let! version :=
      max_ver (List.filter (fun v => ver_le v version_server)
                           SUPPORTED_SERVER_VERSIONS) raising st in
    let version :=
      if ver_lt MAX_CLIENT_VERSION version then MAX_CLIENT_VERSION
      else version in
    let st := set_packet (slice_from (_packet st) 12) st in
    let st := _write (format_header version) st in
    let st := set_handler HandleExpected st in
    let st := set_version version st in
    let st := set_version_server version_server st in
    if ver_lt version (3, 7) then expect HAuth 4 st
    else expect HNumberSecurityTypes 1 st
  else if negb (startswith _HEADER norm) then
    Done (disconnect st)
  else Done st.

(** [sendPassword]: the challenge encrypted under the mangled key. *)
Definition sendPassword (password : string) (st : State) : outcome :=
  let! key := _vnc_des password raising st in
  let! response := des_ecb_encrypt ext key (_challenge st) raising st in
  Done (_write response st).

Definition vncRequestPassword (st : State) : outcome :=
  match password st with
  | None => Done (disconnect st)
  | Some pw => sendPassword pw st
  end.

Definition _doClientInitialization (st : State) : outcome :=
  let! data := pack "!B" [VBool (shared st)] raising st in
  let st := _write data st in
  expect HServerInit 24 st.

Definition _handleNumberSecurityTypes (block : bytes) (st : State) : outcome :=
  let! vs := unpack "!B" block raising st in
  match vs with
  | [VInt num_types] =>
      if negb (num_types =? 0) then expect HSecurityTypes num_types st
      else expect HConnFailed 4 st
  | _ => Raised ValueError st
  end.

Definition ints_of (vs : list pyval) : list Z :=
  omap (fun v => match v with VInt z => Some z | _ => None end) vs.

Definition _handleSecurityTypes (block : bytes) (st : State) : outcome :=
  let! vs := unpack ("!" +:+ pretty (len block) +:+ "B") block raising st in
  let types := ints_of vs in
  let valid_types :=
    List.filter (fun t => bool_decide (t ∈ SUPPORTED_AUTHS)) types in
  if negb (len valid_types =? 0) then
    let! sec_type := max_int valid_types raising st in
    let! data := pack "!B" [VInt sec_type] raising st in
    let st := _write data st in
    if sec_type =? AuthTypes.NONE then
      if ver_lt (_version st) (3, 8) then _doClientInitialization st
      else expect HVNCAuthResult 4 st
    else if sec_type =? AuthTypes.VNC_AUTHENTICATION then
      expect HVNCAuth 16 st
    else if sec_type =? AuthTypes.DIFFIE_HELLMAN then
      expect HDHAuth 4 st
    else Done st
  else Done (disconnect st).

Definition _handleAuth (block : bytes) (st : State) : outcome :=
  let! vs := unpack "!I" block raising st in
  match vs with
  | [VInt auth] =>
      if auth =? AuthTypes.INVALID then expect HConnFailed 4 st
      else if auth =? AuthTypes.NONE then _doClientInitialization st
      else if auth =? AuthTypes.VNC_AUTHENTICATION then expect HVNCAuth 16 st
      else Done (disconnect st)
  | _ => Raised ValueError st
  end.

Definition _handleConnFailed (block : bytes) (st : State) : outcome :=
  let! vs := unpack "!I" block raising st in
  match vs with
  | [VInt waitfor] => expect HConnMessage waitfor st
  | _ => Raised ValueError st
  end.

Definition _handleConnMessage (block : bytes) (st : State) : outcome :=
  Done (disconnect st).

Definition _handleVNCAuth (block : bytes) (st : State) : outcome :=
  let st := set_challenge block st in
  do st <- vncRequestPassword st in
  expect HVNCAuthResult 4 st.

Definition _handleDHAuth (block : bytes) (st : State) : outcome :=
  let! vs := unpack "!HH" block raising st in
  match vs with
  | [VInt g; VInt k] =>
      let st := set_keyLen k (set_generator g st) in
      expect HDHAuthKey (keyLen st) st
  | _ => Raised ValueError st
  end.

Definition _handleDHAuthKey (block : bytes) (st : State) : outcome :=
  let st := set_modulus block st in
  expect HDHAuthCert (keyLen st) st.

Definition ardRequestCredentials (st : State) : State :=
  let st := match username st with
            | None => set_username (Some (prompt_username ext)) st
            | Some _ => st
            end in
  match password st with
  | None => set_password (Some (prompt_password ext)) st
  | Some _ => st
  end.

(** [_encryptArd]: the Diffie-Hellman exchange, the MD5 digest and the
    AES encryption are one external step. *)
Definition _encryptArd (st : State) : outcome :=
  let! data :=
    ard_response ext (default ""%string (username st))
      (default ""%string (password st)) (generator st) (modulus st)
      (serverKey st) raising st in
  Done (_write data st).

Definition _handleDHAuthCert (block : bytes) (st : State) : outcome :=
  let st := set_serverKey block st in
  let st := ardRequestCredentials st in
  do st <- _encryptArd st in
  expect HVNCAuthResult 4 st.

Definition vncAuthFailed (reason : bytes) (st : State) : State :=
  log (CbAuthFailed reason) st.

Definition _handleVNCAuthResult (block : bytes) (st : State) : outcome :=
  let! vs := unpack "!I" block raising st in
  match vs with
  | [VInt result] =>
      if result =? 0 then _doClientInitialization st
      else if result =? 1 then
        if ver_lt (_version st) (3, 8) then
          Done (disconnect
                  (vncAuthFailed (bytes_of "authentication failed") st))
        else expect HAuthFailed 4 st
      else if result =? 2 then
        if ver_lt (_version st) (3, 8) then
          Done (disconnect
                  (vncAuthFailed (bytes_of "too many tries to log in") st))
        else expect HAuthFailed 4 st
      else Done (disconnect st)
  | _ => Raised ValueError st
  end.

Definition _handleAuthFailed (block : bytes) (st : State) : outcome :=
  let! vs := unpack "!I" block raising st in
  match vs with
  | [VInt waitfor] => expect HAuthFailedMessage waitfor st
  | _ => Raised ValueError st
  end.

Definition _handleAuthFailedMessage (block : bytes) (st : State) : outcome :=
  Done (disconnect (vncAuthFailed block st)).

Definition _handleServerInit (block : bytes) (st : State) : outcome :=
  let! vs := unpack "!HH16sI" block raising st in
  match vs with
  | [VInt w; VInt h; VBytes pixformat; VInt namelen] =>
      let st := set_height h (set_width w st) in
      let! pf := PixelFormat.from_bytes pixformat raising st in
      let st := set_pixel_format pf st in
      expect HServerName namelen st
  | _ => Raised ValueError st
  end.

Definition _handleServerName (block : bytes) (st : State) : outcome :=
  let st := set_name block st in
  let st := log CbConnectionMade st in
  expect HConnection 1 st.

(** ** Server to client messages *)

Definition _handleConnection (block : bytes) (st : State) : outcome :=
  let! vs := unpack "!B" block raising st in
  match vs with
  | [VInt msgid] =>
      if msgid =? MsgS2C.FRAMEBUFFER_UPDATE then expect HFramebufferUpdate 3 st
      else if msgid =? MsgS2C.SET_COLOUR_MAP_ENTRIES then
        expect HColourMapEntries 5 st
      else if msgid =? MsgS2C.BELL then
        expect HConnection 1 (log CbBell st)
      else if msgid =? MsgS2C.SERVER_CUT_TEXT then expect HServerCutText 7 st
      else if msgid =? MsgS2C.QEMU_SERVER_MESSAGE then
        expect HQEMUServerMessage 1 st
      else Done (disconnect st)
  | _ => Raised ValueError st
  end.

Definition _handleQEMUServerMessage (block : bytes) (st : State) : outcome :=
  let! vs := unpack "!B" block raising st in
  match vs with
  | [VInt smsgid] =>
      if smsgid =? 1 then expect HQEMUAudioServerMessage 2 st
      else Done (disconnect st)
  | _ => Raised ValueError st
  end.

Definition _handleQEMUAudioServerMessage (block : bytes) (st : State)
  : outcome :=
  let! vs := unpack "!H" block raising st in
  match vs with
  | [VInt op] =>
      if op =? 0 then expect HConnection 1 (log CbAudioStreamEnd st)
      else if op =? 1 then expect HConnection 1 (log CbAudioStreamBegin st)
      else if op =? 2 then expect HQEMUAudioServerProviderMessage 4 st
      else Done (disconnect st)
  | _ => Raised ValueError st
  end.

Definition _handleQEMUAudioServerProviderMessage (block : bytes)
    (st : State) : outcome :=
  let! vs := unpack "!I" block raising st in
  match vs with
  | [VInt size] => expect (HQEMUAudioServerStreamMessage size) size st
  | _ => Raised ValueError st
  end.

Definition _handleQEMUAudioServerStreamMessage (block : bytes) (size : Z)
    (st : State) : outcome :=
  expect HConnection 1 (log (CbAudioStreamData size block) st).

(** [_doConnection]: the next rectangle, or the end of the update. *)
Definition _doConnection (st : State) : outcome :=
  if negb (rectangles st =? 0) then expect HRectangle 12 st
  else
    let st :=
      match rectanglePos st with
      | [] => st
      | _ :: _ => log (CbCommitUpdate (rectanglePos st)) st
      end in
    expect HConnection 1 st.

Definition _handleFramebufferUpdate (block : bytes) (st : State) : outcome :=
  let! vs := unpack "!xH" block raising st in
  match vs with
  | [VInt n] =>
      let st := set_rectangles n st in
      let st := set_rectanglePos [] st in
      let st := log CbBeginUpdate st in
      _doConnection st
  | _ => Raised ValueError st
  end.

(** The [updateRectangle] callback, and [fillRectangle], whose fallback
    body calls it with [color * width * height]. *)
Definition updateRectangle (x y width height : Z) (data : bytes)
    (st : State) : State :=
  log (CbUpdateRectangle x y width height data) st.

Definition fillRectangle (x y width height : Z) (color : option bytes)
    (st : State) : outcome :=
  match color with
  | None => Raised TypeError st
  | Some c =>
      Done (updateRectangle x y width height
              (bytes_mul (bytes_mul c width) height) st)
  end.

(** [_doNextHextileSubrect]: the position of the next 16x16 tile. *)
Definition _doNextHextileSubrect (bg color : option bytes)
    (x y width height : Z) (tx ty : option Z) (st : State) : outcome :=
  let! t :=
    match tx with
    | Some tx =>
        match ty with
        | None => Raise AssertionError
        | Some ty =>
            let tx := tx + 16 in
            if tx >=? x + width then Ok (x, ty + 16) else Ok (tx, ty)
        end
    | None => Ok (x, y)
    end raising st in
  let '(tx, ty) := t in
  if ty >=? y + height then _doConnection st
  else expect (HDecodeHextile bg color x y width height tx ty) 1 st.

Definition _handleRectangle (block : bytes) (st : State) : outcome :=
  let! vs := unpack "!HHHHi" block raising st in
  match vs with
  | [VInt x; VInt y; VInt width; VInt height; VInt encoding] =>
      let st :=
        if encoding =? Encoding.PSEUDO_LAST_RECT then set_rectangles 0 st
        else st in
      if negb (rectangles st =? 0) then
        let st := set_rectangles (rectangles st - 1) st in
        let st :=
          set_rectanglePos (rectanglePos st ++ [(x, y, width, height)]) st in
        if encoding =? Encoding.COPY_RECTANGLE then
          expect (HDecodeCopyrect x y width height) 4 st
        else if encoding =? Encoding.RAW then
          expect (HDecodeRAW x y width height) (width * height * bypp st) st
        else if encoding =? Encoding.HEXTILE then
          _doNextHextileSubrect None None x y width height None None st
        else if encoding =? Encoding.CORRE then
          expect (HDecodeCORRE x y width height) (4 + bypp st) st
        else if encoding =? Encoding.RRE then
          expect (HDecodeRRE x y width height) (4 + bypp st) st
        else if encoding =? Encoding.ZRLE then
          expect (HDecodeZRLE x y width height) 4 st
        else if encoding =? Encoding.PSEUDO_CURSOR then
          let length := width * height * bypp st in
          let length := length + ((width + 7) / 8) * height in
          expect (HDecodePsuedoCursor x y width height) length st
        else if encoding =? Encoding.PSEUDO_DESKTOP_SIZE then
          _doConnection (log (CbUpdateDesktopSize width height) st)
        else if encoding =? Encoding.PSEUDO_QEMU_EXTENDED_KEY_EVENT then
          let st :=
            set_negotiated_encodings
              ({[ Encoding.PSEUDO_QEMU_EXTENDED_KEY_EVENT ]}
                 ∪ negotiated_encodings st) st in
          (* del self.rectanglePos[-1]: undo the append *)
          let st := set_rectanglePos (removelast (rectanglePos st)) st in
          _doConnection st
        else if encoding =? Encoding.PSEUDO_QEMU_AUDIO then
          let st :=
            set_negotiated_encodings
              ({[ Encoding.PSEUDO_QEMU_AUDIO ]} ∪ negotiated_encodings st)
              st in
          let st := set_rectanglePos (removelast (rectanglePos st)) st in
          _doConnection st
        else Done (disconnect st)
      else _doConnection st
  | _ => Raised ValueError st
  end.

(** RAW and CopyRect. *)
Definition _handleDecodeRAW (block : bytes) (x y width height : Z)
    (st : State) : outcome :=
  _doConnection (updateRectangle x y width height block st).

Definition _handleDecodeCopyrect (block : bytes) (x y width height : Z)
    (st : State) : outcome :=
  let! vs := unpack "!HH" block raising st in
  match vs with
  | [VInt srcx; VInt srcy] =>
      _doConnection (log (CbCopyRectangle srcx srcy x y width height) st)
  | _ => Raised ValueError st
  end.

(** RRE. *)
Definition _handleDecodeRRE (block : bytes) (x y width height : Z)
    (st : State) : outcome :=
  let! vs := unpack "!I" (slice_to block 4) raising st in
  match vs with
  | [VInt subrects] =>
      let color := slice_from block 4 in
      do st <- fillRectangle x y width height (Some color) st in
      if negb (subrects =? 0) then
        expect (HRRESubRectangles x y) ((8 + bypp st) * subrects) st
      else _doConnection st
  | _ => Raised ValueError st
  end.

(** The [while pos < end] loop of [_handleRRESubRectangles]; [n] bounds
    the number of iterations. *)
Fixpoint rre_subrects (n : nat) (block : bytes) (topx topy : Z)
    (sz : Z) (format : string) (pos : Z) (st : State) : outcome :=
  if pos <? len block then
    match n with
    | O => OutOfFuel
    | S n' =>
        let! vs := unpack format (slice block pos (pos + sz)) raising st in
        match vs with
        | [VBytes color; VInt x; VInt y; VInt width; VInt height] =>
            do st <- fillRectangle (topx + x) (topy + y) width height
                       (Some color) st in
            rre_subrects n' block topx topy sz format (pos + sz) st
        | _ => Raised ValueError st
        end
    end
  else _doConnection st.

Definition _handleRRESubRectangles (block : bytes) (topx topy : Z)
    (st : State) : outcome :=
  let sz := bypp st + 8 in
  let format := "!" +:+ pretty (bypp st) +:+ "sHHHH" in
  rre_subrects (length block) block topx topy sz format 0 st.

(** CoRRE. *)
Definition _handleDecodeCORRE (block : bytes) (x y width height : Z)
    (st : State) : outcome :=
  let! vs := unpack "!I" (slice_to block 4) raising st in
  match vs with
  | [VInt subrects] =>
      let color := slice_from block 4 in
      do st <- fillRectangle x y width height (Some color) st in
      if negb (subrects =? 0) then
        expect (HDecodeCORRERectangles x y) ((4 + bypp st) * subrects) st
      else _doConnection st
  | _ => Raised ValueError st
  end.

(** The [while pos < sz] loop of [_handleDecodeCORRERectangles]; the
    format is the string literal of the source, which is not an
    f-string. *)
Fixpoint corre_subrects (n : nat) (block : bytes) (topx topy : Z)
    (sz : Z) (format : string) (pos : Z) (st : State) : outcome :=
  if pos <? sz then
    match n with
    | O => OutOfFuel
    | S n' =>
        let! vs := unpack format (slice block pos (pos + sz)) raising st in
        match vs with
        | [VBytes color; VInt x; VInt y; VInt width; VInt height] =>
            do st <- fillRectangle (topx + x) (topy + y) width height
                       (Some color) st in
            corre_subrects n' block topx topy sz format (pos + sz) st
        | _ => Raised ValueError st
        end
    end
  else _doConnection st.

Definition _handleDecodeCORRERectangles (block : bytes) (topx topy : Z)
    (st : State) : outcome :=
  let sz := bypp st + 4 in
  let format := "!{self.bypp}sBBBB"%string in
  corre_subrects (S (length block)) block topx topy sz format 0 st.

(** Hextile. [flag subencoding f] is the truth of [subencoding & f]. *)
Definition flag (subencoding f : Z) : bool :=
  negb (Z.land subencoding f =? 0).

Definition _handleDecodeHextile (block : bytes) (bg color : option bytes)
    (x y width height tx ty : Z) (st : State) : outcome :=
  let! subencoding := index block 0 raising st in
  let tw := if x + width - tx <? 16 then x + width - tx else 16 in
  let th := if y + height - ty <? 16 then y + height - ty else 16 in
  if flag subencoding HextileEncoding.RAW then
    expect (HDecodeHextileRAW bg color x y width height tx ty tw th)
           (tw * th * bypp st) st
  else
    let numbytes := 0 in
    let numbytes :=
      if flag subencoding HextileEncoding.BACKGROUND_SPECIFIED
      then numbytes + bypp st else numbytes in
    let numbytes :=
      if flag subencoding HextileEncoding.FOREGROUND_SPECIFIED
      then numbytes + bypp st else numbytes in
    let numbytes :=
      if flag subencoding HextileEncoding.ANY_SUBRECTS
      then numbytes + 1 else numbytes in
    if negb (numbytes =? 0) then
      expect (HDecodeHextileSubrect subencoding bg color x y width height
                tx ty tw th) numbytes st
    else
      do st <- fillRectangle tx ty tw th bg st in
      _doNextHextileSubrect bg color x y width height (Some tx) (Some ty) st.

Definition _handleDecodeHextileSubrect (block : bytes) (subencoding : Z)
    (bg color : option bytes) (x y width height tx ty tw th : Z)
    (st : State) : outcome :=
  let subrects := 0 in
  let pos := 0 in
  let '(bg, pos) :=
    if flag subencoding HextileEncoding.BACKGROUND_SPECIFIED
    then (Some (slice_to block (bypp st)), pos + bypp st)
    else (bg, pos) in
  do st <- fillRectangle tx ty tw th bg st in
  let '(color, pos) :=
    if flag subencoding HextileEncoding.FOREGROUND_SPECIFIED
    then (Some (slice block pos (pos + bypp st)), pos + bypp st)
    else (color, pos) in
  let! subrects :=
    if flag subencoding HextileEncoding.ANY_SUBRECTS
    then index block pos else Ok subrects raising st in
  if negb (subrects =? 0) then
    if flag subencoding HextileEncoding.SUBRECTS_COLORED then
      expect (HDecodeHextileSubrectsColoured bg color subrects x y width
                height tx ty tw th) ((bypp st + 2) * subrects) st
    else
      expect (HDecodeHextileSubrectsFG bg color subrects x y width height
                tx ty tw th) (2 * subrects) st
  else
    _doNextHextileSubrect bg color x y width height (Some tx) (Some ty) st.

Definition _handleDecodeHextileRAW (block : bytes)
    (bg color : option bytes) (x y width height tx ty tw th : Z)
    (st : State) : outcome :=
  let st := updateRectangle tx ty tw th block st in
  _doNextHextileSubrect bg color x y width height (Some tx) (Some ty) st.

(** The subrectangle loops; the colour of the last subrectangle stays
    the foreground colour of the tiles that follow. *)
Fixpoint hextile_coloured (n : nat) (block : bytes) (sz : Z)
    (bg color : option bytes) (x y width height tx ty : Z) (pos : Z)
    (st : State) : outcome :=
  if pos <? len block then
    match n with
    | O => OutOfFuel
    | S n' =>
        let pos2 := pos + bypp st in
        let color := Some (slice block pos pos2) in
        let! xy := index block pos2 raising st in
        let! wh := index block (pos2 + 1) raising st in
        let sx := Z.shiftr xy 4 in
        let sy := Z.land xy 15 in
        let sw := Z.shiftr wh 4 + 1 in
        let sh := Z.land wh 15 + 1 in
        do st <- fillRectangle (tx + sx) (ty + sy) sw sh color st in
        hextile_coloured n' block sz bg color x y width height tx ty
          (pos + sz) st
    end
  else
    _doNextHextileSubrect bg color x y width height (Some tx) (Some ty) st.

Definition _handleDecodeHextileSubrectsColoured (block : bytes)
    (bg color : option bytes) (subrects : Z)
    (x y width height tx ty tw th : Z) (st : State) : outcome :=
  hextile_coloured (length block) block (bypp st + 2) bg color
    x y width height tx ty 0 st.

Fixpoint hextile_fg (n : nat) (block : bytes)
    (bg color : option bytes) (x y width height tx ty : Z) (pos : Z)
    (st : State) : outcome :=
  if pos <? len block then
    match n with
    | O => OutOfFuel
    | S n' =>
        let! xy := index block pos raising st in
        let! wh := index block (pos + 1) raising st in
        let sx := Z.shiftr xy 4 in
        let sy := Z.land xy 15 in
        let sw := Z.shiftr wh 4 + 1 in
        let sh := Z.land wh 15 + 1 in
        do st <- fillRectangle (tx + sx) (ty + sy) sw sh color st in
        hextile_fg n' block bg color x y width height tx ty (pos + 2) st
    end
  else
    _doNextHextileSubrect bg color x y width height (Some tx) (Some ty) st.

Definition _handleDecodeHextileSubrectsFG (block : bytes)
    (bg color : option bytes) (subrects : Z)
    (x y width height tx ty tw th : Z) (st : State) : outcome :=
  hextile_fg (length block) block bg color x y width height tx ty 0 st.

(** ZRLE. The iterator over the inflated data is the list of the bytes
    not yet consumed. *)
Definition _handleDecodeZRLE (block : bytes) (x y width height : Z)
    (st : State) : outcome :=
  let! vs := unpack "!L" block raising st in
  match vs with
  | [VInt compressed_bytes] =>
      expect (HDecodeZRLEdata x y width height) compressed_bytes st
  | _ => Raised ValueError st
  end.

(** [cpixel(i)]: three bytes, and 0xFF appended. *)
Definition cpixel (it : bytes) : result (bytes * bytes) :=
  match it with
  | a :: b :: c :: rest => Ok ([a; b; c; z2b 255], rest)
  | _ => Raise StopIteration
  end.

(** The [while run_length_next == 255] loop of [do_rle]. *)
Fixpoint do_rle_while (it : bytes) (run_length_next run_length : Z)
  : result (Z * bytes) :=
  if run_length_next =? 255 then
    match it with
    | [] => Raise StopIteration
    | b :: rest => do_rle_while rest (b2z b) (run_length + b2z b)
    end
  else Ok (run_length, it).

(** [do_rle(pixel)]: returns the number of pixels of the run, with the
    iterator and [pixel_data] after it. *)
Definition do_rle (pixel : bytes) (it : bytes) (pixel_data : bytes)
  : result (Z * bytes * bytes) :=
  match it with
  | [] => Raise StopIteration
  | b :: rest =>
      let run_length_next := b2z b in
      let run_length := run_length_next in
      let? r := do_rle_while rest run_length_next run_length in
      let '(run_length, it) := r in
      Ok (run_length + 1, it, pixel_data ++ bytes_mul pixel (run_length + 1))
  end.

(** [palette[i]]. *)
Definition palette_get (palette : list bytes) (i : Z) : result bytes :=
  if i <? 0 then Raise IndexError
  else match palette !! Z.to_nat i with
       | Some c => Ok c
       | None => Raise IndexError
       end.

(** [[cpixel(it) for p in range(palette_size)]]. *)
Fixpoint read_palette (n : nat) (it : bytes) : result (list bytes * bytes) :=
  match n with
  | O => Ok ([], it)
  | S n' =>
      let? r := cpixel it in
      let '(c, it) := r in
      let? r' := read_palette n' it in
      let '(cs, it) := r' in
      Ok (c :: cs, it)
  end.

(** The two [while num_pixels < pixels_in_tile] loops. Every iteration
    consumes input, so [n] at least the length of the input plus one is
    never used up. *)
Fixpoint plain_rle (n : nat) (it : bytes) (pixels_in_tile num_pixels : Z)
    (pixel_data : bytes) : result (Z * bytes * bytes) :=
  if num_pixels <? pixels_in_tile then
    match n with
    | O => Raise StopIteration
    | S n' =>
        let? r := cpixel it in
        let '(color, it) := r in
        let? r' := do_rle color it pixel_data in
        let '(k, it, pixel_data) := r' in
        plain_rle n' it pixels_in_tile (num_pixels + k) pixel_data
    end
  else Ok (num_pixels, it, pixel_data).

(** One iteration of the palette loop: an index byte, and a run when its
    high bit is set. *)
Definition palette_rle_step (palette : list bytes) (it : bytes)
    (pixel_data : bytes) : result (Z * bytes * bytes) :=
  match it with
  | [] => Raise StopIteration
  | b :: it =>
      let palette_index := b2z b in
      if negb (Z.land palette_index 128 =? 0) then
        let palette_index := Z.land palette_index 127 in
        let? pixel := palette_get palette palette_index in
        do_rle pixel it pixel_data
      else
        let? pixel := palette_get palette palette_index in
        Ok (1, it, pixel_data ++ pixel)
  end.

Fixpoint palette_rle (n : nat) (palette : list bytes) (it : bytes)
    (pixels_in_tile num_pixels : Z) (pixel_data : bytes)
  : result (Z * bytes * bytes) :=
  if num_pixels <? pixels_in_tile then
    match n with
    | O => Raise StopIteration
    | S n' =>
        let? r := palette_rle_step palette it pixel_data in
        let '(k, it, pixel_data) := r in
        palette_rle n' palette it pixels_in_tile (num_pixels + k) pixel_data
    end
  else Ok (num_pixels, it, pixel_data).

(** [for _ in range(pixels_in_tile): pixel_data.extend(cpixel(it))]. *)
Fixpoint raw_cpixels (n : nat) (it : bytes) (pixel_data : bytes)
  : result (bytes * bytes) :=
  match n with
  | O => Ok (it, pixel_data)
  | S n' =>
      let? r := cpixel it in
      let '(c, it) := r in
      raw_cpixels n' it (pixel_data ++ c)
  end.

(** The generators [_zrle_next_bit], [_zrle_next_dibit] and
    [_zrle_next_nibble], run together with the loop that consumes them:
    one byte gives the indices [(b >> shift) & mask] for the shifts in
    order, and the generator returns once [pixels_in_tile] indices were
    given. The boolean tells whether it returned. *)
Fixpoint packed_byte (shifts : list Z) (mask b : Z) (palette : list bytes)
    (pixels_in_tile num_pixels : Z) (pixel_data : bytes)
  : result (bool * Z * bytes) :=
  match shifts with
  | [] => Ok (false, num_pixels, pixel_data)
  | shift :: shifts' =>
      let value := Z.land (Z.shiftr b shift) mask in
      let? pixel := palette_get palette value in
      let pixel_data := pixel_data ++ pixel in
      let num_pixels := num_pixels + 1 in
      if num_pixels =? pixels_in_tile then Ok (true, num_pixels, pixel_data)
      else packed_byte shifts' mask b palette pixels_in_tile num_pixels
             pixel_data
  end.

Fixpoint packed_indices (it : bytes) (shifts : list Z) (mask : Z)
    (palette : list bytes) (pixels_in_tile num_pixels : Z)
    (pixel_data : bytes) : result (bytes * bytes) :=
  match it with
  | [] => Raise RuntimeError
  | b :: rest =>
      let? r := packed_byte shifts mask (b2z b) palette pixels_in_tile
                  num_pixels pixel_data in
      let '(returned, num_pixels, pixel_data) := r in
      if returned : bool then Ok (rest, pixel_data)
      else packed_indices rest shifts mask palette pixels_in_tile
             num_pixels pixel_data
  end.

(** What one tile asks of the frame buffer. *)
Inductive tile :=
| TileUpdate (data : bytes)
| TileFill (color : bytes).

(** The body of the [for subencoding in it] loop, up to the call that
    draws the tile. *)
Definition zrle_tile (subencoding : Z) (it : bytes) (pixels_in_tile : Z)
  : result (tile * bytes) :=
  let num_pixels := 0 in
  let pixel_data : bytes := [] in
  let palette_size := Z.land subencoding 127 in
  if negb (Z.land subencoding 128 =? 0) then
    if palette_size =? 0 then
      let? r := plain_rle (S (length it)) it pixels_in_tile num_pixels
                  pixel_data in
      let '(num_pixels, it, pixel_data) := r in
      if negb (num_pixels =? pixels_in_tile) then Raise ValueError
      else Ok (TileUpdate pixel_data, it)
    else
      let? p := read_palette (Z.to_nat palette_size) it in
      let '(palette, it) := p in
      let? r := palette_rle (S (length it)) palette it pixels_in_tile
                  num_pixels pixel_data in
      let '(num_pixels, it, pixel_data) := r in
      if negb (num_pixels =? pixels_in_tile) then Raise ValueError
      else Ok (TileUpdate pixel_data, it)
  else
    if palette_size =? 0 then
      let? r := raw_cpixels (Z.to_nat pixels_in_tile) it pixel_data in
      let '(it, pixel_data) := r in
      Ok (TileUpdate pixel_data, it)
    else if palette_size =? 1 then
      let? r := cpixel it in
      let '(color, it) := r in
      Ok (TileFill color, it)
    else if palette_size >? 16 then Raise ValueError
    else
      let? p := read_palette (Z.to_nat palette_size) it in
      let '(palette, it) := p in
      let '(shifts, mask) :=
        if palette_size =? 2 then ([7; 6; 5; 4; 3; 2; 1; 0], 1)
        else if (palette_size =? 3) || (palette_size =? 4)
             then ([6; 4; 2; 0], 3)
             else ([4; 0], 15) in
      let? r := packed_indices it shifts mask palette pixels_in_tile 0
                  pixel_data in
      let '(it, pixel_data) := r in
      Ok (TileUpdate pixel_data, it).

(** The [for subencoding in it] loop over 64x64 tiles. *)
Fixpoint zrle_tiles (n : nat) (it : bytes) (x y width height tx ty : Z)
    (st : State) : outcome :=
  match it with
  | [] => _doConnection st
  | s :: it =>
      match n with
      | O => OutOfFuel
      | S n' =>
          let subencoding := b2z s in
          let tw := if x + width - tx <? 64 then x + width - tx else 64 in
          let th := if y + height - ty <? 64 then y + height - ty else 64 in
          let pixels_in_tile := tw * th in
          let! r := zrle_tile subencoding it pixels_in_tile raising st in
          let '(drawn, it) := r in
          do st <-
            match drawn with
            | TileUpdate data => Done (updateRectangle tx ty tw th data st)
            | TileFill color => fillRectangle tx ty tw th (Some color) st
            end in
          let tx := tx + 64 in
          let '(tx, ty) := if tx >=? x + width then (x, ty + 64)
                           else (tx, ty) in
          zrle_tiles n' it x y width height tx ty st
      end
  end.

Definition _handleDecodeZRLEdata (block : bytes) (x y width height : Z)
    (st : State) : outcome :=
  let tx := x in
  let ty := y in
  let! data := zlib_decompress ext (_zlib_stream st) block raising st in
  let st := set_zlib_stream (_zlib_stream st ++ block) st in
  zrle_tiles (length data) data x y width height tx ty st.

(** Pseudo-encodings with a payload. *)
Definition _handleDecodePsuedoCursor (block : bytes) (x y width height : Z)
    (st : State) : outcome :=
  let split := width * height * bypp st in
  let image := slice_to block split in
  let mask := slice_from block split in
  _doConnection (log (CbUpdateCursor x y width height image mask) st).

(** Other server messages. *)
Definition _handleColourMapEntries (block : bytes) (st : State) : outcome :=
  let! vs := unpack "!xHH" block raising st in
  match vs with
  | [VInt first_color; VInt number_of_colors] =>
      expect (HColourMapEntriesValue first_color) (6 * number_of_colors) st
  | _ => Raised ValueError st
  end.

Fixpoint colour_triples (n : nat) (block : bytes) : list (Z * Z * Z) :=
  match n with
  | O => []
  | S n' =>
      match unpack "!HHH" (take 6 block) with
      | Ok [VInt r; VInt g; VInt b] =>
          (r, g, b) :: colour_triples n' (drop 6 block)
      | _ => []
      end
  end.

Definition _handleColourMapEntriesValue (block : bytes) (first_color : Z)
    (st : State) : outcome :=
  if (length block mod 6 =? 0)%nat then
    let colors := colour_triples (length block / 6) block in
    expect HConnection 1 (log (CbSetColorMap first_color colors) st)
  else Raised StructError st.

Definition _handleServerCutText (block : bytes) (st : State) : outcome :=
  let! vs := unpack "!xxxI" block raising st in
  match vs with
  | [VInt length] => expect HServerCutTextValue length st
  | _ => Raised ValueError st
  end.

Definition _handleServerCutTextValue (block : bytes) (st : State) : outcome :=
  expect HConnection 1 (log (CbCopyText block) st).

(** [self._expected_handler(block, *self._expected_args)]. *)
Definition invoke (h : Handler) (block : bytes) (st : State) : outcome :=
  match h with
  | HUnset => Raised AttributeError st
  | HNumberSecurityTypes => _handleNumberSecurityTypes block st
  | HSecurityTypes => _handleSecurityTypes block st
  | HAuth => _handleAuth block st
  | HConnFailed => _handleConnFailed block st
  | HConnMessage => _handleConnMessage block st
  | HVNCAuth => _handleVNCAuth block st
  | HDHAuth => _handleDHAuth block st
  | HDHAuthKey => _handleDHAuthKey block st
  | HDHAuthCert => _handleDHAuthCert block st
  | HVNCAuthResult => _handleVNCAuthResult block st
  | HAuthFailed => _handleAuthFailed block st
  | HAuthFailedMessage => _handleAuthFailedMessage block st
  | HServerInit => _handleServerInit block st
  | HServerName => _handleServerName block st
  | HConnection => _handleConnection block st
  | HQEMUServerMessage => _handleQEMUServerMessage block st
  | HQEMUAudioServerMessage => _handleQEMUAudioServerMessage block st
  | HQEMUAudioServerProviderMessage =>
      _handleQEMUAudioServerProviderMessage block st
  | HQEMUAudioServerStreamMessage size =>
      _handleQEMUAudioServerStreamMessage block size st
  | HFramebufferUpdate => _handleFramebufferUpdate block st
  | HRectangle => _handleRectangle block st
  | HDecodeRAW x y w h => _handleDecodeRAW block x y w h st
  | HDecodeCopyrect x y w h => _handleDecodeCopyrect block x y w h st
  | HDecodeRRE x y w h => _handleDecodeRRE block x y w h st
  | HRRESubRectangles topx topy => _handleRRESubRectangles block topx topy st
  | HDecodeCORRE x y w h => _handleDecodeCORRE block x y w h st
  | HDecodeCORRERectangles topx topy =>
      _handleDecodeCORRERectangles block topx topy st
  | HDecodeHextile bg color x y w h tx ty =>
      _handleDecodeHextile block bg color x y w h tx ty st
  | HDecodeHextileSubrect sub bg color x y w h tx ty tw th =>
      _handleDecodeHextileSubrect block sub bg color x y w h tx ty tw th st
  | HDecodeHextileRAW bg color x y w h tx ty tw th =>
      _handleDecodeHextileRAW block bg color x y w h tx ty tw th st
  | HDecodeHextileSubrectsColoured bg color n x y w h tx ty tw th =>
      _handleDecodeHextileSubrectsColoured block bg color n x y w h tx ty
        tw th st
  | HDecodeHextileSubrectsFG bg color n x y w h tx ty tw th =>
      _handleDecodeHextileSubrectsFG block bg color n x y w h tx ty tw th st
  | HDecodeZRLE x y w h => _handleDecodeZRLE block x y w h st
  | HDecodeZRLEdata x y w h => _handleDecodeZRLEdata block x y w h st
  | HDecodePsuedoCursor x y w h => _handleDecodePsuedoCursor block x y w h st
  | HColourMapEntries => _handleColourMapEntries block st
  | HColourMapEntriesValue first => _handleColourMapEntriesValue block first st
  | HServerCutText => _handleServerCutText block st
  | HServerCutTextValue => _handleServerCutTextValue block st
  end.

(** The [while len(self._packet) >= self._expected_len] loop of
    [_handleExpected], and the reset of the flag after it; [n] bounds
    the number of handler invocations. *)
Fixpoint expected_loop (n : nat) (st : State) : outcome :=
  if len (_packet st) >=? _expected_len st then
    match n with
    | O => OutOfFuel
    | S n' =>
        let st := set_already_expecting true st in
        let block := slice_to (_packet st) (_expected_len st) in
        let st := set_packet (slice_from (_packet st) (_expected_len st)) st in
        do st <- invoke (_expected_handler st) block st in
        expected_loop n' st
    end
  else Done (set_already_expecting false st).

End Handlers.

(** [_handleExpected]: handlers call [expect], which calls back into
    [_handleExpected] unless the loop is already running. *)
Fixpoint _handleExpected (ext : Externals) (fuel : nat) (st : State)
  : outcome :=
  if len (_packet st) >=? _expected_len st then
    match fuel with
    | O => OutOfFuel
    | S fuel' => expected_loop ext (_handleExpected ext fuel') fuel' st
    end
  else Done st.

(** [dataReceiveLoop] appends the bytes read to [_packet], and
    [dataReceived] calls the current [_handler]. *)
Definition dataReceived (ext : Externals) (fuel : nat) (data : bytes)
    (st : State) : outcome :=
  let st := set_packet (_packet st ++ data) st in
  match _handler st with
  | HandleInitial => _handleInitial (_handleExpected ext fuel) st
  | HandleExpected => _handleExpected ext fuel st
  end.

(** ** Client to server messages *)

(** [pointerEvent(x, y, buttonmask)]: [pack] raises before anything is
    written. *)
Definition pointerEvent (x y buttonmask : Z) (st : State) : result State :=
  let? data := pack "!BBHH" [VInt 5; VInt buttonmask; VInt x; VInt y] in
  Ok (_write data st).

(** [keyEvent(key, down)]. *)
Definition keyEvent (key : Z) (down : bool) (st : State) : result State :=
  let? data := pack "!BBxxI" [VInt 4; VBool down; VInt key] in
  Ok (_write data st).

(** [setPixelFormat(pixel_format)]: the attribute is assigned after the
    write. *)
Definition setPixelFormat (pf : PixelFormat.t) (st : State) : result State :=
  let? pixformat := PixelFormat.to_bytes pf in
  let? data := pack "!Bxxx16s" [VInt 0; VBytes pixformat] in
  Ok (set_pixel_format pf (_write data st)).

(** [setEncodings(list_of_encodings)]: the header, then one write for
    each encoding; an encoding that does not fit [i] raises after the
    writes before it. The result is the object after the call, with the
    exception if one was raised. *)
Fixpoint write_encodings (l : list Z) (st : State) : State * option exn :=
  match l with
  | [] => (st, None)
  | encoding :: l' =>
      match pack "!i" [VInt encoding] with
      | Ok data => write_encodings l' (_write data st)
      | Raise e => (st, Some e)
      end
  end.

Definition setEncodings (list_of_encodings : list Z) (st : State)
  : State * option exn :=
  match pack "!BxH" [VInt 2; VInt (len list_of_encodings)] with
  | Ok data => write_encodings list_of_encodings (_write data st)
  | Raise e => (st, Some e)
  end.

End RFB.

(** ** Pillow images, as far as the client uses them

    [Image] is Pillow's class, not code of this program: an image has a
    size and a value at every position inside it. [new] and [paste] follow
    Pillow's documentation; decoding raw bytes ([Image.frombytes]) is left
    to the [Imaging] interface. *)

Module Image.

Record t (A : Type) := mk {
  size : Z * Z;
  data : Z -> Z -> A   (* meaningful inside the size only *)
}.
Arguments mk {A}.
Arguments size {A}.
Arguments data {A}.

Definition inside {A} (im : t A) (x y : Z) : bool :=
  (0 <=? x) && (x <? (size im).1) && (0 <=? y) && (y <? (size im).2).

(** [im.getpixel((x, y))]. *)
Definition getpixel {A} (im : t A) (x y : Z) : option A :=
  if inside im x y then Some (data im x y) else None.

(** [Image.new(mode, size, color)]. *)
Definition new {A} (size : Z * Z) (color : A) : t A :=
  mk size (fun _ _ => color).

(** [dst.paste(src, (x0, y0))] and [dst.paste(src, (x0, y0), mask)]: the
    region of [src] is copied at the offset, clipped to [dst]; with a
    mask, only where the mask is set. *)
Definition paste {A} (dst src : t A) (box : Z * Z)
    (mask : option (t bool)) : t A :=
  mk (size dst)
     (fun x y =>
        let sx := x - box.1 in
        let sy := y - box.2 in
        if inside src sx sy
           && match mask with
              | None => true
              | Some m => inside m sx sy && data m sx sy
              end
        then data src sx sy
        else data dst x y).

End Image.

Definition RGB : Type := Z * Z * Z.
Definition black : RGB := (0, 0, 0).

(** The raw decoders behind [Image.frombytes("RGB", size, data, "raw",
    rawmode)] and [Image.frombytes("1", size, data)]: the values of the
    pixels, or an exception. *)
Record Imaging := {
  decode_RGB : Z * Z -> bytes -> string -> result (Z -> Z -> RGB);
  decode_1 : Z * Z -> bytes -> result (Z -> Z -> bool)
}.

(** [Image.frombytes]: an image of the size asked for. *)
Definition frombytes_RGB (pil : Imaging) (size : Z * Z) (data : bytes)
    (rawmode : string) : result (Image.t RGB) :=
  let? px := decode_RGB pil size data rawmode in Ok (Image.mk size px).

Definition frombytes_1 (pil : Imaging) (size : Z * Z) (data : bytes)
  : result (Image.t bool) :=
  let? px := decode_1 pil size data in Ok (Image.mk size px).

(** ** The high-level client: [VNCDoToolClient] *)

Module Client.

Record t := mk {
  base : RFB.State;            (* the attributes of RFBClient *)
  x : Z;
  y : Z;
  buttons : Z;
  screen : option (Image.t RGB);
  image_mode : string;
  cursor : option (Image.t RGB);
  cmask : option (Image.t bool);
  cfocus : option (Z * Z);
  updateCommited : bool;
  nocursor : bool
}.

Definition set_base (v : RFB.State) (c : t) : t :=
  mk v (x c) (y c) (buttons c) (screen c) (image_mode c) (cursor c)
    (cmask c) (cfocus c) (updateCommited c) (nocursor c).
Definition set_xy (vx vy : Z) (c : t) : t :=
  mk (base c) vx vy (buttons c) (screen c) (image_mode c) (cursor c)
    (cmask c) (cfocus c) (updateCommited c) (nocursor c).
Definition set_screen (v : option (Image.t RGB)) (c : t) : t :=
  mk (base c) (x c) (y c) (buttons c) v (image_mode c) (cursor c)
    (cmask c) (cfocus c) (updateCommited c) (nocursor c).
Definition set_cursor (v : option (Image.t RGB)) (c : t) : t :=
  mk (base c) (x c) (y c) (buttons c) (screen c) (image_mode c) v
    (cmask c) (cfocus c) (updateCommited c) (nocursor c).
Definition set_cmask (v : option (Image.t bool)) (c : t) : t :=
  mk (base c) (x c) (y c) (buttons c) (screen c) (image_mode c) (cursor c)
    v (cfocus c) (updateCommited c) (nocursor c).
Definition set_cfocus (v : option (Z * Z)) (c : t) : t :=
  mk (base c) (x c) (y c) (buttons c) (screen c) (image_mode c) (cursor c)
    (cmask c) v (updateCommited c) (nocursor c).
Definition set_updateCommited (v : bool) (c : t) : t :=
  mk (base c) (x c) (y c) (buttons c) (screen c) (image_mode c) (cursor c)
    (cmask c) (cfocus c) v (nocursor c).

(** The class attributes and [__init__]: pointer at the origin, no
    button, no screen, no cursor; [image_mode] is [PF2IM[PixelFormat()]]. *)
Definition init : t :=
  mk RFB.init 0 0 0 None "RGBX" None None None false false.

Definition MAX_DESKTOP_SIZE : Z := 0x10000.

(** A method returns, or raises with the object as the exception left
    it. *)
Inductive outcome :=
| Done (c : t)
| Raised (e : exn) (c : t).

Definition obind (o : outcome) (k : t -> outcome) : outcome :=
  match o with Done c => k c | Raised e c => Raised e c end.

Definition lift {A} (c : t) (r : result A) (k : A -> outcome) : outcome :=
  match r with Ok a => k a | Raise e => Raised e c end.

Notation "'do' c '<-' m 'in' k" := (obind m (fun c => k))
  (at level 10, c name, m at level 100, k at level 200).
Notation "'let!' x ':=' r 'raising' c 'in' k" := (lift c r (fun x => k))
  (at level 10, x name, r at level 100, c at level 0, k at level 200).

(** The inherited [pointerEvent], on the embedded engine state. *)
Definition pointerEvent (px py buttonmask : Z) (c : t) : outcome :=
  let! st := RFB.pointerEvent px py buttonmask (base c) raising c in
  Done (set_base st c).

(** [asyncio.sleep(seconds)], recorded in milliseconds. *)
Definition sleep (ms : Z) (c : t) : t :=
  set_base (RFB.log (RFB.Sleep ms) (base c)) c.

Definition mouseMove (px py : Z) (c : t) : outcome :=
  let c := set_xy px py c in
  pointerEvent px py (buttons c) c.

(** [range(start, stop, step)]. *)
Definition range3 (start stop step : Z) : result (list Z) :=
  if step =? 0 then Raise ValueError
  else
    let n := if 0 <? step then (stop - start + step - 1) / step
             else (start - stop - step - 1) / (- step) in
    Ok (map (fun i => start + i * step) (seqZ 0 n)).

Fixpoint drag_y (ysteps : list Z) (c : t) : outcome :=
  match ysteps with
  | [] => Done c
  | ypos :: ysteps' =>
      do c <- mouseMove (x c) ypos c in
      drag_y ysteps' (sleep 200 c)
  end.

Fixpoint drag_x (xsteps : list Z) (c : t) : outcome :=
  match xsteps with
  | [] => Done c
  | xpos :: xsteps' =>
      do c <- mouseMove xpos (y c) c in
      drag_x xsteps' (sleep 200 c)
  end.

Definition mouseDrag (px py : Z) (step : Z) (c : t) : outcome :=
  let! xsteps :=
    if px <? x c then range3 (x c - step) px (- step)
    else range3 (x c + step) px step raising c in
  let! ysteps :=
    if py <? y c then range3 (y c - step) py (- step)
    else range3 (y c + step) py step raising c in
  do c <- drag_y ysteps c in
  do c <- drag_x xsteps c in
  mouseMove px py c.

Section Drawing.

Variable pil : Imaging.

Definition drawCursor (c : t) : outcome :=
  match cursor c with
  | None => Done c
  | Some cur =>
      match screen c with
      | None => Done c
      | Some scr =>
          match cfocus c with
          | None => Raised AttributeError c
          | Some focus =>
              let px := x c - focus.1 in
              let py := y c - focus.2 in
              Done (set_screen
                      (Some (Image.paste scr cur (px, py) (cmask c))) c)
          end
      end
  end.

Definition updateRectangle (px py width height : Z) (data : bytes)
    (c : t) : outcome :=
  (* ignore empty updates *)
  if len data =? 0 then Done c
  else
    let size := (width, height) in
    do c <-
      match screen c with
      | Some scr =>
          if negb (size.1 =? (Image.size scr).1)
             || negb (size.2 =? (Image.size scr).2)
          then
            do c <- mouseMove width height c in
            mouseMove 0 0 c
          else Done c
      | None => Done c
      end in
    let! update := frombytes_RGB pil size data (image_mode c) raising c in
    let c :=
      match screen c with
      | None => set_screen (Some update) c
      | Some scr =>
          (* track upward screen resizes *)
          if ((Image.size scr).1 <? px + width)
             || ((Image.size scr).2 <? py + height)
          then
            let new_size :=
              (Z.max (px + width) (Image.size scr).1,
               Z.max (py + height) (Image.size scr).2) in
            let new_screen := Image.new new_size black in
            let new_screen := Image.paste new_screen scr (0, 0) None in
            let new_screen := Image.paste new_screen update (px, py) None in
            set_screen (Some new_screen) c
          else
            set_screen (Some (Image.paste scr update (px, py) None)) c
      end in
    drawCursor c.

Definition commitUpdate (rectangles : list RFB.Rect) (c : t) : t :=
  set_updateCommited true c.

Definition updateCursor (px py width height : Z) (image mask : bytes)
    (c : t) : outcome :=
  if nocursor c then Done c
  else
    let c :=
      if (width =? 0) || (height =? 0) then set_cursor None c else c in
    let! cur := frombytes_RGB pil (width, height) image (image_mode c)
      raising c in
    let c := set_cursor (Some cur) c in
    let! m := frombytes_1 pil (width, height) mask raising c in
    let c := set_cmask (Some m) c in
    let c := set_cfocus (Some (px, py)) c in
    drawCursor c.

Definition updateDesktopSize (width height : Z) (c : t) : outcome :=
  if negb ((0 <=? width) && (width <? MAX_DESKTOP_SIZE)
           && (0 <=? height) && (height <? MAX_DESKTOP_SIZE))
  then Raised ValueError c
  else
    let new_screen := Image.new (width, height) black in
    let new_screen :=
      match screen c with
      | Some scr => Image.paste new_screen scr (0, 0) None
      | None => new_screen
      end in
    Done (set_screen (Some new_screen) c).

End Drawing.

(** ** Keys and buttons *)

Definition set_buttons (v : Z) (c : t) : t :=
  mk (base c) (x c) (y c) v (screen c) (image_mode c) (cursor c)
    (cmask c) (cfocus c) (updateCommited c) (nocursor c).
Definition set_image_mode (v : string) (c : t) : t :=
  mk (base c) (x c) (y c) (buttons c) (screen c) v (cursor c)
    (cmask c) (cfocus c) (updateCommited c) (nocursor c).

(** [KEYMAP], in source order, with the values of the [KEY_] constants of
    [rfb.py]. *)
Definition KEYMAP : list (string * Z) :=
  [("bsp", 0xFF08); ("tab", 0xFF09); ("return", 0xFF0D); ("enter", 0xFF0D);
   ("esc", 0xFF1B); ("ins", 0xFF63); ("delete", 0xFFFF); ("del", 0xFFFF);
   ("home", 0xFF50); ("end", 0xFF57); ("pgup", 0xFF55); ("pgdn", 0xFF56);
   ("left", 0xFF51); ("up", 0xFF52); ("right", 0xFF53); ("down", 0xFF54);
   ("slash", 0x005C); ("bslash", 0x005C); ("fslash", 0x002F);
   ("spacebar", 0x0020); ("space", 0x0020); ("sb", 0x0020);
   ("f1", 0xFFBE); ("f2", 0xFFBF); ("f3", 0xFFC0); ("f4", 0xFFC1);
   ("f5", 0xFFC2); ("f6", 0xFFC3); ("f7", 0xFFC4); ("f8", 0xFFC5);
   ("f9", 0xFFC6); ("f10", 0xFFC7); ("f11", 0xFFC8); ("f12", 0xFFC9);
   ("f13", 0xFFCA); ("f14", 0xFFCB); ("f15", 0xFFCC); ("f16", 0xFFCD);
   ("f17", 0xFFCE); ("f18", 0xFFCF); ("f19", 0xFFD0); ("f20", 0xFFD1);
   ("lshift", 0xFFE1); ("shift", 0xFFE1); ("rshift", 0xFFE2);
   ("lctrl", 0xFFE3); ("ctrl", 0xFFE3); ("rctrl", 0xFFE4);
   ("lmeta", 0xFFE7); ("meta", 0xFFE7); ("rmeta", 0xFFE8);
   ("lalt", 0xFFE9); ("alt", 0xFFE9); ("ralt", 0xFFEA);
   ("scrlk", 0xFF14); ("sysrq", 0xFF15); ("numlk", 0xFF7F);
   ("caplk", 0xFFE5); ("pause", 0xFF13);
   ("lsuper", 0xFFEB); ("super", 0xFFEB); ("rsuper", 0xFFEC);
   ("lhyper", 0xFFED); ("hyper", 0xFFED); ("rhyper", 0xFFEE);
   ("kp0", 0xFFB0); ("kp1", 0xFFB1); ("kp2", 0xFFB2); ("kp3", 0xFFB3);
   ("kp4", 0xFFB4); ("kp5", 0xFFB5); ("kp6", 0xFFB6); ("kp7", 0xFFB7);
   ("kp8", 0xFFB8); ("kp9", 0xFFB9); ("kpenter", 0xFF8D)]%string.

(** [KEYMAP.get(k)]. *)
Definition KEYMAP_get (k : string) : option Z :=
  snd <$> List.find (fun kv => String.eqb kv.1 k) KEYMAP.

(** [SPECIAL_KEYS_US]; the character after the colon is the double
    quote. *)
Definition SPECIAL_KEYS_US : string :=
  "~!@#$%^&*()_+{}|:" +:+ String (ascii_of_nat 34) "<>?".

(** [key.split(sep)] for a separator of one character. *)
Fixpoint split (sep : ascii) (s : string) : list string :=
  match s with
  | EmptyString => [EmptyString]
  | String ch s' =>
      if Ascii.eqb ch sep then EmptyString :: split sep s'
      else match split sep s' with
           | hd :: tl => String ch hd :: tl
           | [] => [String ch EmptyString]
           end
  end.

(** [needle in hay] for strings: a substring test. *)
Fixpoint contains (needle hay : string) : bool :=
  String.prefix needle hay
  || match hay with
     | EmptyString => false
     | String _ hay' => contains needle hay'
     end.

(** [ord(k)]: the code point of a string of length one. *)
Definition ord (k : string) : result Z :=
  match k with
  | String ch EmptyString => Ok (b2z ch)
  | _ => Raise TypeError
  end.

(** [KEYMAP.get(k) or ord(k)]. *)
Definition key_code (k : string) : result Z :=
  match KEYMAP_get k with
  | Some v => if v =? 0 then ord k else Ok v
  | None => ord k
  end.

(** A list comprehension over a function that may raise. *)
Fixpoint key_codes (keys : list string) : result (list Z) :=
  match keys with
  | [] => Ok []
  | k :: keys' =>
      let? v := key_code k in
      let? vs := key_codes keys' in
      Ok (v :: vs)
  end.

(** The attributes [__init__] sets and no method assigns. *)
Record Settings := {
  encoding : Z;
  pseudocursor : bool;
  pseudodesktop : bool;
  qemu_extended_key : bool;
  last_rect : bool;
  force_caps : bool
}.

Definition default_settings : Settings :=
  {| encoding := RFB.Encoding.RAW; pseudocursor := false;
     pseudodesktop := true; qemu_extended_key := true; last_rect := true;
     force_caps := false |}.

Section Keys.

(** [str.isupper], which follows the case tables of Unicode. *)
Variable isupper : string -> bool.

Variable cfg : Settings.

Definition _decodeKey (key : string) : result (list Z) :=
  let? key :=
    if force_caps cfg then
      if isupper key || contains key SPECIAL_KEYS_US then
        (* "shift-%c" % key: %c takes a string of one character *)
        if (String.length key =? 1)%nat then Ok ("shift-" +:+ key)%string
        else Raise TypeError
      else Ok key
    else Ok key in
  let keys :=
    if (String.length key =? 1)%nat then [key] else split "-" key in
  key_codes keys.

(** The inherited [keyEvent], on the embedded engine state. *)
Definition keyEvent (key : Z) (down : bool) (c : t) : outcome :=
  let! st := RFB.keyEvent key down (base c) raising c in
  Done (set_base st c).

(** [for k in keys: keyEvent(k, down)]. *)
Fixpoint key_events (down : bool) (keys : list Z) (c : t) : outcome :=
  match keys with
  | [] => Done c
  | k :: keys' =>
      do c <- keyEvent k down c in
      key_events down keys' c
  end.

Definition keyPress (key : string) (c : t) : outcome :=
  let! keys := _decodeKey key raising c in
  do c <- key_events true keys c in
  key_events false (rev keys) c.

Definition keyDown (key : string) (c : t) : outcome :=
  let! keys := _decodeKey key raising c in
  key_events true keys c.

Definition keyUp (key : string) (c : t) : outcome :=
  let! keys := _decodeKey key raising c in
  key_events false keys c.

End Keys.

(** [1 << n]: a negative shift count raises [ValueError]. *)
Definition shift_one (n : Z) : result Z :=
  if n <? 0 then Raise ValueError else Ok (Z.shiftl 1 n).

(** [mouseDown]: the mask is updated before the event is packed. *)
Definition mouseDown (button : Z) (c : t) : outcome :=
  let! m := shift_one (button - 1) raising c in
  let c := set_buttons (Z.lor (buttons c) m) c in
  pointerEvent (x c) (y c) (buttons c) c.

Definition mouseUp (button : Z) (c : t) : outcome :=
  let! m := shift_one (button - 1) raising c in
  let c := set_buttons (Z.land (buttons c) (Z.lnot m)) c in
  pointerEvent (x c) (y c) (buttons c) c.

Definition mousePress (button : Z) (c : t) : outcome :=
  do c <- mouseDown button c in
  mouseUp button c.

(** ** Pixel formats and image modes *)

Definition RGB32 : PixelFormat.t :=
  PixelFormat.mk 32 24 false true 255 255 255 0 8 16.
Definition RGB24 : PixelFormat.t :=
  PixelFormat.mk 24 24 false true 255 255 255 0 8 16.
Definition BGR16 : PixelFormat.t :=
  PixelFormat.mk 16 16 false true 31 63 31 11 5 0.

Definition PF2IM : list (PixelFormat.t * string) :=
  [(RGB24, "RGB"); (RGB32, "RGBX"); (BGR16, "BGR;16");
   (PixelFormat.mk 24 24 false true 255 255 255 16 8 0, "BGR");
   (PixelFormat.mk 32 24 false true 255 255 255 16 8 0, "BGRX")]%string.

(** Equality of the dataclass: field by field. *)
Definition pf_eqb (a b : PixelFormat.t) : bool :=
  (PixelFormat.bpp a =? PixelFormat.bpp b)
  && (PixelFormat.depth a =? PixelFormat.depth b)
  && Bool.eqb (PixelFormat.bigendian a) (PixelFormat.bigendian b)
  && Bool.eqb (PixelFormat.truecolor a) (PixelFormat.truecolor b)
  && (PixelFormat.redmax a =? PixelFormat.redmax b)
  && (PixelFormat.greenmax a =? PixelFormat.greenmax b)
  && (PixelFormat.bluemax a =? PixelFormat.bluemax b)
  && (PixelFormat.redshift a =? PixelFormat.redshift b)
  && (PixelFormat.greenshift a =? PixelFormat.greenshift b)
  && (PixelFormat.blueshift a =? PixelFormat.blueshift b).

(** [PF2IM[pf]], [None] for [KeyError]. *)
Definition PF2IM_get (pf : PixelFormat.t) : option string :=
  snd <$> List.find (fun kv => pf_eqb kv.1 pf) PF2IM.

(** [setImageMode]: the mode of the server's pixel format, or a format
    the client chooses and announces. The constant looked up after
    [setPixelFormat] is a key of [PF2IM]; the lookup failing would be a
    [LookupError]. *)
Definition setImageMode (c : t) : outcome :=
  match PF2IM_get (RFB.pixel_format (base c)) with
  | Some mode => Done (set_image_mode mode c)
  | None =>
      let pixel_format :=
        if ((RFB._version_server (base c)).1 =? 3)
           && ((RFB._version_server (base c)).2 =? 889)
        then BGR16 else RGB32 in
      let! st := RFB.setPixelFormat pixel_format (base c) raising c in
      let c := set_base st c in
      match PF2IM_get pixel_format with
      | Some mode => Done (set_image_mode mode c)
      | None => Raised IndexError c
      end
  end.

End Client.

(** ** Scenarios and observations *)

(** The positions of the PointerEvent messages written so far: each is the
    message [pack("!BBHH", 5, buttonmask, x, y)]. *)
Definition pointer_position (e : RFB.Event) : option (Z * Z) :=
  match e with
  | RFB.Write data =>
      match unpack "!BBHH" data with
      | Ok [VInt 5; VInt _; VInt x; VInt y] => Some (x, y)
      | _ => None
      end
  | _ => None
  end.

Definition pointer_positions (trace : list RFB.Event) : list (Z * Z) :=
  omap pointer_position trace.

(** A sequence of [updateDesktopSize] calls. *)
Fixpoint resize_all (calls : list (Z * Z)) (c : Client.t) : Client.outcome :=
  match calls with
  | [] => Client.Done c
  | (w, h) :: calls' =>
      Client.obind (Client.updateDesktopSize w h c) (resize_all calls')
  end.

(** A position that every requested size contains. *)
Definition inside_all (calls : list (Z * Z)) (x y : Z) : bool :=
  forallb (fun s : Z * Z => (x <? s.1) && (y <? s.2)) calls.

(** The sizes [updateDesktopSize] accepts. *)
Definition size_in_range (s : Z * Z) : Prop :=
  0 <= s.1 < Client.MAX_DESKTOP_SIZE /\ 0 <= s.2 < Client.MAX_DESKTOP_SIZE.

(** The value of a position of the screen after resizing: the old value
    where the old screen and every requested size contain the position,
    black elsewhere. *)
Definition resized_pixel (old : option (Image.t RGB)) (calls : list (Z * Z))
    (x y : Z) : RGB :=
  match old with
  | Some scr =>
      if Image.inside scr x y && inside_all calls x y then Image.data scr x y
      else black
  | None => black
  end.

(** The banner [RFB abc.def LF] and the number that three digits spell. *)
Definition server_banner (a b c d e f : ascii) : bytes :=
  bytes_of "RFB " ++ [a; b; c] ++ bytes_of "." ++ [d; e; f] ++ [LF].

Definition digits3 (a b c : ascii) : Z :=
  100 * (b2z a - 48) + 10 * (b2z b - 48) + (b2z c - 48).

(** The handlers that decode the payload of a rectangle. *)
Definition is_decoder (h : RFB.Handler) : bool :=
  match h with
  | RFB.HDecodeRAW _ _ _ _ | RFB.HDecodeCopyrect _ _ _ _
  | RFB.HDecodeRRE _ _ _ _ | RFB.HRRESubRectangles _ _
  | RFB.HDecodeCORRE _ _ _ _ | RFB.HDecodeCORRERectangles _ _
  | RFB.HDecodeHextile _ _ _ _ _ _ _ _
  | RFB.HDecodeHextileSubrect _ _ _ _ _ _ _ _ _ _ _
  | RFB.HDecodeHextileRAW _ _ _ _ _ _ _ _ _ _
  | RFB.HDecodeHextileSubrectsColoured _ _ _ _ _ _ _ _ _ _ _
  | RFB.HDecodeHextileSubrectsFG _ _ _ _ _ _ _ _ _ _ _
  | RFB.HDecodeZRLE _ _ _ _ | RFB.HDecodeZRLEdata _ _ _ _
  | RFB.HDecodePsuedoCursor _ _ _ _ => true
  | _ => false
  end.

(** The rectangles whose position [_handleRectangle] records: all but the
    two QEMU pseudo-encodings, for which it undoes the append. *)
Definition recorded (r : RFB.Rect * Z) : bool :=
  negb ((r.2 =? RFB.Encoding.PSEUDO_QEMU_EXTENDED_KEY_EVENT)
        || (r.2 =? RFB.Encoding.PSEUDO_QEMU_AUDIO)).

(** The handlers of one decoder, invoked on the blocks they expected,
    until the engine is outside the decoders again. *)
Inductive decoded (ext : RFB.Externals) (rec : RFB.State -> RFB.outcome)
  : RFB.State -> RFB.State -> Prop :=
| decoded_end st :
    is_decoder (RFB._expected_handler st) = false ->
    decoded ext rec st st
| decoded_step st block st1 st2 :
    is_decoder (RFB._expected_handler st) = true ->
    RFB.invoke ext rec (RFB._expected_handler st) block st = RFB.Done st1 ->
    decoded ext rec st1 st2 ->
    decoded ext rec st st2.

(** Rectangles handled one after the other inside an update: for each,
    [_handleRectangle] on a header that is not the last-rectangle marker,
    then the decoder of its encoding. *)
Inductive rectangles_handled (ext : RFB.Externals)
    (rec : RFB.State -> RFB.outcome)
  : RFB.State -> list (RFB.Rect * Z) -> RFB.State -> Prop :=
| handled_nil st : rectangles_handled ext rec st [] st
| handled_cons st block x y w h encoding st1 st2 l st' :
    RFB._expected_handler st = RFB.HRectangle ->
    unpack "!HHHHi" block
    = Ok [VInt x; VInt y; VInt w; VInt h; VInt encoding] ->
    encoding <> RFB.Encoding.PSEUDO_LAST_RECT ->
    RFB._handleRectangle rec block st = RFB.Done st1 ->
    decoded ext rec st1 st2 ->
    rectangles_handled ext rec st2 l st' ->
    rectangles_handled ext rec st ((x, y, w, h, encoding) :: l) st'.

(** What a decoder leaves alone: the count of pending rectangles, the
    positions recorded so far, and the flag of the dispatch loop. *)
Definition same_update (st st' : RFB.State) : Prop :=
  RFB.rectangles st' = RFB.rectangles st
  /\ RFB.rectanglePos st' = RFB.rectanglePos st
  /\ RFB._already_expecting st' = RFB._already_expecting st.

(** After a handler: still inside a decoder, or waiting for the next
    rectangle header when rectangles are pending. *)
Definition continues (st st' : RFB.State) : Prop :=
  same_update st st'
  /\ (is_decoder (RFB._expected_handler st') = true
      \/ (RFB.rectangles st <> 0 ->
          RFB._expected_handler st' = RFB.HRectangle
          /\ RFB._expected_len st' = 12)).

Definition keeps (st : RFB.State) (o : RFB.outcome) : Prop :=
  forall st', o = RFB.Done st' -> continues st st'.

(** Stand-ins for the externals, to run the closed examples: no property
    depends on what they compute. The raw decoders read RGBX or RGB pixels
    row by row and mask bits most significant first, each row padded to a
    byte; like Pillow, they do not decode an image without pixels. *)
Module Samples.

Definition ext : RFB.Externals :=
  {| RFB.des_ecb_encrypt := fun key data => Ok (rev data);
     RFB.zlib_decompress := fun history chunk => Ok chunk;
     RFB.ard_response := fun user pw g m k => Ok [];
     RFB.prompt_username := "user";
     RFB.prompt_password := "secret" |}.

Definition byte_at (data : bytes) (i : Z) : Z :=
  match data !! Z.to_nat i with Some b => b2z b | None => 0 end.

Definition raw_RGB (size : Z * Z) (data : bytes) (rawmode : string)
  : result (Z -> Z -> RGB) :=
  let n := if String.eqb rawmode "RGBX" then 4
           else if String.eqb rawmode "RGB" then 3 else 0 in
  if (size.1 =? 0) || (size.2 =? 0) then Ok (fun _ _ => black)
  else if (n =? 0) || (len data <? size.1 * size.2 * n) then Raise ValueError
  else Ok (fun x y =>
             let o := (y * size.1 + x) * n in
             (byte_at data o, byte_at data (o + 1), byte_at data (o + 2))).

Definition raw_1 (size : Z * Z) (data : bytes)
  : result (Z -> Z -> bool) :=
  let stride := (size.1 + 7) / 8 in
  if (size.1 =? 0) || (size.2 =? 0) then Ok (fun _ _ => false)
  else if len data <? stride * size.2 then Raise ValueError
  else Ok (fun x y =>
             Z.testbit (byte_at data (y * stride + x / 8)) (7 - x mod 8)).

Definition pil : Imaging :=
  {| decode_RGB := raw_RGB; decode_1 := raw_1 |}.

(** A client right after [connect]. *)
Definition client : Client.t :=
  Client.set_base (RFB.connect None None true RFB.init) Client.init.

(** The bytes a server sends up to the end of its initialisation: version
    3.8, one security type (None), authentication ok, then a 640x480
    screen with the default pixel format and the name abc. *)
Definition handshake : bytes :=
  bytes_of "RFB 003.008" ++ [LF]
  ++ map z2b ([1; 1] ++ [0; 0; 0; 0] ++ [2; 128; 1; 224]
              ++ [32; 24; 0; 1; 0; 255; 0; 255; 0; 255; 0; 8; 16; 0; 0; 0]
              ++ [0; 0; 0; 3; 97; 98; 99]).

(** The engine after that handshake, waiting for a server message. *)
Definition session : RFB.State :=
  match RFB.dataReceived ext 10 handshake (RFB.connect None None true RFB.init)
  with
  | RFB.Done st => st
  | _ => RFB.init
  end.

Definition red : RGB := (255, 0, 0).

(** A client whose screen is 2x2, black but for a red pixel at (1, 1). *)
Definition client_2x2 : Client.t :=
  Client.set_screen
    (Some (Image.mk (2, 2)
             (fun x y => if (x =? 1) && (y =? 1) then red else black)))
    client.

End Samples.

(** ** Observations on the engine *)

(** The outcome of a call, with the object rewritten by [f]. *)
Definition omap_outcome (f : RFB.State -> RFB.State) (o : RFB.outcome)
  : RFB.outcome :=
  match o with
  | RFB.Done st => RFB.Done (f st)
  | RFB.Raised e st => RFB.Raised e (f st)
  | RFB.OutOfFuel => RFB.OutOfFuel
  end.

(** The same object with other bytes in the receive buffer and another
    top-level handler. *)
Definition rebuffer (p : bytes) (t : RFB.TopHandler) (st : RFB.State)
  : RFB.State :=
  RFB.set_handler t (RFB.set_packet p st).

(** A function of the engine gives the same result on the object with
    another receive buffer and top-level handler. *)
Definition rb_goal (p : bytes) (t : RFB.TopHandler)
    (f f' : RFB.State -> RFB.outcome) : Prop :=
  forall s1 s2, s1 = rebuffer p t s2 -> RFB._already_expecting s2 = true ->
    f s1 = omap_outcome (rebuffer p t) (f' s2).

(** The step that appends the bytes read to the receive buffer. *)
Definition feed (data : bytes) (st : RFB.State) : RFB.State :=
  RFB.set_packet (RFB._packet st ++ data) st.

(** A subrectangle: its colour, position and size. *)
Definition SubRect : Type := bytes * Z * Z * Z * Z.

(** One subrectangle on the wire, as the server packs it. *)
Definition rre_wire (bypp : Z) (s : SubRect) : result bytes :=
  let '(color, x, y, w, h) := s in
  pack ("!" +:+ pretty bypp +:+ "sHHHH")
    [VBytes color; VInt x; VInt y; VInt w; VInt h].

(** The calls of [fillRectangle] for a list of subrectangles. *)
Definition rre_fills (topx topy : Z) (subs : list SubRect) (st : RFB.State)
  : RFB.State :=
  fold_left
    (fun st s =>
       let '(color, x, y, w, h) := s in
       RFB.updateRectangle (topx + x) (topy + y) w h
         (bytes_mul (bytes_mul color w) h) st)
    subs st.

(** The events that reach the transport. *)
Definition is_transport_event (e : RFB.Event) : bool :=
  match e with
  | RFB.Write _ | RFB.Close => true
  | _ => false
  end.

(** What reached the transport: the writes and the close. *)
Definition transport_events (tr : list RFB.Event) : list RFB.Event :=
  List.filter is_transport_event tr.

(** The call left the transport closed and untouched. *)
Definition closed_quiet (st : RFB.State) (o : RFB.outcome) : Prop :=
  match o with
  | RFB.Done s | RFB.Raised _ s =>
      RFB.writer s = false
      /\ transport_events (RFB.trace s) = transport_events (RFB.trace st)
  | RFB.OutOfFuel => True
  end.

(** A function of the engine leaves a closed transport alone. *)
Definition cq_goal (f : RFB.State -> RFB.outcome) : Prop :=
  forall st, RFB.writer st = false -> RFB._already_expecting st = true ->
    closed_quiet st (f st).

(** ** Observations on the client *)

(** A KeyEvent message. *)
Definition key_message (down : bool) (key : Z) : bytes :=
  [z2b 4; z2b (if down then 1 else 0); NUL; NUL] ++ be_encode 4 key.

(** A PointerEvent message. *)
Definition pointer_message (mask x y : Z) : bytes :=
  [z2b 5; z2b mask] ++ be_encode 2 x ++ be_encode 2 y.

(** The messages written in order; nothing once the transport is gone. *)
Definition write_all (msgs : list bytes) (st : RFB.State) : RFB.State :=
  fold_left (fun st m => RFB._write m st) msgs st.

(** The client after a call, whether it returned or raised. *)
Definition after (o : Client.outcome) : Client.t :=
  match o with
  | Client.Done c | Client.Raised _ c => c
  end.

(** ** A framebuffer update of RAW rectangles *)

(** A rectangle with its pixel data. *)
Definition RawRect : Type := RFB.Rect * bytes.

(** The rectangle on the wire: the header with encoding 0, and the
    pixels. *)
Definition raw_wire (r : RawRect) : bytes :=
  let '((x, y, w, h), data) := r in
  be_encode 2 x ++ be_encode 2 y ++ be_encode 2 w ++ be_encode 2 h
    ++ be_encode 4 0 ++ data.

(** The FramebufferUpdate message for the rectangles. *)
Definition raw_update_wire (rects : list RawRect) : bytes :=
  [z2b 0; NUL] ++ be_encode 2 (len rects) ++ concat (map raw_wire rects).

(** The callback a rectangle leads to. *)
Definition raw_callback (r : RawRect) : RFB.Event :=
  let '((x, y, w, h), data) := r in RFB.CbUpdateRectangle x y w h data.

(** A rectangle the engine can receive with the pixel format [pf]. *)
Definition raw_rect_ok (bypp : Z) (r : RawRect) : Prop :=
  let '((x, y, w, h), data) := r in
  0 <= x < 65536 /\ 0 <= y < 65536 /\ 0 <= w < 65536 /\ 0 <= h < 65536
  /\ len data = w * h * bypp.

(** The engine between two messages. *)
Definition idle (st : RFB.State) : Prop :=
  RFB._handler st = RFB.HandleExpected
  /\ RFB._expected_handler st = RFB.HConnection
  /\ RFB._expected_len st = 1
  /\ RFB._packet st = []
  /\ RFB._already_expecting st = false.

(** The engine after the update: the callbacks in order, and idle again. *)
Definition after_raw_update (rects : list RawRect) (st : RFB.State)
  : RFB.State :=
  RFB.set_rectanglePos (map fst rects)
    (RFB.set_rectangles 0
       (RFB.set_trace
          (RFB.trace st ++ [RFB.CbBeginUpdate] ++ map raw_callback rects
             ++ [RFB.CbCommitUpdate (map fst rects)]) st)).

(** * Properties *)

(** ** Byte and big-endian arithmetic *)

Lemma b2z_range (b : byte) : 0 <= b2z b < 256.
Proof.
  unfold b2z. pose proof (N_ascii_bounded b). lia.
Qed.

Lemma b2z_z2b (z : Z) : 0 <= z < 256 -> b2z (z2b z) = z.
Proof.
  intros Hz. unfold b2z, z2b.
  rewrite N_ascii_embedding by lia. lia.
Qed.

Lemma z2b_b2z (b : byte) : z2b (b2z b) = b.
Proof.
  unfold b2z, z2b. rewrite N2Z.id. apply ascii_N_embedding.
Qed.

Lemma length_le_encode n v : length (le_encode n v) = n.
Proof.
  revert v. induction n as [|n IH]; intros v; simpl; [done|]. by rewrite IH.
Qed.

Lemma length_be_encode n v : length (be_encode n v) = n.
Proof. unfold be_encode. by rewrite length_rev, length_le_encode. Qed.

Lemma be_decode_snoc bs b : be_decode (bs ++ [b]) = be_decode bs * 256 + b2z b.
Proof. unfold be_decode. by rewrite fold_left_app. Qed.

Lemma be_decode_encode n v :
  0 <= v < 256 ^ Z.of_nat n -> be_decode (be_encode n v) = v.
Proof.
  revert v. induction n as [|n IH]; intros v Hv.
  - simpl in *. unfold be_decode. simpl. lia.
  - unfold be_encode in *. simpl le_encode. simpl rev.
    rewrite be_decode_snoc.
    rewrite Nat2Z.inj_succ, Z.pow_succ_r in Hv by lia.
    rewrite IH by (split; [apply Z.div_pos; lia | apply Z.div_lt_upper_bound; lia]).
    rewrite b2z_z2b by (apply Z.mod_pos_bound; lia).
    pose proof (Z.div_mod v 256). lia.
Qed.

Lemma pack_uint_int n z :
  0 <= z < 256 ^ Z.of_nat n -> pack_uint n (VInt z) = Ok (be_encode n z).
Proof.
  intros Hz. unfold pack_uint. simpl.
  destruct (0 <=? z) eqn:E1; [|lia].
  destruct (z <? 256 ^ Z.of_nat n) eqn:E2; [done|lia].
Qed.

(** ** Pixel formats on the wire *)

Section PixelFormatFacts.
Import PixelFormat.

Lemma STRUCT_items :
  parse_format STRUCT
  = Ok [FU8; FU8; FBool; FBool; FU16; FU16; FU16; FU8; FU8; FU8;
        FPad; FPad; FPad].
Proof. vm_compute. reflexivity. Qed.

Lemma fields_typed_elim pf :
  fields_typed pf = true ->
  (0 <= bpp pf < 256) /\ (0 <= depth pf < 256)
  /\ (0 <= redmax pf < 65536) /\ (0 <= greenmax pf < 65536)
  /\ (0 <= bluemax pf < 65536) /\ (0 <= redshift pf < 256)
  /\ (0 <= greenshift pf < 256) /\ (0 <= blueshift pf < 256).
Proof. unfold fields_typed, u8, u16. intros H. lia. Qed.

Lemma decode1 z : 0 <= z < 256 -> be_decode (be_encode 1 z) = z.
Proof. intros. apply be_decode_encode. simpl. lia. Qed.

Lemma decode2 z : 0 <= z < 65536 -> be_decode (be_encode 2 z) = z.
Proof. intros. apply be_decode_encode. simpl. lia. Qed.

Lemma decode1' z : 0 <= z < 256 -> be_decode [z2b (z mod 256)] = z.
Proof. apply decode1. Qed.

Lemma decode2' z :
  0 <= z < 65536 -> be_decode [z2b (z / 256 mod 256); z2b (z mod 256)] = z.
Proof. apply decode2. Qed.

Lemma decode_bool (b : bool) :
  negb (be_decode [z2b (if b then 1 else 0)] =? 0) = b.
Proof. by destruct b. Qed.

End PixelFormatFacts.

(** C8. For every valid pixel format, [to_bytes] succeeds with a 16-byte
    string and [from_bytes] maps that string back to the same format. *)
Theorem pixel_format_round_trip (pf : PixelFormat.t) :
  PixelFormat.valid pf ->
  exists block,
    PixelFormat.to_bytes pf = Ok block
    /\ length block = 16%nat
    /\ PixelFormat.from_bytes block = Ok pf.
Proof.
  intros [Ht _]. apply fields_typed_elim in Ht.
  destruct Ht as (H1 & H2 & H3 & H4 & H5 & H6 & H7 & H8).
  destruct pf as [a b c d e f g h i j]. simpl in *.
  unfold PixelFormat.to_bytes, pack. rewrite STRUCT_items. simpl rbind.
  unfold PixelFormat.astuple. simpl.
  rewrite !pack_uint_int by (simpl; lia). simpl rbind.
  eexists. split; [reflexivity|]. split; [reflexivity|].
  unfold PixelFormat.from_bytes, unpack. rewrite STRUCT_items. simpl.
  rewrite !decode1', !decode2', !decode_bool by lia.
  reflexivity.
Qed.

Lemma pixel_format_round_trip_witness :
  PixelFormat.valid PixelFormat.default
  /\ exists block,
       PixelFormat.to_bytes PixelFormat.default = Ok block
       /\ length block = 16%nat
       /\ PixelFormat.from_bytes block = Ok PixelFormat.default.
Proof.
  assert (Hv : PixelFormat.valid PixelFormat.default).
  { split; vm_compute; reflexivity. }
  split; [exact Hv|].
  exact (pixel_format_round_trip PixelFormat.default Hv).
Defined.

(** ** The VNC authentication key *)

Example vnc_des_short :
  _vnc_des "ab" = Ok (map z2b [0x86; 0x46; 0; 0; 0; 0; 0; 0]).
Proof. vm_compute. reflexivity. Qed.

Example vnc_des_long :
  _vnc_des "0123456789" = _vnc_des "01234567".
Proof. vm_compute. reflexivity. Qed.

Lemma length_format_nul_8_8 password : length (format_nul_8_8 password) = 8%nat.
Proof.
  unfold format_nul_8_8. rewrite length_app, length_replicate.
  pose proof (length_take_le (list_ascii_of_string password) 8).
  rewrite length_take. lia.
Qed.

(** Bit [j] of the reversed byte is bit [7 - j] of the byte, and the result
    is again a byte. *)
Lemma reverse_bits_spec (k : byte) (j : Z) :
  0 <= j < 8 ->
  Z.testbit (reverse_bits (b2z k)) j = Z.testbit (b2z k) (7 - j).
Proof.
  intros Hj.
  assert (Hc : j = 0 \/ j = 1 \/ j = 2 \/ j = 3 \/ j = 4 \/ j = 5 \/ j = 6 \/ j = 7)
    by lia.
  destruct k as [b0 b1 b2 b3 b4 b5 b6 b7].
  destruct Hc as [->|[->|[->|[->|[->|[->|[->| ->]]]]]]];
    destruct b0, b1, b2, b3, b4, b5, b6, b7; vm_compute; reflexivity.
Qed.

Lemma reverse_bits_byte (k : byte) : 0 <= reverse_bits (b2z k) < 256.
Proof.
  destruct k as [b0 b1 b2 b3 b4 b5 b6 b7].
  destruct b0, b1, b2, b3, b4, b5, b6, b7; vm_compute; split; congruence.
Qed.

(** ** Examples of [struct] *)

Example pack_pointer :
  pack "!BBHH" [VInt 5; VInt 1; VInt 258; VInt 3]
  = Ok [z2b 5; z2b 1; z2b 1; z2b 2; z2b 0; z2b 3].
Proof. vm_compute. reflexivity. Qed.

Example unpack_rect :
  unpack "!HHHHi" (map z2b [0;1; 0;2; 0;3; 0;4; 255;255;255;32])
  = Ok [VInt 1; VInt 2; VInt 3; VInt 4; VInt (-224)].
Proof. vm_compute. reflexivity. Qed.

Example unpack_bad_format :
  unpack "!{self.bypp}sBBBB" (map z2b [1;2;3;4;5;6;7;8]) = Raise StructError.
Proof. vm_compute. reflexivity. Qed.


(** ** The high-level client *)

(** C10. [updateRectangle] with an empty data string returns at once and
    leaves every attribute of the client as it was: the screen, the cursor,
    the tracked pointer and the engine state. *)
Theorem update_rectangle_empty_data
    (pil : Imaging) (px py width height : Z) (c : Client.t) :
  Client.updateRectangle pil px py width height [] c = Client.Done c.
Proof. reflexivity. Qed.

(** A pointer event whose fields fit the message is written as six bytes. *)
Lemma pointerEvent_written (px py mask : Z) (st : RFB.State) :
  0 <= px < 65536 -> 0 <= py < 65536 -> 0 <= mask < 256 ->
  RFB.pointerEvent px py mask st
  = Ok (RFB._write ([z2b 5; z2b mask] ++ be_encode 2 px ++ be_encode 2 py) st).
Proof.
  intros Hx Hy Hm. unfold RFB.pointerEvent, pack.
  replace (parse_format "!BBHH") with (Ok [FU8; FU8; FU16; FU16])
    by (vm_compute; reflexivity).
  cbn [rbind pack_items].
  rewrite (pack_uint_int 1 5), (pack_uint_int 1 mask),
    (pack_uint_int 2 px), (pack_uint_int 2 py) by (simpl; lia).
  cbn [rbind]. rewrite app_nil_r.
  replace (be_encode 1 mask) with [z2b mask].
  - reflexivity.
  - unfold be_encode. simpl. by rewrite Z.mod_small by lia.
Qed.

Lemma mouseMove_written (px py : Z) (c : Client.t) :
  0 <= px < 65536 -> 0 <= py < 65536 -> 0 <= Client.buttons c < 256 ->
  Client.mouseMove px py c
  = Client.Done
      (Client.set_base
         (RFB._write ([z2b 5; z2b (Client.buttons c)] ++ be_encode 2 px
                        ++ be_encode 2 py) (Client.base c))
         (Client.set_xy px py c)).
Proof.
  intros Hx Hy Hm. unfold Client.mouseMove, Client.pointerEvent.
  cbn [Client.buttons Client.base Client.set_xy].
  rewrite pointerEvent_written by done. reflexivity.
Qed.

(** C9, as the code has it. [mouseDrag(10, 0, step=5)] with the pointer at
    (0, 0) writes two pointer events, at (5, 0) and then at (10, 0), with a
    pause of 200 ms after the first; no event is written for the starting
    position. Afterwards the tracked pointer is at (10, 0). *)
Theorem mouse_drag_10_0_step_5 (c : Client.t) :
  Client.x c = 0 -> Client.y c = 0 ->
  0 <= Client.buttons c < 256 ->
  RFB.writer (Client.base c) = true ->
  let b := z2b (Client.buttons c) in
  let move5 := [z2b 5; b; z2b 0; z2b 5; z2b 0; z2b 0] in
  let move10 := [z2b 5; b; z2b 0; z2b 10; z2b 0; z2b 0] in
  exists c',
    Client.mouseDrag 10 0 5 c = Client.Done c'
    /\ RFB.trace (Client.base c')
       = RFB.trace (Client.base c)
           ++ [RFB.Write move5; RFB.Sleep 200; RFB.Write move10]
    /\ pointer_positions [RFB.Write move5; RFB.Sleep 200; RFB.Write move10]
       = [(5, 0); (10, 0)]
    /\ Client.x c' = 10 /\ Client.y c' = 0.
Proof.
  intros Hx Hy Hb Hw b move5 move10.
  unfold Client.mouseDrag. rewrite Hx, Hy.
  change (10 <? 0) with false. change (0 <? 0) with false. cbv iota.
  replace (Client.range3 (0 + 5) 10 5) with (Ok [5] : result (list Z))
    by (vm_compute; reflexivity).
  replace (Client.range3 (0 + 5) 0 5) with (Ok [] : result (list Z))
    by (vm_compute; reflexivity).
  cbn [Client.lift Client.drag_y Client.drag_x Client.obind].
  rewrite mouseMove_written by (rewrite ?Hy; lia).
  cbn [Client.obind].
  rewrite mouseMove_written by (simpl; lia).
  eexists. split; [reflexivity|].
  split; [|split; [|split; reflexivity]].
  - cbn. unfold RFB._write. cbn. rewrite Hw. cbn. rewrite Hw. cbn.
    rewrite Hy, <- !app_assoc. reflexivity.
  - destruct (Client.buttons c); vm_compute; reflexivity.
Qed.

Lemma mouse_drag_10_0_step_5_witness :
  (Client.x Samples.client = 0 /\ Client.y Samples.client = 0
   /\ 0 <= Client.buttons Samples.client < 256
   /\ RFB.writer (Client.base Samples.client) = true)
  /\ exists c',
       Client.mouseDrag 10 0 5 Samples.client = Client.Done c'
       /\ RFB.trace (Client.base c')
          = RFB.trace (Client.base Samples.client)
              ++ [RFB.Write (map z2b [5; 0; 0; 5; 0; 0]); RFB.Sleep 200;
                  RFB.Write (map z2b [5; 0; 0; 10; 0; 0])]
       /\ Client.x c' = 10 /\ Client.y c' = 0.
Proof.
  assert (H1 : Client.x Samples.client = 0) by reflexivity.
  assert (H2 : Client.y Samples.client = 0) by reflexivity.
  assert (H3 : 0 <= Client.buttons Samples.client < 256)
    by (vm_compute; split; congruence).
  assert (H4 : RFB.writer (Client.base Samples.client) = true) by reflexivity.
  split; [exact (conj H1 (conj H2 (conj H3 H4)))|].
  destruct (mouse_drag_10_0_step_5 Samples.client H1 H2 H3 H4)
    as (c' & R1 & R2 & _ & R3 & R4).
  exists c'. split; [exact R1|]. split; [exact R2|]. split; assumption.
Defined.

(** C9, as stated, fails: the drag from (0, 0) writes no pointer event at
    (0, 0). *)
Lemma mouse_drag_no_event_at_start :
  ~ (exists c',
       Client.mouseDrag 10 0 5 Samples.client = Client.Done c'
       /\ pointer_positions (RFB.trace (Client.base c'))
          = [(0, 0); (5, 0); (10, 0)]).
Proof.
  intros (c' & Hrun & Hpos). vm_compute in Hrun.
  injection Hrun as <-. vm_compute in Hpos. discriminate.
Qed.

(** ** Resizing the screen *)

Lemma updateDesktopSize_in_range (s : Z * Z) (c : Client.t) :
  size_in_range s ->
  exists scr',
    Client.updateDesktopSize s.1 s.2 c
    = Client.Done (Client.set_screen (Some scr') c)
    /\ Image.size scr' = s
    /\ forall x y, Image.inside scr' x y = true ->
         Image.data scr' x y = resized_pixel (Client.screen c) [s] x y.
Proof.
  intros [H1 H2]. unfold Client.updateDesktopSize, Client.MAX_DESKTOP_SIZE in *.
  destruct s as [w h]. simpl in *.
  replace ((0 <=? w) && (w <? 65536) && (0 <=? h) && (h <? 65536)) with true by lia.
  simpl. eexists. split; [reflexivity|].
  destruct (Client.screen c) as [scr|]; simpl.
  - split; [reflexivity|]. intros x y Hin.
    unfold Image.inside in Hin. simpl in Hin.
    rewrite !Z.sub_0_r, andb_true_r.
    replace ((x <? w) && (y <? h)) with true by lia.
    rewrite !andb_true_r. reflexivity.
  - split; [reflexivity|]. reflexivity.
Qed.

Lemma set_screen_twice (u v : option (Image.t RGB)) (c : Client.t) :
  Client.set_screen v (Client.set_screen u c) = Client.set_screen v c.
Proof. reflexivity. Qed.

(** C6, as the code has it. After any sequence of [updateDesktopSize]
    calls with sizes below [MAX_DESKTOP_SIZE], the screen has the size of
    the last call, whether larger or smaller than before; a position keeps
    its earlier value where the earlier screen and every size requested
    since contain it, and every other position of the final screen is
    black. Nothing else of the client changes. *)
Theorem desktop_size_last_call_and_contents
    (calls : list (Z * Z)) (last : Z * Z) (c : Client.t) :
  Forall size_in_range (calls ++ [last]) ->
  exists scr',
    resize_all (calls ++ [last]) c
    = Client.Done (Client.set_screen (Some scr') c)
    /\ Image.size scr' = last
    /\ forall x y, Image.inside scr' x y = true ->
         Image.getpixel scr' x y
         = Some (resized_pixel (Client.screen c) (calls ++ [last]) x y).
Proof.
  revert c. induction calls as [|s calls IH]; intros c Hr.
  - apply Forall_inv in Hr.
    destruct (updateDesktopSize_in_range last c Hr) as (scr' & Hrun & Hsz & Hpx).
    exists scr'. simpl. destruct last as [w h]. simpl in Hrun. rewrite Hrun.
    split; [reflexivity|]. split; [assumption|].
    intros x y Hin. unfold Image.getpixel. rewrite Hin. f_equal. by apply Hpx.
  - simpl in Hr. apply Forall_cons in Hr as [Hs Hr].
    destruct (updateDesktopSize_in_range s c Hs) as (scr1 & Hrun1 & Hsz1 & Hpx1).
    destruct (IH (Client.set_screen (Some scr1) c) Hr) as (scr' & Hrun & Hsz & Hpx).
    exists scr'. simpl. destruct s as [w h]. simpl in Hrun1. rewrite Hrun1.
    simpl. rewrite Hrun, set_screen_twice.
    split; [reflexivity|]. split; [assumption|].
    intros x y Hin. rewrite (Hpx x y Hin). f_equal.
    assert (Hx : (0 <=? x) = true) by (unfold Image.inside in Hin; lia).
    assert (Hy : (0 <=? y) = true) by (unfold Image.inside in Hin; lia).
    assert (Hin1 : Image.inside scr1 x y = (x <? w) && (y <? h)).
    { unfold Image.inside. rewrite Hsz1. simpl. rewrite Hx, Hy. simpl.
      by rewrite andb_true_r. }
    unfold resized_pixel at 1. simpl Client.screen. cbv beta iota.
    rewrite Hin1.
    unfold resized_pixel. simpl inside_all.
    destruct ((x <? w) && (y <? h)) eqn:E.
    + rewrite (Hpx1 x y) by (by rewrite Hin1).
      unfold resized_pixel. simpl. rewrite E.
      destruct (Client.screen c) as [scr|];
        destruct (inside_all (calls ++ [last]) x y); simpl;
        rewrite ?andb_true_r, ?andb_false_r; reflexivity.
    + simpl. destruct (Client.screen c) as [scr|]; [|reflexivity].
      by rewrite andb_false_r.
Qed.

Lemma desktop_size_last_call_and_contents_witness :
  Forall size_in_range ([(3, 3)] ++ [(4, 2)])
  /\ exists scr',
       resize_all ([(3, 3)] ++ [(4, 2)]) Samples.client_2x2
       = Client.Done (Client.set_screen (Some scr') Samples.client_2x2)
       /\ Image.size scr' = (4, 2)
       /\ forall x y, Image.inside scr' x y = true ->
            Image.getpixel scr' x y
            = Some (resized_pixel (Client.screen Samples.client_2x2)
                      ([(3, 3)] ++ [(4, 2)]) x y).
Proof.
  assert (H : Forall size_in_range ([(3, 3)] ++ [(4, 2)])).
  { repeat constructor; simpl; unfold Client.MAX_DESKTOP_SIZE; lia. }
  split; [exact H|].
  exact (desktop_size_last_call_and_contents [(3, 3)] (4, 2)
           Samples.client_2x2 H).
Defined.

(** C6, as stated, fails: a call with a smaller size shrinks the screen,
    and the red pixel at (1, 1) of the 2x2 screen is gone. *)
Lemma desktop_size_can_shrink :
  exists scr scr',
    Client.screen Samples.client_2x2 = Some scr
    /\ Image.size scr = (2, 2)
    /\ Image.getpixel scr 1 1 = Some Samples.red
    /\ Client.updateDesktopSize 1 1 Samples.client_2x2
       = Client.Done (Client.set_screen (Some scr') Samples.client_2x2)
    /\ Image.size scr' = (1, 1)
    /\ Image.getpixel scr' 1 1 = None.
Proof.
  do 2 eexists. repeat split.
Qed.

(** Where the screen does grow monotonically: [updateRectangle] never
    makes an existing screen smaller. *)
Lemma mouseMove_screen (px py : Z) (c c' : Client.t) :
  Client.mouseMove px py c = Client.Done c' ->
  Client.screen c' = Client.screen c /\ Client.cursor c' = Client.cursor c
  /\ Client.cmask c' = Client.cmask c /\ Client.cfocus c' = Client.cfocus c
  /\ Client.image_mode c' = Client.image_mode c.
Proof.
  unfold Client.mouseMove, Client.pointerEvent, Client.lift.
  destruct (RFB.pointerEvent _ _ _ _); [|discriminate].
  intros [= <-]. repeat split.
Qed.

Lemma drawCursor_size (c c' : Client.t) (scr : Image.t RGB) :
  Client.screen c = Some scr ->
  Client.drawCursor c = Client.Done c' ->
  exists scr', Client.screen c' = Some scr'
               /\ Image.size scr' = Image.size scr.
Proof.
  intros Hs. unfold Client.drawCursor. rewrite Hs.
  destruct (Client.cursor c); [|intros [= <-]; eauto].
  destruct (Client.cfocus c); [|discriminate].
  intros [= <-]. simpl. eauto.
Qed.

Lemma updateRectangle_never_shrinks
    (pil : Imaging) (px py width height : Z) (data : bytes)
    (c c' : Client.t) (scr : Image.t RGB) :
  Client.screen c = Some scr ->
  Client.updateRectangle pil px py width height data c = Client.Done c' ->
  exists scr',
    Client.screen c' = Some scr'
    /\ (Image.size scr).1 <= (Image.size scr').1
    /\ (Image.size scr).2 <= (Image.size scr').2.
Proof.
  intros Hs. unfold Client.updateRectangle.
  destruct (len data =? 0);
    [intros [= <-]; exists scr; repeat split; [done|lia|lia]|].
  rewrite Hs. simpl fst. simpl snd.
  assert (Htail : forall c0 update,
             Client.screen c0 = Some scr ->
             Client.drawCursor
               match Client.screen c0 with
               | Some scr0 =>
                   if ((Image.size scr0).1 <? px + width)
                      || ((Image.size scr0).2 <? py + height)
                   then
                     Client.set_screen
                       (Some
                          (Image.paste
                             (Image.paste
                                (Image.new
                                   (Z.max (px + width) (Image.size scr0).1,
                                    Z.max (py + height) (Image.size scr0).2)
                                   black) scr0 (0, 0) None)
                             update (px, py) None)) c0
                   else
                     Client.set_screen
                       (Some (Image.paste scr0 update (px, py) None)) c0
               | None => Client.set_screen (Some update) c0
               end = Client.Done c' ->
             exists scr',
               Client.screen c' = Some scr'
               /\ (Image.size scr).1 <= (Image.size scr').1
               /\ (Image.size scr).2 <= (Image.size scr').2).
  { intros c0 update Hc0. rewrite Hc0.
    destruct (((Image.size scr).1 <? px + width)
              || ((Image.size scr).2 <? py + height));
      intros Hd; (eapply drawCursor_size in Hd; [|reflexivity]);
      destruct Hd as (scr' & -> & Hsz); exists scr'; rewrite Hsz; simpl;
      (split; [done|lia]). }
  destruct (negb (width =? (Image.size scr).1)
            || negb (height =? (Image.size scr).2)).
  - destruct (Client.mouseMove width height c) as [c2|] eqn:E1; [|discriminate].
    simpl. destruct (Client.mouseMove 0 0 c2) as [c3|] eqn:E2; [|discriminate].
    simpl. apply mouseMove_screen in E1, E2.
    destruct E1 as (E1 & _), E2 as (E2 & _).
    assert (Hc3 : Client.screen c3 = Some scr) by congruence.
    destruct (frombytes_RGB _ _ _ _) as [update|]; [|discriminate]. simpl.
    by apply Htail.
  - simpl.
    destruct (frombytes_RGB _ _ _ _) as [update|]; [|discriminate]. simpl.
    by apply Htail.
Qed.

(** ** The cursor *)

(** Whatever the width and height, zero included, a cursor update that is
    not disabled installs the decoded image, mask and focus and draws the
    cursor: the assignment [self.cursor = None] for an empty cursor is
    followed by no [return]. *)
Lemma updateCursor_installs
    (pil : Imaging) (px py width height : Z) (image mask : bytes)
    (c : Client.t) (cur : Image.t RGB) (m : Image.t bool) :
  Client.nocursor c = false ->
  frombytes_RGB pil (width, height) image (Client.image_mode c) = Ok cur ->
  frombytes_1 pil (width, height) mask = Ok m ->
  Client.updateCursor pil px py width height image mask c
  = Client.drawCursor
      (Client.set_cfocus (Some (px, py))
         (Client.set_cmask (Some m) (Client.set_cursor (Some cur) c))).
Proof.
  intros Hn Hc Hm. unfold Client.updateCursor. rewrite Hn.
  destruct ((width =? 0) || (height =? 0)); simpl; rewrite Hc; simpl;
    rewrite Hm; reflexivity.
Qed.

Lemma updateCursor_zero_size_returns_cursor
    (pil : Imaging) (px py width height : Z) (image mask : bytes)
    (c c' : Client.t) :
  Client.nocursor c = false ->
  width = 0 \/ height = 0 ->
  Client.updateCursor pil px py width height image mask c = Client.Done c' ->
  exists cur, Client.cursor c' = Some cur /\ Image.size cur = (width, height).
Proof.
  intros Hn _. unfold Client.updateCursor. rewrite Hn.
  set (c0 := if (width =? 0) || (height =? 0) then _ else _).
  assert (Hmode : Client.image_mode c0 = Client.image_mode c)
    by (subst c0; destruct ((width =? 0) || (height =? 0)); reflexivity).
  unfold frombytes_RGB, frombytes_1.
  destruct (decode_RGB pil _ _ _) as [p|]; [|discriminate]. simpl.
  destruct (decode_1 pil _ _) as [q|]; [|discriminate]. simpl.
  unfold Client.drawCursor. simpl.
  destruct (Client.screen c0); intros [= <-]; simpl; eauto.
Qed.

(** C7 at a cursor rectangle of width 0: the client does not return with
    the cursor cleared; it builds a 0x5 image and installs it as the
    current cursor. *)
Theorem update_cursor_zero_width_installs_image :
  exists c' cur,
    Client.updateCursor Samples.pil 0 0 0 5 [] [] Samples.client
    = Client.Done c'
    /\ Client.cursor c' = Some cur
    /\ Image.size cur = (0, 5).
Proof.
  do 2 eexists. repeat split.
Qed.

(** ** ZRLE run lengths *)

Lemma py_sum_app (l1 l2 : list Z) : py_sum (l1 ++ l2) = py_sum l1 + py_sum l2.
Proof.
  unfold py_sum. induction l1 as [|a l1 IH]; simpl; [done|]. rewrite IH. lia.
Qed.

Lemma py_sum_run (k : nat) (b : byte) :
  py_sum (map b2z (replicate k (z2b 255) ++ [b])) = 255 * Z.of_nat k + b2z b.
Proof.
  rewrite map_app, py_sum_app. simpl.
  induction k as [|k IH]; [simpl; lia|].
  change (replicate (S k) (z2b 255)) with (z2b 255 :: replicate k (z2b 255)).
  simpl map. unfold py_sum in *. simpl foldr.
  rewrite b2z_z2b by lia. lia.
Qed.

Lemma do_rle_while_run (k : nat) (b : byte) (rest : bytes) (acc : Z) :
  b2z b < 255 ->
  RFB.do_rle_while (replicate k (z2b 255) ++ b :: rest) 255 acc
  = Ok (acc + 255 * Z.of_nat k + b2z b, rest).
Proof.
  intros Hb. revert acc. induction k as [|k IH]; intros acc.
  - simpl. destruct rest; simpl;
      (destruct (b2z b =? 255) eqn:E; [lia|]); f_equal; f_equal; lia.
  - change (replicate (S k) (z2b 255)) with (z2b 255 :: replicate k (z2b 255)).
    simpl. rewrite b2z_z2b by lia. rewrite IH. f_equal. f_equal. lia.
Qed.

Lemma do_rle_run (pixel : bytes) (k : nat) (b : byte) (rest pixel_data : bytes) :
  b2z b < 255 ->
  RFB.do_rle pixel (replicate k (z2b 255) ++ b :: rest) pixel_data
  = Ok (1 + (255 * Z.of_nat k + b2z b), rest,
        pixel_data ++ bytes_mul pixel (1 + (255 * Z.of_nat k + b2z b))).
Proof.
  intros Hb. unfold RFB.do_rle. destruct k as [|k].
  - simpl. destruct rest; simpl;
      (destruct (b2z b =? 255) eqn:E; [lia|]); simpl;
      replace (b2z b + 1) with (1 + (0 + b2z b)) by lia; reflexivity.
  - change (replicate (S k) (z2b 255)) with (z2b 255 :: replicate k (z2b 255)).
    simpl app. cbv beta iota. rewrite b2z_z2b by lia.
    rewrite do_rle_while_run by done. simpl rbind.
    replace (255 + 255 * Z.of_nat k + b2z b + 1)
      with (1 + (255 * Z.of_nat (S k) + b2z b)) by lia.
    reflexivity.
Qed.

Lemma length_bytes_mul {A} (b : list A) (n : Z) :
  length (bytes_mul b n) = (Z.to_nat n * length b)%nat.
Proof.
  unfold bytes_mul. induction (Z.to_nat n) as [|k IH]; simpl; [done|].
  by rewrite length_app, IH.
Qed.

(** C5. A run of [do_rle] has 1 plus the sum of its run-length bytes as
    its length, the bytes being every 255 and the first byte below 255; the
    pixel is appended that many times. In the palette loop, an index byte
    with the high bit set followed by the bytes FF FF 03 appends
    255 + 255 + 3 + 1 = 514 copies of the selected palette entry. *)
Theorem zrle_run_length
    (pixel : bytes) (k : nat) (b : byte) (rest pixel_data : bytes)
    (palette : list bytes) (i : Z) :
  b2z b < 255 ->
  0 <= i < 128 ->
  RFB.palette_get palette i = Ok pixel ->
  let run_bytes := replicate k (z2b 255) ++ [b] in
  let n := 1 + py_sum (map b2z run_bytes) in
  RFB.do_rle pixel (run_bytes ++ rest) pixel_data
  = Ok (n, rest, pixel_data ++ bytes_mul pixel n)
  /\ RFB.palette_rle_step palette
       (z2b (128 + i) :: map z2b [255; 255; 3] ++ rest) pixel_data
     = Ok (514, rest, pixel_data ++ bytes_mul pixel 514)
  /\ length (bytes_mul pixel 514) = (514 * length pixel)%nat.
Proof.
  intros Hb Hi Hp run_bytes n. subst run_bytes n.
  rewrite py_sum_run, <- app_assoc. simpl app.
  split; [by apply do_rle_run|]. split.
  - unfold RFB.palette_rle_step.
    rewrite b2z_z2b by lia.
    replace (Z.land (128 + i) 128 =? 0) with false.
    2:{ symmetry. apply Z.eqb_neq. intros H.
        assert (Ht : Z.testbit (Z.land (128 + i) 128) 7 = false)
          by (rewrite H; apply Z.bits_0).
        rewrite Z.land_spec in Ht.
        replace (128 + i) with (i + 1 * 2 ^ 7) in Ht by lia.
        rewrite Z.add_comm, Z.mul_comm in Ht.
        change (Z.testbit 128 7) with true in Ht.
        rewrite andb_true_r in Ht.
        rewrite <- (Z.div_pow2_bits _ 7 0) in Ht by lia.
        replace ((2 ^ 7 * 1 + i) / 2 ^ 7) with 1 in Ht; [discriminate|].
        apply Z.div_unique with (r := i); lia. }
    simpl negb. cbv iota.
    replace (Z.land (128 + i) 127) with i.
    2:{ change 127 with (Z.ones 7). rewrite Z.land_ones by lia.
        replace (128 + i) with (i + 1 * 2 ^ 7) by lia.
        rewrite Z.mod_add by lia. symmetry. apply Z.mod_small. lia. }
    rewrite Hp. cbn [rbind].
    change (z2b 255 :: z2b 255 :: z2b 3 :: rest)
      with (replicate 2 (z2b 255) ++ z2b 3 :: rest).
    rewrite do_rle_run by (rewrite b2z_z2b; lia).
    rewrite b2z_z2b by lia. reflexivity.
  - by rewrite length_bytes_mul.
Qed.

Lemma zrle_run_length_witness :
  (b2z (z2b 3) < 255 /\ 0 <= 1 < 128
   /\ RFB.palette_get [map z2b [1; 2; 3; 255]; map z2b [4; 5; 6; 255]] 1
      = Ok (map z2b [4; 5; 6; 255]))
  /\ RFB.palette_rle_step [map z2b [1; 2; 3; 255]; map z2b [4; 5; 6; 255]]
       (z2b (128 + 1) :: map z2b [255; 255; 3] ++ [z2b 9]) []
     = Ok (514, [z2b 9], [] ++ bytes_mul (map z2b [4; 5; 6; 255]) 514).
Proof.
  assert (H1 : b2z (z2b 3) < 255) by (vm_compute; reflexivity).
  assert (H2 : 0 <= 1 < 128) by lia.
  assert (H3 : RFB.palette_get [map z2b [1; 2; 3; 255]; map z2b [4; 5; 6; 255]] 1
               = Ok (map z2b [4; 5; 6; 255])) by reflexivity.
  split; [exact (conj H1 (conj H2 H3))|].
  exact (proj1 (proj2 (zrle_run_length (map z2b [4; 5; 6; 255]) 2 (z2b 3)
                         [z2b 9] [] _ 1 H1 H2 H3))).
Defined.

(** ** VNC authentication *)

Lemma format_nul_8_8_lookup (password : string) (i : nat) :
  (i < 8)%nat ->
  format_nul_8_8 password !! i
  = Some (default NUL (list_ascii_of_string password !! i)).
Proof.
  intros Hi. unfold format_nul_8_8.
  set (s := list_ascii_of_string password).
  destruct (decide (i < length s)%nat) as [Hlt|Hge].
  - rewrite lookup_app_l by (rewrite length_take; lia).
    rewrite lookup_take_lt by lia.
    destruct (lookup_lt_is_Some_2 s i Hlt) as [c Hc]. by rewrite Hc.
  - rewrite (take_ge s 8) by lia.
    rewrite lookup_app_r by lia.
    rewrite (lookup_ge_None_2 s i) by lia.
    apply lookup_replicate_2. lia.
Qed.

(** C2, as the code has it. The password is cut or NUL-padded to 8
    characters and, when these are ASCII, each byte is bit-reversed (bit j
    of the key byte is bit 7 - j of the password byte) to give the DES key;
    for the password "password" the key is 0E 86 CE CE EE F6 4E 26. The
    16-byte challenge encrypted with DES-ECB under that key is written
    back, and the authentication result is awaited. *)
Theorem vnc_des_key_and_response
    (ext : RFB.Externals) (rec : RFB.State -> RFB.outcome)
    (password : string) (challenge response : bytes) (st : RFB.State) :
  forallb (fun c => b2z c <? 128) (format_nul_8_8 password) = true ->
  exists key,
    _vnc_des password = Ok key
    /\ length key = 8%nat
    /\ (forall i, (i < 8)%nat ->
          exists k r,
            default NUL (list_ascii_of_string password !! i) = k
            /\ key !! i = Some r
            /\ forall j, 0 <= j < 8 ->
                 Z.testbit (b2z r) j = Z.testbit (b2z k) (7 - j))
    /\ _vnc_des "password"
       = Ok (map z2b [0x0E; 0x86; 0xCE; 0xCE; 0xEE; 0xF6; 0x4E; 0x26])
    /\ (RFB.password st = Some password ->
        RFB.des_ecb_encrypt ext key challenge = Ok response ->
        RFB._handleVNCAuth ext rec challenge st
        = RFB.expect rec RFB.HVNCAuthResult 4
            (RFB._write response (RFB.set_challenge challenge st))).
Proof.
  intros Hascii. unfold _vnc_des, encode_ascii. rewrite Hascii. simpl rbind.
  eexists. split; [reflexivity|].
  split; [by rewrite length_map, length_format_nul_8_8|].
  split; [|split].
  - intros i Hi. do 2 eexists. split; [reflexivity|].
    rewrite list_lookup_fmap, format_nul_8_8_lookup by done. simpl.
    split; [reflexivity|]. intros j Hj.
    rewrite b2z_z2b by apply reverse_bits_byte.
    by apply reverse_bits_spec.
  - vm_compute. reflexivity.
  - intros Hpw Hdes. unfold RFB._handleVNCAuth, RFB.vncRequestPassword.
    cbn [RFB.password RFB.set_challenge]. rewrite Hpw.
    unfold RFB.sendPassword, _vnc_des, encode_ascii. rewrite Hascii.
    cbn [rbind RFB.lift RFB._challenge RFB.set_challenge].
    rewrite Hdes. reflexivity.
Qed.

Lemma vnc_des_key_and_response_witness :
  forallb (fun c => b2z c <? 128) (format_nul_8_8 "password") = true
  /\ exists key,
       _vnc_des "password" = Ok key
       /\ length key = 8%nat
       /\ key = map z2b [0x0E; 0x86; 0xCE; 0xCE; 0xEE; 0xF6; 0x4E; 0x26].
Proof.
  assert (H : forallb (fun c => b2z c <? 128) (format_nul_8_8 "password") = true)
    by reflexivity.
  split; [exact H|].
  destruct (vnc_des_key_and_response Samples.ext (fun st => RFB.Done st)
              "password" [] [] RFB.init H) as (key & Hk & Hl & _ & Hv & _).
  exists key. split; [exact Hk|]. split; [exact Hl|]. congruence.
Defined.

(** C2, as stated, fails on its vector: the key of "password" is not
    0E 0A 0C 0E 96 0E 8E 0C. *)
Lemma vnc_des_password_vector_differs :
  _vnc_des "password"
  <> Ok (map z2b [0x0E; 0x0A; 0x0C; 0x0E; 0x96; 0x0E; 0x8E; 0x0C]).
Proof. vm_compute. intros H. discriminate H. Qed.

(** ** CoRRE subrectangles *)

Example session_after_handshake :
  RFB._expected_handler Samples.session = RFB.HConnection
  /\ RFB._expected_len Samples.session = 1
  /\ RFB._packet Samples.session = []
  /\ (RFB.width Samples.session, RFB.height Samples.session) = (640, 480)
  /\ RFB.pixel_format Samples.session = PixelFormat.default
  /\ RFB.name Samples.session = bytes_of "abc"
  /\ RFB.trace Samples.session
     = [RFB.Write (bytes_of "RFB 003.008" ++ [LF]); RFB.Write [z2b 1];
        RFB.Write [z2b 1]; RFB.CbConnectionMade].
Proof. vm_compute. repeat split. Qed.

(** The subrectangle handler of CoRRE raises on its first [unpack]: the
    format it passes is the literal text of the source, braces included. *)
Lemma corre_rectangles_raise
    (rec : RFB.State -> RFB.outcome) (block : bytes) (topx topy : Z)
    (st : RFB.State) :
  0 < RFB.bypp st + 4 ->
  RFB._handleDecodeCORRERectangles rec block topx topy st
  = RFB.Raised StructError st.
Proof.
  intros Hsz. unfold RFB._handleDecodeCORRERectangles. cbn [RFB.corre_subrects].
  destruct (0 <? RFB.bypp st + 4) eqn:E; [|lia].
  unfold unpack.
  replace (parse_format "!{self.bypp}sBBBB") with (@Raise (list fcode) StructError)
    by (vm_compute; reflexivity).
  reflexivity.
Qed.

(** With the format an f-string would give, the loop [while pos < sz] still
    stops after the first subrectangle, because [sz] is the size of one. *)
Example corre_loop_stops_after_first :
  let two := map z2b [1; 1; 1; 1; 0; 0; 1; 1;  2; 2; 2; 2; 1; 1; 1; 1] in
  exists st,
    RFB.corre_subrects (fun st => RFB.Done st) 17 two 0 0 8 "!4sBBBB" 0
      (RFB.set_already_expecting true Samples.session) = RFB.Done st
    /\ RFB.trace st
       = RFB.trace Samples.session
           ++ [RFB.CbUpdateRectangle 0 0 1 1 (map z2b [1; 1; 1; 1])].
Proof. eexists. split; vm_compute; reflexivity. Qed.

(** C3 at a CoRRE rectangle with two subrectangles (4x4 at the origin,
    32 bits per pixel): the engine draws the background, reads the
    (4 + 4) * 2 = 16 bytes of the subrectangles, and raises [struct.error]
    without filling any of them. *)
Theorem corre_two_subrectangles_raise :
  let update :=
    map z2b ([0; 0; 0; 1]
             ++ [0; 0; 0; 0; 0; 4; 0; 4; 0; 0; 0; 4]
             ++ [0; 0; 0; 2; 9; 9; 9; 9]
             ++ [1; 1; 1; 1; 0; 0; 1; 1;  2; 2; 2; 2; 1; 1; 1; 1]) in
  exists st,
    RFB.dataReceived Samples.ext 10 update Samples.session
    = RFB.Raised StructError st
    /\ RFB._packet st = []
    /\ RFB._expected_handler st = RFB.HDecodeCORRERectangles 0 0
    /\ RFB._expected_len st = 16
    /\ RFB.trace st
       = RFB.trace Samples.session
           ++ [RFB.CbBeginUpdate;
               RFB.CbUpdateRectangle 0 0 4 4
                 (bytes_mul (map z2b [9; 9; 9; 9]) 16)].
Proof.
  eexists. split; [vm_compute; reflexivity|].
  vm_compute. repeat split.
Qed.

(** ** Version negotiation *)

Lemma ver_le_refl (v : RFB.Ver) : RFB.ver_le v v = true.
Proof. unfold RFB.ver_le. lia. Qed.

Lemma ver_le_trans (a b c : RFB.Ver) :
  RFB.ver_le a b = true -> RFB.ver_le b c = true -> RFB.ver_le a c = true.
Proof. unfold RFB.ver_le. lia. Qed.

Lemma ver_lt_le (a b : RFB.Ver) : RFB.ver_lt a b = true -> RFB.ver_le a b = true.
Proof. unfold RFB.ver_lt, RFB.ver_le. lia. Qed.

Lemma ver_not_lt_le (a b : RFB.Ver) :
  RFB.ver_lt a b = false -> RFB.ver_le b a = true.
Proof. unfold RFB.ver_lt, RFB.ver_le. lia. Qed.

(** The fold behind [max] returns a member that bounds every member. *)
Lemma max_fold_spec (l : list RFB.Ver) (v : RFB.Ver) :
  let m := fold_left (fun m w => if RFB.ver_lt m w then w else m) l v in
  In m (v :: l) /\ forall w, In w (v :: l) -> RFB.ver_le w m = true.
Proof.
  revert v. induction l as [|x l IH]; intros v; simpl.
  - split; [by left|]. intros w [<-|[]]. apply ver_le_refl.
  - destruct (RFB.ver_lt v x) eqn:E.
    + destruct (IH x) as [Hin Hmax]. split.
      * simpl in Hin. tauto.
      * intros w [<-|Hw]; [|by apply Hmax].
        eapply ver_le_trans; [by apply ver_lt_le|]. apply Hmax. by left.
    + destruct (IH v) as [Hin Hmax]. split.
      * simpl in Hin. tauto.
      * intros w [<-|[<-|Hw]].
        -- apply Hmax. by left.
        -- eapply ver_le_trans; [by apply ver_not_lt_le|]. apply Hmax. by left.
        -- apply Hmax. by right.
Qed.

Lemma max_ver_spec (l : list RFB.Ver) (v : RFB.Ver) :
  In v l ->
  exists m, RFB.max_ver l = Ok m
            /\ In m l /\ forall w, In w l -> RFB.ver_le w m = true.
Proof.
  destruct l as [|x l]; [intros []|]. intros _. simpl.
  eexists. split; [reflexivity|]. apply max_fold_spec.
Qed.

Lemma translate_server_banner (a b c d e f : ascii) :
  Forall (fun x => RFB.is_digit x = true) [a; b; c; d; e; f] ->
  RFB.translate_header (server_banner a b c d e f) = RFB._HEADER.
Proof.
  intros H. repeat (apply Forall_cons in H as [? H]).
  unfold RFB.translate_header, server_banner. simpl map.
  repeat match goal with Hd : RFB.is_digit _ = true |- _ => rewrite Hd; clear Hd end.
  vm_compute. reflexivity.
Qed.

Lemma int_of_three_digits (a b c : ascii) :
  Forall (fun x => RFB.is_digit x = true) [a; b; c] ->
  RFB.int_of_digits [a; b; c] = Ok (digits3 a b c).
Proof.
  intros H. repeat (apply Forall_cons in H as [? H]).
  unfold RFB.int_of_digits. simpl forallb.
  repeat match goal with Hd : RFB.is_digit _ = true |- _ => rewrite Hd; clear Hd end.
  simpl. f_equal. unfold digits3. lia.
Qed.

(** C1, as the code has it. For every banner [RFB ddd.ddd LF] whose version
    is at least 3.3, the client picks the largest supported version not
    above the server's, lowers it to 3.8 if it is above, removes the 12
    bytes from its buffer, writes the banner of that version (one of
    RFB 003.003, RFB 003.007, RFB 003.008), records both versions, and
    expects the security handshake of that version. *)
Theorem initial_header_negotiation
    (rec : RFB.State -> RFB.outcome) (a b c d e f : ascii) (rest : bytes)
    (st : RFB.State) :
  Forall (fun x => RFB.is_digit x = true) [a; b; c; d; e; f] ->
  RFB.ver_le (3, 3) (digits3 a b c, digits3 d e f) = true ->
  RFB._packet st = server_banner a b c d e f ++ rest ->
  let server := (digits3 a b c, digits3 d e f) in
  exists sel version,
    In sel RFB.SUPPORTED_SERVER_VERSIONS
    /\ RFB.ver_le sel server = true
    /\ (forall v, In v RFB.SUPPORTED_SERVER_VERSIONS ->
                  RFB.ver_le v server = true -> RFB.ver_le v sel = true)
    /\ version = (if RFB.ver_lt (3, 8) sel then (3, 8) else sel)
    /\ In version [(3, 3); (3, 7); (3, 8)]
    /\ RFB.format_header version
       = bytes_of "RFB 003.00" ++ [z2b (48 + version.2)] ++ [LF]
    /\ (let st' :=
          RFB.set_version_server server
            (RFB.set_version version
               (RFB.set_handler RFB.HandleExpected
                  (RFB._write (RFB.format_header version)
                     (RFB.set_packet rest st)))) in
        RFB._handleInitial rec st
        = (if RFB.ver_lt version (3, 7) then RFB.expect rec RFB.HAuth 4 st'
           else RFB.expect rec RFB.HNumberSecurityTypes 1 st')
        /\ RFB._packet st' = rest
        /\ (RFB.writer st = true ->
            RFB.trace st'
            = RFB.trace st ++ [RFB.Write (RFB.format_header version)])).
Proof.
  intros Hd Hge Hp server.
  assert (Hin : In (3, 3)
                  (List.filter (fun v => RFB.ver_le v server)
                     RFB.SUPPORTED_SERVER_VERSIONS)).
  { apply filter_In. split; [by left | exact Hge]. }
  destruct (max_ver_spec _ _ Hin) as (sel & Hmax & Hsel & Hbound).
  apply filter_In in Hsel as [Hsup Hle].
  exists sel, (if RFB.ver_lt (3, 8) sel then (3, 8) else sel).
  split; [exact Hsup|]. split; [exact Hle|]. split.
  { intros v Hv Hvle. apply Hbound. apply filter_In. by split. }
  split; [reflexivity|].
  assert (Hcases : In (if RFB.ver_lt (3, 8) sel then (3, 8) else sel)
                     [(3, 3); (3, 7); (3, 8)]
                   /\ RFB.format_header (if RFB.ver_lt (3, 8) sel then (3, 8) else sel)
                      = bytes_of "RFB 003.00"
                          ++ [z2b (48 + (if RFB.ver_lt (3, 8) sel then (3, 8) else sel).2)]
                          ++ [LF]).
  { clear -Hsup. simpl in Hsup.
    destruct Hsup as [<-|[<-|[<-|[<-|[<-|[<-|[<-|[]]]]]]]];
      (split; [vm_compute; tauto | vm_compute; reflexivity]). }
  destruct Hcases as [Hv Hfmt]. split; [exact Hv|]. split; [exact Hfmt|].
  cbv zeta. split; [|split].
  2:{ unfold RFB._write. cbn. destruct (RFB.writer st); reflexivity. }
  2:{ intros Hw. cbn. unfold RFB._write. cbn. by rewrite Hw. }
  unfold RFB._handleInitial. rewrite Hp.
  assert (Hhead : slice_to (server_banner a b c d e f ++ rest) 12
                  = server_banner a b c d e f) by reflexivity.
  rewrite Hhead, translate_server_banner by exact Hd.
  rewrite decide_True by reflexivity.
  assert (H1 : RFB.int_of_digits (slice (server_banner a b c d e f) 4 7)
               = Ok (digits3 a b c)).
  { change (slice (server_banner a b c d e f) 4 7) with [a; b; c].
    apply int_of_three_digits.
    repeat (apply Forall_cons in Hd as [? Hd]). by repeat constructor. }
  assert (H2 : RFB.int_of_digits (slice (server_banner a b c d e f) 8 11)
               = Ok (digits3 d e f)).
  { change (slice (server_banner a b c d e f) 8 11) with [d; e; f].
    apply int_of_three_digits.
    repeat (apply Forall_cons in Hd as [? Hd]). by repeat constructor. }
  rewrite H1, H2. cbn [RFB.lift]. fold server. rewrite Hmax. cbn [RFB.lift].
  change (RFB.ver_lt RFB.MAX_CLIENT_VERSION sel) with (RFB.ver_lt (3, 8) sel).
  change RFB.MAX_CLIENT_VERSION with ((3, 8) : RFB.Ver).
  change (slice_from (server_banner a b c d e f ++ rest) 12) with rest.
  reflexivity.
Qed.

Lemma initial_header_negotiation_witness :
  let st0 :=
    RFB.set_packet (server_banner "0" "0" "3" "8" "8" "9")
      (RFB.connect None None true RFB.init) in
  (Forall (fun x => RFB.is_digit x = true)
     ["0"; "0"; "3"; "8"; "8"; "9"]%char
   /\ RFB.ver_le (3, 3) (digits3 "0" "0" "3", digits3 "8" "8" "9") = true
   /\ RFB._packet st0 = server_banner "0" "0" "3" "8" "8" "9" ++ [])
  /\ exists sel version,
       In sel RFB.SUPPORTED_SERVER_VERSIONS
       /\ version = (if RFB.ver_lt (3, 8) sel then (3, 8) else sel)
       /\ In version [(3, 3); (3, 7); (3, 8)]
       /\ RFB._handleInitial (fun st => RFB.Done st) st0
          = let st' :=
              RFB.set_version_server
                (digits3 "0" "0" "3", digits3 "8" "8" "9")
                (RFB.set_version version
                   (RFB.set_handler RFB.HandleExpected
                      (RFB._write (RFB.format_header version)
                         (RFB.set_packet [] st0)))) in
            if RFB.ver_lt version (3, 7)
            then RFB.expect (fun st => RFB.Done st) RFB.HAuth 4 st'
            else RFB.expect (fun st => RFB.Done st) RFB.HNumberSecurityTypes 1 st'.
Proof.
  intros st0.
  assert (H1 : Forall (fun x => RFB.is_digit x = true)
                 ["0"; "0"; "3"; "8"; "8"; "9"]%char)
    by (repeat constructor).
  assert (H2 : RFB.ver_le (3, 3) (digits3 "0" "0" "3", digits3 "8" "8" "9") = true)
    by reflexivity.
  assert (H3 : RFB._packet st0 = server_banner "0" "0" "3" "8" "8" "9" ++ [])
    by reflexivity.
  split; [exact (conj H1 (conj H2 H3))|].
  destruct (initial_header_negotiation (fun st => RFB.Done st)
              "0" "0" "3" "8" "8" "9" [] st0 H1 H2 H3)
    as (sel & version & Hs & _ & _ & Hv & Hin & _ & Hrun & _).
  exists sel, version. repeat split; assumption.
Defined.

(** C1, as stated, fails for a banner below version 3.3: no supported
    version is at most 3.2, [max] raises [ValueError] on the empty
    selection, and the client writes nothing back. *)
Lemma initial_header_below_3_3_raises :
  let st0 := RFB.connect None None true RFB.init in
  let banner := server_banner "0" "0" "3" "0" "0" "2" in
  List.filter (fun v => RFB.ver_le v (3, 2)) RFB.SUPPORTED_SERVER_VERSIONS = []
  /\ RFB.dataReceived Samples.ext 10 banner st0
     = RFB.Raised ValueError (RFB.set_packet banner st0)
  /\ RFB.trace (RFB.set_packet banner st0) = [].
Proof. vm_compute. repeat split. Qed.

(** ** Rectangles of an update *)

Ltac same := unfold same_update in *; simpl; intuition congruence.

Lemma same_update_refl st : same_update st st.
Proof. by repeat split. Qed.

Lemma same_update_trans a b c :
  same_update a b -> same_update b c -> same_update a c.
Proof. unfold same_update. intros (?&?&?) (?&?&?). repeat split; congruence. Qed.

Lemma same_update_log a b e : same_update a b -> same_update a (RFB.log e b).
Proof. intros H. eapply same_update_trans; [exact H|]. by repeat split. Qed.

Lemma keeps_raised st e st1 : keeps st (RFB.Raised e st1).
Proof. intros st' H. discriminate. Qed.

Lemma keeps_fuel st : keeps st RFB.OutOfFuel.
Proof. intros st' H. discriminate. Qed.

Lemma keeps_lift {A} st st1 (r : result A) k :
  (forall a, keeps st (k a)) -> keeps st (RFB.lift st1 r k).
Proof. intros H. destruct r; simpl; [apply H | apply keeps_raised]. Qed.

Lemma keeps_expect rec st st1 h n :
  same_update st st1 -> RFB._already_expecting st = true ->
  is_decoder h = true ->
  keeps st (RFB.expect rec h n st1).
Proof.
  intros Hs Ha Hd st' Heq. unfold RFB.expect in Heq.
  destruct Hs as (H1 & H2 & H3). simpl in Heq. rewrite H3, Ha in Heq.
  injection Heq as <-. split; [same|]. by left.
Qed.

Lemma keeps_doConnection rec st st1 :
  same_update st st1 -> RFB._already_expecting st = true ->
  keeps st (RFB._doConnection rec st1).
Proof.
  intros (H1 & H2 & H3) Ha st' Heq. unfold RFB._doConnection, RFB.expect in Heq.
  destruct (RFB.rectangles st1 =? 0) eqn:E; simpl in Heq.
  - destruct (RFB.rectanglePos st1) eqn:Ep; simpl in Heq; rewrite H3, Ha in Heq;
      injection Heq as <-; (split; [same|]); right; lia.
  - rewrite H3, Ha in Heq. injection Heq as <-.
    split; [same|]. right. by intros _.
Qed.

Lemma keeps_fill st st1 x y w h c k :
  (forall st2, same_update st1 st2 -> keeps st (k st2)) ->
  keeps st (RFB.obind (RFB.fillRectangle x y w h c st1) k).
Proof.
  intros H. unfold RFB.fillRectangle. destruct c; simpl; [|apply keeps_raised].
  apply H. same.
Qed.

Lemma keeps_nextHextile rec st st1 bg color x y w h tx ty :
  same_update st st1 -> RFB._already_expecting st = true ->
  keeps st (RFB._doNextHextileSubrect rec bg color x y w h tx ty st1).
Proof.
  intros Hs Ha. unfold RFB._doNextHextileSubrect.
  apply keeps_lift. intros [tx' ty'].
  destruct (ty' >=? y + h); [by apply keeps_doConnection | by apply keeps_expect].
Qed.

Ltac case_vals :=
  repeat match goal with
  | |- keeps _ (match ?vs with [] => _ | _ :: _ => _ end) => destruct vs
  | |- keeps _ (match ?v with VInt _ => _ | VBool _ => _ | VBytes _ => _ end) =>
      destruct v
  end.

Ltac keep_step :=
  first
    [ apply keeps_raised
    | apply keeps_fuel
    | apply keeps_lift; intros ?
    | apply keeps_fill; intros ? ?
    | apply keeps_expect; [same | assumption | reflexivity]
    | apply keeps_doConnection; [same | assumption]
    | apply keeps_nextHextile; [same | assumption]
    | match goal with
      | |- keeps _ (if ?b then _ else _) => destruct b
      | |- keeps _ (let '(_, _) := ?p in _) => destruct p
      end
    | progress case_vals ].

Lemma keeps_rre_subrects rec n block topx topy sz fmt pos st st1 :
  same_update st st1 -> RFB._already_expecting st = true ->
  keeps st (RFB.rre_subrects rec n block topx topy sz fmt pos st1).
Proof.
  intros Hs Ha. revert pos st1 Hs.
  induction n as [|n IH]; intros pos st1 Hs; cbn [RFB.rre_subrects].
  - repeat keep_step.
  - destruct (pos <? len block); [|repeat keep_step].
    apply keeps_lift; intros vs. case_vals; try apply keeps_raised.
    apply keeps_fill. intros st2 H2. apply IH. same.
Qed.

Lemma keeps_corre_subrects rec n block topx topy sz fmt pos st st1 :
  same_update st st1 -> RFB._already_expecting st = true ->
  keeps st (RFB.corre_subrects rec n block topx topy sz fmt pos st1).
Proof.
  intros Hs Ha. revert pos st1 Hs.
  induction n as [|n IH]; intros pos st1 Hs; cbn [RFB.corre_subrects].
  - repeat keep_step.
  - destruct (pos <? sz); [|repeat keep_step].
    apply keeps_lift; intros vs. case_vals; try apply keeps_raised.
    apply keeps_fill. intros st2 H2. apply IH. same.
Qed.

Lemma keeps_hextile_coloured rec n block sz bg color x y w h tx ty pos st st1 :
  same_update st st1 -> RFB._already_expecting st = true ->
  keeps st (RFB.hextile_coloured rec n block sz bg color x y w h tx ty pos st1).
Proof.
  intros Hs Ha. revert pos color st1 Hs.
  induction n as [|n IH]; intros pos color st1 Hs; cbn [RFB.hextile_coloured].
  - repeat keep_step.
  - destruct (pos <? len block); [|repeat keep_step].
    apply keeps_lift; intros xy. apply keeps_lift; intros wh.
    apply keeps_fill. intros st2 H2. apply IH. same.
Qed.

Lemma keeps_hextile_fg rec n block bg color x y w h tx ty pos st st1 :
  same_update st st1 -> RFB._already_expecting st = true ->
  keeps st (RFB.hextile_fg rec n block bg color x y w h tx ty pos st1).
Proof.
  intros Hs Ha. revert pos st1 Hs.
  induction n as [|n IH]; intros pos st1 Hs; cbn [RFB.hextile_fg].
  - repeat keep_step.
  - destruct (pos <? len block); [|repeat keep_step].
    apply keeps_lift; intros xy. apply keeps_lift; intros wh.
    apply keeps_fill. intros st2 H2. apply IH. same.
Qed.

Lemma keeps_zrle_tiles rec n it x y w h tx ty st st1 :
  same_update st st1 -> RFB._already_expecting st = true ->
  keeps st (RFB.zrle_tiles rec n it x y w h tx ty st1).
Proof.
  intros Hs Ha. revert it tx ty st1 Hs.
  induction n as [|n IH]; intros it tx ty st1 Hs; destruct it as [|s it]; cbn [RFB.zrle_tiles];
    try (repeat keep_step; fail).
  apply keeps_lift. intros [drawn it'].
  destruct drawn as [data|color].
  - cbn [RFB.obind]. destruct (tx + 64 >=? x + w); apply IH; same.
  - apply keeps_fill. intros st2 H2.
    destruct (tx + 64 >=? x + w); apply IH; same.
Qed.

(** Every handler of a decoder keeps the bookkeeping of the update, and
    either expects another handler of the decoder or goes through
    [_doConnection]. *)
Lemma decoder_handler_keeps ext rec h block st :
  is_decoder h = true -> RFB._already_expecting st = true ->
  keeps st (RFB.invoke ext rec h block st).
Proof.
  intros Hd Ha. destruct h; try discriminate Hd; simpl.
  - (* RAW *) unfold RFB._handleDecodeRAW. repeat keep_step.
  - unfold RFB._handleDecodeCopyrect. repeat keep_step.
  - unfold RFB._handleDecodeRRE. repeat keep_step.
  - unfold RFB._handleRRESubRectangles. apply keeps_rre_subrects; [same|done].
  - unfold RFB._handleDecodeCORRE. repeat keep_step.
  - unfold RFB._handleDecodeCORRERectangles.
    apply keeps_corre_subrects; [same|done].
  - unfold RFB._handleDecodeHextile. repeat keep_step.
  - unfold RFB._handleDecodeHextileSubrect.
    destruct (RFB.flag subencoding RFB.HextileEncoding.BACKGROUND_SPECIFIED);
      apply keeps_fill; intros st2 H2;
      destruct (RFB.flag subencoding RFB.HextileEncoding.FOREGROUND_SPECIFIED);
      repeat keep_step.
  - unfold RFB._handleDecodeHextileRAW. repeat keep_step.
  - unfold RFB._handleDecodeHextileSubrectsColoured.
    apply keeps_hextile_coloured; [same|done].
  - unfold RFB._handleDecodeHextileSubrectsFG.
    apply keeps_hextile_fg; [same|done].
  - unfold RFB._handleDecodeZRLE. repeat keep_step.
  - unfold RFB._handleDecodeZRLEdata. apply keeps_lift. intros data.
    apply keeps_zrle_tiles; [same|done].
  - unfold RFB._handleDecodePsuedoCursor. repeat keep_step.
Qed.

(** A whole decoder: the bookkeeping is unchanged, and when rectangles are
    pending the engine ends waiting for the next header. *)
Lemma decoded_spec ext rec st st' :
  decoded ext rec st st' ->
  RFB._already_expecting st = true ->
  (is_decoder (RFB._expected_handler st) = true
   \/ (RFB.rectangles st <> 0 ->
       RFB._expected_handler st = RFB.HRectangle
       /\ RFB._expected_len st = 12)) ->
  same_update st st'
  /\ (RFB.rectangles st <> 0 ->
      RFB._expected_handler st' = RFB.HRectangle
      /\ RFB._expected_len st' = 12).
Proof.
  induction 1 as [st Hnd|st block st1 st2 Hd Hinv Hrest IH]; intros Ha Hst.
  - split; [apply same_update_refl|].
    destruct Hst as [Hst|Hst]; [congruence|exact Hst].
  - destruct (decoder_handler_keeps ext rec _ block st Hd Ha st1 Hinv)
      as [Hsame Hnext].
    assert (Ha1 : RFB._already_expecting st1 = true) by same.
    assert (Hr1 : RFB.rectangles st1 = RFB.rectangles st) by same.
    destruct IH as [Hsame2 Hnext2]; [exact Ha1 | by rewrite Hr1 |].
    split; [by eapply same_update_trans|]. rewrite <- Hr1. exact Hnext2.
Qed.

Lemma keeps_done st st1 :
  same_update st st1 ->
  (RFB.rectangles st <> 0 ->
   RFB._expected_handler st1 = RFB.HRectangle /\ RFB._expected_len st1 = 12) ->
  keeps st (RFB.Done st1).
Proof. intros Hs Hn st' [= <-]. split; [exact Hs|]. by right. Qed.

Lemma keeps_elim s o st1 :
  keeps s o -> o = RFB.Done st1 ->
  RFB._already_expecting s = true ->
  RFB.rectangles st1 = RFB.rectangles s
  /\ RFB.rectanglePos st1 = RFB.rectanglePos s
  /\ RFB._already_expecting st1 = true
  /\ (is_decoder (RFB._expected_handler st1) = true
      \/ (RFB.rectangles st1 <> 0 ->
          RFB._expected_handler st1 = RFB.HRectangle
          /\ RFB._expected_len st1 = 12)).
Proof.
  intros Hk Ho Ha. destruct (Hk st1 Ho) as [(H1 & H2 & H3) Hn].
  split; [congruence|]. split; [congruence|]. split; [congruence|].
  destruct Hn as [Hn|Hn]; [by left|right]. rewrite H1. exact Hn.
Qed.

Ltac header_kept s Hs :=
  let Hrun := fresh "Hrun" in
  intros Hrun;
  match type of Hrun with
  | ?o = _ =>
      let K := fresh "K" in
      assert (K : keeps s o) by (repeat keep_step);
      exact (keeps_elim s o _ K Hrun Hs)
  end.

(** A header that is not the last-rectangle marker, while rectangles are
    pending: one rectangle less to come, and its position recorded unless
    the encoding is one of the two QEMU markers. *)
Lemma handleRectangle_pending rec block x y w h encoding st st1 :
  RFB._already_expecting st = true ->
  RFB._expected_handler st = RFB.HRectangle ->
  RFB._expected_len st = 12 ->
  RFB.rectangles st <> 0 ->
  unpack "!HHHHi" block = Ok [VInt x; VInt y; VInt w; VInt h; VInt encoding] ->
  encoding <> RFB.Encoding.PSEUDO_LAST_RECT ->
  RFB._handleRectangle rec block st = RFB.Done st1 ->
  RFB.rectangles st1 = RFB.rectangles st - 1
  /\ RFB.rectanglePos st1
     = RFB.rectanglePos st
         ++ (if recorded (x, y, w, h, encoding) then [(x, y, w, h)] else [])
  /\ RFB._already_expecting st1 = true
  /\ (is_decoder (RFB._expected_handler st1) = true
      \/ (RFB.rectangles st1 <> 0 ->
          RFB._expected_handler st1 = RFB.HRectangle
          /\ RFB._expected_len st1 = 12)).
Proof.
  intros Ha Hh Hl Hr Hu Hne. unfold RFB._handleRectangle. rewrite Hu.
  cbn [RFB.lift].
  destruct (encoding =? RFB.Encoding.PSEUDO_LAST_RECT) eqn:E; [lia|].
  destruct (RFB.rectangles st =? 0) eqn:E0; [lia|]. cbn [negb].
  set (s := RFB.set_rectanglePos _ _).
  assert (Hs3 : RFB._already_expecting s = true) by exact Ha.
  unfold recorded. cbn [snd].
  destruct (encoding =? RFB.Encoding.COPY_RECTANGLE) eqn:E1;
    [apply Z.eqb_eq in E1; subst encoding; header_kept s Hs3|].
  destruct (encoding =? RFB.Encoding.RAW) eqn:E2;
    [apply Z.eqb_eq in E2; subst encoding; header_kept s Hs3|].
  destruct (encoding =? RFB.Encoding.HEXTILE) eqn:E3;
    [apply Z.eqb_eq in E3; subst encoding; header_kept s Hs3|].
  destruct (encoding =? RFB.Encoding.CORRE) eqn:E4;
    [apply Z.eqb_eq in E4; subst encoding; header_kept s Hs3|].
  destruct (encoding =? RFB.Encoding.RRE) eqn:E5;
    [apply Z.eqb_eq in E5; subst encoding; header_kept s Hs3|].
  destruct (encoding =? RFB.Encoding.ZRLE) eqn:E6;
    [apply Z.eqb_eq in E6; subst encoding; header_kept s Hs3|].
  destruct (encoding =? RFB.Encoding.PSEUDO_CURSOR) eqn:E7;
    [apply Z.eqb_eq in E7; subst encoding; header_kept s Hs3|].
  destruct (encoding =? RFB.Encoding.PSEUDO_DESKTOP_SIZE) eqn:E8;
    [apply Z.eqb_eq in E8; subst encoding; header_kept s Hs3|].
  destruct (encoding =? RFB.Encoding.PSEUDO_QEMU_EXTENDED_KEY_EVENT) eqn:E9.
  { cbn [orb negb]. rewrite app_nil_r.
    set (s' := RFB.set_rectanglePos _ (RFB.set_negotiated_encodings _ s)).
    intros Hrun.
    assert (K : keeps s' (RFB._doConnection rec s')) by (repeat keep_step).
    destruct (keeps_elim s' _ st1 K Hrun Hs3) as (H1 & H2 & H3 & H4).
    subst s' s. cbn in H2. rewrite removelast_last in H2. by repeat split. }
  destruct (encoding =? RFB.Encoding.PSEUDO_QEMU_AUDIO) eqn:E10.
  { cbn [orb negb]. rewrite app_nil_r.
    set (s' := RFB.set_rectanglePos _ (RFB.set_negotiated_encodings _ s)).
    intros Hrun.
    assert (K : keeps s' (RFB._doConnection rec s')) by (repeat keep_step).
    destruct (keeps_elim s' _ st1 K Hrun Hs3) as (H1 & H2 & H3 & H4).
    subst s' s. cbn in H2. rewrite removelast_last in H2. by repeat split. }
  cbn [orb negb]. intros Hrun.
  assert (K : keeps s (RFB.Done (RFB.disconnect s))).
  { apply keeps_done.
    - unfold RFB.disconnect. destruct (RFB.writer s); same.
    - intros _. unfold RFB.disconnect. destruct (RFB.writer s); by split. }
  exact (keeps_elim s _ st1 K Hrun Hs3).
Qed.

Lemma rectangles_handled_spec ext rec st headers st' :
  rectangles_handled ext rec st headers st' ->
  RFB._already_expecting st = true ->
  RFB._expected_len st = 12 ->
  len headers < RFB.rectangles st ->
  RFB.rectangles st' = RFB.rectangles st - len headers
  /\ RFB.rectanglePos st'
     = RFB.rectanglePos st ++ map fst (List.filter recorded headers)
  /\ RFB._already_expecting st' = true
  /\ (headers <> [] -> RFB._expected_handler st' = RFB.HRectangle)
  /\ RFB._expected_len st' = 12.
Proof.
  unfold len.
  induction 1 as [st|st block x y w h enc st1 st2 l st' Hh Hu Hne Hrun Hdec Hrest IH];
    intros Ha Hl Hn.
  - simpl. rewrite app_nil_r. repeat split; [lia|done..].
  - simpl length in Hn.
    destruct (handleRectangle_pending rec block x y w h enc st st1)
      as (H1 & H2 & H3 & H4); [done|done|done|lia|done|done|done|].
    destruct (decoded_spec ext rec st1 st2 Hdec H3 H4)
      as [(D1 & D2 & D3) D4].
    destruct D4 as [D4 D5]; [lia|].
    destruct IH as (I1 & I2 & I3 & I4 & I5); [congruence|done|lia|].
    split; [simpl length; lia|]. split.
    { rewrite I2, D2, H2. simpl List.filter.
      destruct (recorded (x, y, w, h, enc)); simpl; by rewrite <- app_assoc. }
    split; [done|]. split; [|done].
    intros _. destruct l as [|hd l]; [|by apply I4].
    inversion Hrest; subst. exact D4.
Qed.

(** The marker itself: the count is set to 0 and [_doConnection] ends the
    update. *)
Lemma handleRectangle_last rec last x y w h st :
  unpack "!HHHHi" last
  = Ok [VInt x; VInt y; VInt w; VInt h; VInt RFB.Encoding.PSEUDO_LAST_RECT] ->
  RFB._already_expecting st = true ->
  RFB._handleRectangle rec last st
  = RFB.Done
      (RFB.set_expected_len 1
         (RFB.set_expected_handler RFB.HConnection
            match RFB.rectanglePos st with
            | [] => RFB.set_rectangles 0 st
            | _ :: _ =>
                RFB.log (RFB.CbCommitUpdate (RFB.rectanglePos st))
                  (RFB.set_rectangles 0 st)
            end)).
Proof.
  intros Hlast Ha. unfold RFB._handleRectangle. rewrite Hlast. cbn [RFB.lift].
  change (RFB.Encoding.PSEUDO_LAST_RECT =? RFB.Encoding.PSEUDO_LAST_RECT)
    with true. cbv iota.
  change (negb (RFB.rectangles (RFB.set_rectangles 0 st) =? 0)) with false.
  cbv iota. unfold RFB._doConnection, RFB.expect.
  change (negb (RFB.rectangles (RFB.set_rectangles 0 st) =? 0)) with false.
  cbv iota.
  change (RFB.rectanglePos (RFB.set_rectangles 0 st)) with (RFB.rectanglePos st).
  destruct (RFB.rectanglePos st); cbn; rewrite Ha; reflexivity.
Qed.

(** C4, as the code has it. In an update that declares [n] rectangles,
    let [headers] be the rectangles handled before a header with the
    last-rectangle marker arrives, fewer than [n]. Then the engine was
    waiting for a rectangle header with exactly their positions recorded
    (all of them, but for QEMU markers), and on the marker it sets the count
    of pending rectangles to 0, calls [commitUpdate] with those positions
    when there is at least one, calls nothing when there is none, and
    returns to the dispatch of server messages. *)
Theorem last_rect_commits_preceding
    (ext : RFB.Externals) (rec : RFB.State -> RFB.outcome)
    (n : Z) (headers : list (RFB.Rect * Z)) (st0 s0 st : RFB.State)
    (block0 last : bytes) (x y w h : Z) :
  RFB._already_expecting st0 = true ->
  unpack "!xH" block0 = Ok [VInt n] ->
  len headers < n ->
  RFB._handleFramebufferUpdate rec block0 st0 = RFB.Done s0 ->
  rectangles_handled ext rec s0 headers st ->
  unpack "!HHHHi" last
  = Ok [VInt x; VInt y; VInt w; VInt h; VInt RFB.Encoding.PSEUDO_LAST_RECT] ->
  let positions := map fst (List.filter recorded headers) in
  RFB._expected_handler st = RFB.HRectangle
  /\ RFB.rectangles st = n - len headers
  /\ RFB.rectanglePos st = positions
  /\ exists st',
       RFB._handleRectangle rec last st = RFB.Done st'
       /\ RFB.rectangles st' = 0
       /\ RFB.rectanglePos st' = positions
       /\ RFB.trace st'
          = RFB.trace st
              ++ match positions with
                 | [] => []
                 | _ :: _ => [RFB.CbCommitUpdate positions]
                 end
       /\ RFB._expected_handler st' = RFB.HConnection
       /\ RFB._expected_len st' = 1.
Proof.
  intros Ha Hu0 Hn Hfb Hrun Hlast positions.
  assert (Hpos : 0 <= len headers) by (unfold len; lia).
  (* the update header *)
  unfold RFB._handleFramebufferUpdate in Hfb. rewrite Hu0 in Hfb.
  cbn [RFB.lift] in Hfb. unfold RFB._doConnection, RFB.expect in Hfb.
  cbn in Hfb. destruct (n =? 0) eqn:En; [lia|]. cbn in Hfb.
  rewrite Ha in Hfb. injection Hfb as <-.
  (* the rectangles before the marker *)
  destruct (rectangles_handled_spec _ _ _ _ _ Hrun Ha eq_refl Hn)
    as (R1 & R2 & R3 & R4 & R5).
  cbn [RFB.rectangles RFB.rectanglePos RFB.set_expected_len
         RFB.set_expected_handler RFB.log RFB.set_trace RFB.set_rectanglePos
         RFB.set_rectangles] in R1, R2.
  simpl app in R2. fold positions in R2.
  assert (Hh : RFB._expected_handler st = RFB.HRectangle).
  { destruct headers as [|hd l]; [|by apply R4].
    inversion Hrun. reflexivity. }
  split; [exact Hh|]. split; [exact R1|]. split; [exact R2|].
  (* the marker *)
  rewrite (handleRectangle_last rec last x y w h st Hlast R3).
  eexists. split; [reflexivity|]. rewrite R2.
  destruct positions as [|p ps]; cbn; rewrite ?app_nil_r; by repeat split.
Qed.

Lemma last_rect_commits_preceding_witness :
  let rec := fun s : RFB.State => RFB.Done s in
  let st0 := RFB.set_already_expecting true Samples.session in
  let raw := ((0, 0, 1, 1), RFB.Encoding.RAW) in
  let copy := ((5, 6, 1, 1), RFB.Encoding.COPY_RECTANGLE) in
  let last := map z2b [0; 0; 0; 0; 0; 0; 0; 0; 255; 255; 255; 32] in
  exists s0 st st',
    RFB._handleFramebufferUpdate rec (map z2b [0; 0; 100]) st0 = RFB.Done s0
    /\ rectangles_handled Samples.ext rec s0 [raw; copy] st
    /\ RFB._handleRectangle rec last st = RFB.Done st'
    /\ RFB.rectangles st' = 0
    /\ RFB.rectanglePos st' = [(0, 0, 1, 1); (5, 6, 1, 1)]
    /\ RFB.trace st'
       = RFB.trace st ++ [RFB.CbCommitUpdate [(0, 0, 1, 1); (5, 6, 1, 1)]]
    /\ RFB._expected_handler st' = RFB.HConnection.
Proof.
  intros rec st0 raw copy last.
  assert (Hfb : exists s0,
             RFB._handleFramebufferUpdate rec (map z2b [0; 0; 100]) st0
             = RFB.Done s0)
    by (eexists; vm_compute; reflexivity).
  destruct Hfb as [s0 Hfb].
  assert (Hs0 := Hfb). vm_compute in Hs0. injection Hs0 as Hs0.
  assert (Hrun : exists st, rectangles_handled Samples.ext rec s0 [raw; copy] st).
  { rewrite <- Hs0. eexists.
    eapply (handled_cons _ _ _
              (map z2b [0; 0; 0; 0; 0; 1; 0; 1; 0; 0; 0; 0]));
      [reflexivity | vm_compute; reflexivity | vm_compute; discriminate
      | vm_compute; reflexivity | | ].
    - eapply (decoded_step _ _ _ (map z2b [1; 2; 3; 4]));
        [reflexivity | vm_compute; reflexivity | ].
      apply decoded_end. reflexivity.
    - eapply (handled_cons _ _ _
                (map z2b [0; 5; 0; 6; 0; 1; 0; 1; 0; 0; 0; 1]));
        [reflexivity | vm_compute; reflexivity | vm_compute; discriminate
        | vm_compute; reflexivity | | ].
      + eapply (decoded_step _ _ _ (map z2b [0; 0; 0; 10]));
          [reflexivity | vm_compute; reflexivity | ].
        apply decoded_end. reflexivity.
      + apply handled_nil. }
  destruct Hrun as [st Hrun].
  destruct (last_rect_commits_preceding Samples.ext rec 100 [raw; copy]
              st0 s0 st (map z2b [0; 0; 100]) last 0 0 0 0)
    as (_ & _ & _ & st' & H1 & H2 & H3 & H4 & H5 & _);
    [reflexivity | reflexivity | vm_compute; reflexivity | exact Hfb
    | exact Hrun | reflexivity |].
  exists s0, st, st'. repeat split; assumption.
Defined.

(** C4, as stated, fails when the marker is the first rectangle: the
    update ends, but [commitUpdate] is not called, not even with an empty
    list. *)
Lemma last_rect_first_no_commit :
  let update :=
    map z2b ([0; 0; 0; 100] ++ [0; 0; 0; 0; 0; 0; 0; 0; 255; 255; 255; 32]) in
  exists st,
    RFB.dataReceived Samples.ext 10 update Samples.session = RFB.Done st
    /\ RFB.rectangles st = 0
    /\ RFB._expected_handler st = RFB.HConnection
    /\ RFB.trace st = RFB.trace Samples.session ++ [RFB.CbBeginUpdate]
    /\ ~ In (RFB.CbCommitUpdate []) (RFB.trace st).
Proof.
  eexists. split; [vm_compute; reflexivity|].
  do 3 (split; [vm_compute; reflexivity|]).
  vm_compute. intros H.
  repeat (destruct H as [H|H]; [discriminate H|]). exact H.
Qed.

(** The scenario of the specification: 100 rectangles declared, the fifth
    header is the marker; the four raw rectangles before it are drawn and
    committed, and the engine is back at the dispatch with nothing left in
    its buffer. *)
Example last_rect_fifth_of_hundred :
  let raw (i : Z) := [0; i; 0; 0; 0; 1; 0; 1; 0; 0; 0; 0] ++ [i; i; i; 255] in
  let update :=
    map z2b ([0; 0; 0; 100] ++ raw 1 ++ raw 2 ++ raw 3 ++ raw 4
             ++ [0; 0; 0; 0; 0; 0; 0; 0; 255; 255; 255; 32]) in
  exists st,
    RFB.dataReceived Samples.ext 20 update Samples.session = RFB.Done st
    /\ RFB.rectangles st = 0
    /\ RFB._expected_handler st = RFB.HConnection
    /\ RFB._packet st = []
    /\ RFB.trace st
       = RFB.trace Samples.session
           ++ [RFB.CbBeginUpdate;
               RFB.CbUpdateRectangle 1 0 1 1 (map z2b [1; 1; 1; 255]);
               RFB.CbUpdateRectangle 2 0 1 1 (map z2b [2; 2; 2; 255]);
               RFB.CbUpdateRectangle 3 0 1 1 (map z2b [3; 3; 3; 255]);
               RFB.CbUpdateRectangle 4 0 1 1 (map z2b [4; 4; 4; 255]);
               RFB.CbCommitUpdate
                 [(1, 0, 1, 1); (2, 0, 1, 1); (3, 0, 1, 1); (4, 0, 1, 1)]].
Proof.
  eexists. split; [vm_compute; reflexivity|]. vm_compute. repeat split.
Qed.

(** ** Bit masks *)

Lemma ldiff_le_l (a b : Z) : 0 <= a -> Z.ldiff a b <= a.
Proof.
  intros Ha.
  assert (H : a - Z.land a b = Z.ldiff a (Z.land a b)).
  { apply Z.sub_nocarry_ldiff. apply Z.bits_inj'. intros i Hi.
    rewrite Z.ldiff_spec, Z.land_spec, Z.bits_0.
    destruct (Z.testbit a i), (Z.testbit b i); reflexivity. }
  assert (H2 : Z.ldiff a (Z.land a b) = Z.ldiff a b).
  { apply Z.bits_inj'. intros i Hi.
    rewrite !Z.ldiff_spec, Z.land_spec.
    destruct (Z.testbit a i), (Z.testbit b i); reflexivity. }
  assert (0 <= Z.land a b) by (apply Z.land_nonneg; lia).
  lia.
Qed.

Lemma land_le_r (a b : Z) : 0 <= b -> Z.land a b <= b.
Proof.
  intros Hb. rewrite Z.land_comm.
  replace (Z.land b a) with (Z.ldiff b (Z.lnot a))
    by (by rewrite Z.ldiff_land, Z.lnot_involutive).
  by apply ldiff_le_l.
Qed.

Lemma lor_below_pow2 (a b k : Z) :
  0 <= k -> 0 <= a < 2 ^ k -> 0 <= b < 2 ^ k -> 0 <= Z.lor a b < 2 ^ k.
Proof.
  intros Hk Ha Hb.
  assert (H0 : 0 <= Z.lor a b) by (apply Z.lor_nonneg; lia).
  split; [exact H0|].
  destruct (Z.eq_dec (Z.lor a b) 0) as [E|E]; [rewrite E; lia|].
  apply Z.log2_lt_pow2; [lia|]. rewrite Z.log2_lor by lia.
  apply Z.max_lub_lt.
  - destruct (Z.eq_dec a 0) as [->|]; [simpl|apply Z.log2_lt_pow2; lia].
    destruct (Z.eq_dec k 0) as [->|]; [|lia].
    assert (a' : b = 0) by (simpl in Hb; lia). subst. by destruct E.
  - destruct (Z.eq_dec b 0) as [->|]; [simpl|apply Z.log2_lt_pow2; lia].
    destruct (Z.eq_dec k 0) as [->|]; [|lia].
    assert (a' : a = 0) by (simpl in Ha; lia). subst. by destruct E.
Qed.

Lemma press_release_mask (b m : Z) :
  Z.land (Z.lor b m) (Z.lnot m) = Z.ldiff b m.
Proof.
  apply Z.bits_inj'. intros i Hi.
  rewrite Z.land_spec, Z.lor_spec, Z.lnot_spec, Z.ldiff_spec by exact Hi.
  destruct (Z.testbit b i), (Z.testbit m i); reflexivity.
Qed.

Arguments unpack : simpl never.
Arguments pack : simpl never.
Arguments PixelFormat.from_bytes : simpl never.
Arguments _vnc_des : simpl never.
Arguments bytes_mul : simpl never.
Arguments slice : simpl never.
Arguments slice_to : simpl never.
Arguments slice_from : simpl never.
Arguments RFB.index : simpl never.
Arguments RFB.flag : simpl never.
Arguments RFB.ver_lt : simpl never.
Arguments RFB.max_int : simpl never.
Arguments RFB.zrle_tile : simpl never.

Ltac hnorm :=
  cbn [RFB.lift RFB.obind omap_outcome
       RFB.set_packet RFB.set_handler RFB.set_expected_handler RFB.set_expected_len
       RFB.set_already_expecting RFB.set_version RFB.set_version_server
       RFB.set_zlib_stream RFB.set_negotiated_encodings RFB.set_pixel_format
       RFB.set_username RFB.set_password RFB.set_shared RFB.set_writer
       RFB.set_width RFB.set_height RFB.set_name RFB.set_rectangles
       RFB.set_rectanglePos RFB.set_challenge RFB.set_generator RFB.set_keyLen
       RFB.set_modulus RFB.set_serverKey RFB.set_trace
       RFB._packet RFB._handler RFB._expected_handler RFB._expected_len
       RFB._already_expecting RFB._version RFB._version_server RFB._zlib_stream
       RFB.negotiated_encodings RFB.pixel_format RFB.username RFB.password
       RFB.shared RFB.writer RFB.width RFB.height RFB.name RFB.rectangles
       RFB.rectanglePos RFB._challenge RFB.generator RFB.keyLen RFB.modulus
       RFB.serverKey RFB.trace].

Ltac hunfold :=
  unfold rebuffer, RFB.expect, RFB._doClientInitialization,
       RFB._doConnection, RFB.fillRectangle, RFB.updateRectangle,
       RFB._doNextHextileSubrect, RFB.vncRequestPassword, RFB.sendPassword,
       RFB._encryptArd, RFB.ardRequestCredentials, RFB.vncAuthFailed,
       RFB._write, RFB.disconnect, RFB.log, RFB.bypp.

Ltac deep b :=
  lazymatch b with
  | context [if ?c then _ else _] => deep c
  | context [match ?o with Some _ => _ | None => _ end] => deep o
  | context [match ?r with Ok _ => _ | Raise _ => _ end] => deep r
  | context [RFB.lift _ ?r _] => deep r
  | _ => destruct b
  end.

Ltac case_on X :=
  lazymatch X with
  | RFB.lift _ ?r _ => deep r
  | RFB.obind (RFB.lift _ ?r _) _ => deep r
  | RFB.obind (match ?o with Some _ => _ | None => _ end) _ => deep o
  | RFB.obind (if ?b then _ else _) _ => deep b
  | match ?r with Ok _ => _ | Raise _ => _ end => deep r
  | match ?v with VInt _ => _ | VBool _ => _ | VBytes _ => _ end => destruct v
  | match ?l with [] => _ | _ :: _ => _ end => destruct l
  | (if ?b then _ else _) => deep b
  | match ?o with Some _ => _ | None => _ end => deep o
  | (let '(_, _) := ?p in _) => destruct p
  | context [if ?b then _ else _] => deep b
  | context [match ?o with Some _ => _ | None => _ end] => deep o
  | context [match ?d with RFB.TileUpdate _ => _ | RFB.TileFill _ => _ end] =>
      destruct d
  end.

Ltac hcase :=
  match goal with
  | H : RFB._already_expecting ?st = true
    |- context [RFB._already_expecting ?st] => rewrite H
  | |- ?X = _ => case_on X
  end.

Ltac hsolve := repeat (hunfold; hnorm; first [hcase | reflexivity]).

Section Rebuffer.

Variable ext : RFB.Externals.
Variables rec rec' : RFB.State -> RFB.outcome.
Variable p : bytes.
Variable t : RFB.TopHandler.

Ltac rb_ih IH :=
  apply IH; [reflexivity | assumption].

Lemma rebuffer_rre_subrects n block topx topy sz fmt pos :
  rb_goal p t (RFB.rre_subrects rec n block topx topy sz fmt pos)
          (RFB.rre_subrects rec' n block topx topy sz fmt pos).
Proof.
  revert pos. induction n as [|n IH]; intros pos s1 s2 -> Ha;
    cbn [RFB.rre_subrects].
  - hsolve.
  - repeat (hunfold; hnorm; first [rb_ih IH | hcase | reflexivity]).
Qed.

Lemma rebuffer_corre_subrects n block topx topy sz fmt pos :
  rb_goal p t (RFB.corre_subrects rec n block topx topy sz fmt pos)
          (RFB.corre_subrects rec' n block topx topy sz fmt pos).
Proof.
  revert pos. induction n as [|n IH]; intros pos s1 s2 -> Ha;
    cbn [RFB.corre_subrects].
  - hsolve.
  - repeat (hunfold; hnorm; first [rb_ih IH | hcase | reflexivity]).
Qed.

Lemma rebuffer_hextile_coloured n block sz bg color x y w h tx ty pos :
  rb_goal p t (RFB.hextile_coloured rec n block sz bg color x y w h tx ty pos)
          (RFB.hextile_coloured rec' n block sz bg color x y w h tx ty pos).
Proof.
  revert pos color. induction n as [|n IH]; intros pos color s1 s2 -> Ha;
    cbn [RFB.hextile_coloured].
  - hsolve.
  - repeat (hunfold; hnorm; first [rb_ih IH | hcase | reflexivity]).
Qed.

Lemma rebuffer_hextile_fg n block bg color x y w h tx ty pos :
  rb_goal p t (RFB.hextile_fg rec n block bg color x y w h tx ty pos)
          (RFB.hextile_fg rec' n block bg color x y w h tx ty pos).
Proof.
  revert pos. induction n as [|n IH]; intros pos s1 s2 -> Ha;
    cbn [RFB.hextile_fg].
  - hsolve.
  - repeat (hunfold; hnorm; first [rb_ih IH | hcase | reflexivity]).
Qed.

Lemma rebuffer_zrle_tiles n it x y w h tx ty :
  rb_goal p t (RFB.zrle_tiles rec n it x y w h tx ty)
          (RFB.zrle_tiles rec' n it x y w h tx ty).
Proof.
  revert it tx ty. induction n as [|n IH]; intros it tx ty s1 s2 -> Ha;
    destruct it as [|s it]; cbn [RFB.zrle_tiles].
  - hsolve.
  - hsolve.
  - hsolve.
  - repeat (hunfold; hnorm; first [rb_ih IH | hcase | reflexivity]).
Qed.

Lemma rebuffer_invoke h block :
  rb_goal p t (RFB.invoke ext rec h block) (RFB.invoke ext rec' h block).
Proof.
  intros s1 s2 -> Ha. destruct h; cbn [RFB.invoke].
  all: try (unfold RFB._handleRRESubRectangles;
            apply rebuffer_rre_subrects; [reflexivity|assumption]).
  all: try (unfold RFB._handleDecodeCORRERectangles;
            apply rebuffer_corre_subrects; [reflexivity|assumption]).
  all: try (unfold RFB._handleDecodeHextileSubrectsColoured;
            apply rebuffer_hextile_coloured; [reflexivity|assumption]).
  all: try (unfold RFB._handleDecodeHextileSubrectsFG;
            apply rebuffer_hextile_fg; [reflexivity|assumption]).
  all: try (unfold RFB._handleDecodeZRLEdata; hunfold; hnorm;
            destruct (RFB.zlib_decompress ext (RFB._zlib_stream s2) block);
            [apply rebuffer_zrle_tiles; [reflexivity|assumption] | reflexivity]).
  all: unfold RFB._handleNumberSecurityTypes, RFB._handleSecurityTypes,
    RFB._handleAuth, RFB._handleConnFailed, RFB._handleConnMessage,
    RFB._handleVNCAuth, RFB._handleDHAuth, RFB._handleDHAuthKey,
    RFB._handleDHAuthCert, RFB._handleVNCAuthResult, RFB._handleAuthFailed,
    RFB._handleAuthFailedMessage, RFB._handleServerInit, RFB._handleServerName,
    RFB._handleConnection, RFB._handleQEMUServerMessage,
    RFB._handleQEMUAudioServerMessage, RFB._handleQEMUAudioServerProviderMessage,
    RFB._handleQEMUAudioServerStreamMessage, RFB._handleFramebufferUpdate,
    RFB._handleRectangle, RFB._handleDecodeRAW, RFB._handleDecodeCopyrect,
    RFB._handleDecodeRRE, RFB._handleDecodeCORRE, RFB._handleDecodeHextile,
    RFB._handleDecodeHextileSubrect, RFB._handleDecodeHextileRAW,
    RFB._handleDecodeZRLE, RFB._handleDecodePsuedoCursor,
    RFB._handleColourMapEntries, RFB._handleColourMapEntriesValue,
    RFB._handleServerCutText, RFB._handleServerCutTextValue.
  all: hsolve.
Qed.

End Rebuffer.

Lemma rebuffer_id st : rebuffer (RFB._packet st) (RFB._handler st) st = st.
Proof. by destruct st. Qed.

Lemma rebuffer_feed p t b s :
  RFB._packet s = p -> RFB._handler s = t ->
  rebuffer (p ++ b) t s = feed b s.
Proof. destruct s; simpl; intros -> ->; reflexivity. Qed.

(** A handler leaves the receive buffer and the top-level handler alone,
    and gives the same result whatever [_handleExpected] stands for. *)
Lemma invoke_fixes_buffer ext rec h block st :
  RFB._already_expecting st = true ->
  RFB.invoke ext rec h block st
  = omap_outcome (rebuffer (RFB._packet st) (RFB._handler st))
      (RFB.invoke ext rec h block st).
Proof.
  intros Ha.
  exact (rebuffer_invoke ext rec rec (RFB._packet st) (RFB._handler st) h
           block st st (eq_sym (rebuffer_id st)) Ha).
Qed.

Lemma invoke_keeps_buffer ext rec h block st st' :
  RFB._already_expecting st = true ->
  RFB.invoke ext rec h block st = RFB.Done st' ->
  RFB._packet st' = RFB._packet st /\ RFB._handler st' = RFB._handler st.
Proof.
  intros Ha Hrun. pose proof (invoke_fixes_buffer ext rec h block st Ha) as H.
  rewrite Hrun in H. simpl in H. injection H as H. rewrite H.
  split; reflexivity.
Qed.

Lemma invoke_any_rec ext rec rec' h block st :
  RFB._already_expecting st = true ->
  RFB.invoke ext rec h block st = RFB.invoke ext rec' h block st.
Proof.
  intros Ha.
  rewrite (rebuffer_invoke ext rec rec' (RFB._packet st) (RFB._handler st) h
             block st st (eq_sym (rebuffer_id st)) Ha).
  symmetry. apply invoke_fixes_buffer, Ha.
Qed.

(** The dispatch loop does not look at the flag it is entered with. *)
Lemma expected_loop_flag ext rec n v st :
  RFB.expected_loop ext rec n (RFB.set_already_expecting v st)
  = RFB.expected_loop ext rec n st.
Proof. destruct n; reflexivity. Qed.

Lemma expected_loop_any_rec ext rec rec' n st :
  RFB.expected_loop ext rec n st = RFB.expected_loop ext rec' n st.
Proof.
  revert st. induction n as [|n IH]; intros st; cbn [RFB.expected_loop];
    [reflexivity|].
  destruct (len (RFB._packet st) >=? RFB._expected_len st); [|reflexivity].
  rewrite (invoke_any_rec ext rec rec') by reflexivity.
  destruct (RFB.invoke ext rec' _ _ _) as [s|e s|]; simpl; auto.
Qed.

Lemma expected_loop_mono ext rec n k st st' :
  RFB.expected_loop ext rec n st = RFB.Done st' ->
  RFB.expected_loop ext rec (n + k) st = RFB.Done st'.
Proof.
  revert st. induction n as [|n IH]; intros st; cbn [RFB.expected_loop].
  - destruct (len (RFB._packet st) >=? RFB._expected_len st) eqn:E;
      [discriminate|].
    intros H. destruct k; cbn [Nat.add RFB.expected_loop]; by rewrite E.
  - cbn [Nat.add RFB.expected_loop].
    destruct (len (RFB._packet st) >=? RFB._expected_len st); [|done].
    destruct (RFB.invoke ext rec _ _ _) as [s|e s|]; simpl; try discriminate.
    apply IH.
Qed.

(** When the dispatch loop returns, fewer bytes than expected are left in
    the buffer, the flag is clear and the top-level handler is the one
    it was. *)
Lemma expected_loop_quiescent ext rec n st st' :
  RFB.expected_loop ext rec n st = RFB.Done st' ->
  len (RFB._packet st') < RFB._expected_len st'
  /\ RFB._already_expecting st' = false
  /\ RFB._handler st' = RFB._handler st.
Proof.
  revert st. induction n as [|n IH]; intros st; cbn [RFB.expected_loop].
  - destruct (len (RFB._packet st) >=? RFB._expected_len st) eqn:E;
      [discriminate|].
    intros [= <-]. simpl. repeat split. lia.
  - destruct (len (RFB._packet st) >=? RFB._expected_len st) eqn:E.
    + destruct (RFB.invoke ext rec _ _ _) as [s|e s|] eqn:Hi; simpl;
        try discriminate.
      intros H. apply IH in H as (H1 & H2 & H3).
      apply invoke_keeps_buffer in Hi as [_ Hh]; [|reflexivity].
      repeat split; try assumption. rewrite H3, Hh. reflexivity.
    + intros [= <-]. simpl. repeat split. lia.
Qed.

Lemma slice_to_app {A} (p b : list A) n :
  n <= len p -> slice_to (p ++ b) n = slice_to p n.
Proof.
  unfold slice_to, len. intros H. apply take_app_le. lia.
Qed.

Lemma slice_from_app {A} (p b : list A) n :
  n <= len p -> slice_from (p ++ b) n = slice_from p n ++ b.
Proof.
  unfold slice_from, len. intros H. apply drop_app_le. lia.
Qed.

Lemma len_app {A} (p b : list A) : len (p ++ b) = len p + len b.
Proof. unfold len. rewrite length_app. lia. Qed.

Lemma len_nonneg {A} (p : list A) : 0 <= len p.
Proof. unfold len. lia. Qed.

(** Bytes that arrive while the loop runs are left for the next run:
    the loop on the whole input does what the loop on its first part and
    then the loop on the rest do. *)
Lemma expected_loop_split ext rec n m b st st1 st2 :
  RFB.expected_loop ext rec n st = RFB.Done st1 ->
  RFB.expected_loop ext rec m (feed b st1) = RFB.Done st2 ->
  RFB.expected_loop ext rec (n + m) (feed b st) = RFB.Done st2.
Proof.
  revert st. induction n as [|n IH]; intros st; cbn [RFB.expected_loop].
  - destruct (len (RFB._packet st) >=? RFB._expected_len st) eqn:E;
      [discriminate|].
    intros [= <-]. cbn [Nat.add]. unfold feed. cbn [RFB._packet RFB.set_already_expecting].
    intros H. rewrite <- H.
    change (RFB.set_packet (RFB._packet st ++ b) (RFB.set_already_expecting false st))
      with (RFB.set_already_expecting false (RFB.set_packet (RFB._packet st ++ b) st)).
    by rewrite expected_loop_flag.
  - destruct (len (RFB._packet st) >=? RFB._expected_len st) eqn:E.
    + destruct (RFB.invoke ext rec _ _ _) as [s|e s|] eqn:Hi; simpl;
        try discriminate.
      intros H1 H2. cbn [Nat.add RFB.expected_loop].
      assert (Hle : RFB._expected_len st <= len (RFB._packet st)) by lia.
      unfold feed at 1 2. cbn [RFB._packet RFB._expected_len RFB.set_packet].
      rewrite len_app.
      pose proof (len_nonneg b).
      replace (len (RFB._packet st) + len b >=? RFB._expected_len st) with true
        by (symmetry; lia).
      cbn [RFB._packet RFB._expected_len RFB._expected_handler
           RFB.set_packet RFB.set_already_expecting feed].
      rewrite slice_to_app, slice_from_app by assumption.
      cbn [RFB._packet RFB._expected_len RFB._expected_handler
           RFB.set_packet RFB.set_already_expecting] in Hi.
      pose proof Hi as Hk.
      apply invoke_keeps_buffer in Hk as [Hp Hh]; [|reflexivity].
      cbn [RFB._packet RFB._handler RFB.set_packet RFB.set_already_expecting]
        in Hp, Hh.
      match goal with
      | |- RFB.obind (RFB.invoke _ _ ?h ?blk ?s1) _ = _ =>
          rewrite (rebuffer_invoke ext rec rec
                     (slice_from (RFB._packet st) (RFB._expected_len st) ++ b)
                     (RFB._handler st) h blk s1
                     (RFB.set_packet
                        (slice_from (RFB._packet st) (RFB._expected_len st))
                        (RFB.set_already_expecting true st))
                     eq_refl eq_refl)
      end.
      rewrite Hi. cbn [omap_outcome RFB.obind].
      rewrite (rebuffer_feed _ _ _ _ Hp Hh). by apply IH.
    + intros [= <-]. unfold feed.
      cbn [RFB._packet RFB.set_already_expecting].
      change (RFB.set_packet (RFB._packet st ++ b) (RFB.set_already_expecting false st))
        with (RFB.set_already_expecting false (RFB.set_packet (RFB._packet st ++ b) st)).
      rewrite expected_loop_flag. intros H.
      replace (S n + m)%nat with (m + S n)%nat by lia.
      by apply expected_loop_mono.
Qed.

Lemma handleExpected_mono ext f k st st' :
  RFB._handleExpected ext f st = RFB.Done st' ->
  RFB._handleExpected ext (f + k) st = RFB.Done st'.
Proof.
  destruct f as [|f]; cbn [RFB._handleExpected Nat.add].
  - destruct (len (RFB._packet st) >=? RFB._expected_len st) eqn:E;
      [discriminate|].
    intros H. destruct k; cbn [RFB._handleExpected]; by rewrite E.
  - destruct (len (RFB._packet st) >=? RFB._expected_len st) eqn:E; [|done].
    intros H.
    rewrite (expected_loop_any_rec ext _ (RFB._handleExpected ext f)).
    by apply expected_loop_mono.
Qed.

Lemma feed_feed a b st : feed b (feed a st) = feed (a ++ b) st.
Proof. unfold feed. simpl. by rewrite app_assoc. Qed.

Lemma clear_flag_id st :
  RFB._already_expecting st = false -> RFB.set_already_expecting false st = st.
Proof. destruct st; simpl; by intros ->. Qed.

(** X1: After the version handshake (the top-level handler is
    _handleExpected), how the server's bytes are cut into reads does not
    matter: if receiving a and then b both return, receiving a ++ b in
    one piece returns with the same object state. *)
Theorem data_received_in_pieces ext f1 f2 a b st st1 st2 :
  RFB._handler st = RFB.HandleExpected ->
  RFB.dataReceived ext f1 a st = RFB.Done st1 ->
  RFB.dataReceived ext f2 b st1 = RFB.Done st2 ->
  RFB.dataReceived ext (f1 + f2) (a ++ b) st = RFB.Done st2.
Proof.
  intros Hh. unfold RFB.dataReceived at 1 3. cbn [RFB._handler RFB.set_packet].
  rewrite Hh. fold (feed a st). fold (feed (a ++ b) st).
  set (R := RFB._handleExpected ext 0).
  destruct f1 as [|f1]; cbn [RFB._handleExpected Nat.add].
  - destruct (len (RFB._packet (feed a st)) >=? RFB._expected_len (feed a st))
      eqn:E; [discriminate|].
    intros [= <-]. unfold RFB.dataReceived. cbn [RFB._handler RFB.set_packet feed].
    rewrite Hh. fold (feed a st). fold (feed b (feed a st)).
    by rewrite feed_feed.
  - destruct (len (RFB._packet (feed a st)) >=? RFB._expected_len (feed a st))
      eqn:E.
    + intros H1.
      rewrite (expected_loop_any_rec ext _ R) in H1.
      destruct (expected_loop_quiescent _ _ _ _ _ H1) as (_ & Ha1 & Hh1).
      unfold RFB.dataReceived. cbn [RFB._handler RFB.set_packet].
      rewrite Hh1. cbn [feed RFB._handler RFB.set_packet]. rewrite Hh.
      fold (feed b st1). intros H2.
      assert (E' : (len (RFB._packet (feed (a ++ b) st))
                    >=? RFB._expected_len (feed (a ++ b) st)) = true).
      { revert E. unfold feed. cbn [RFB._packet RFB._expected_len RFB.set_packet].
        rewrite !len_app. pose proof (len_nonneg b). lia. }
      rewrite E'. rewrite (expected_loop_any_rec ext _ R).
      rewrite <- feed_feed.
      destruct f2 as [|f2]; cbn [RFB._handleExpected] in H2.
      * destruct (len (RFB._packet (feed b st1)) >=? RFB._expected_len (feed b st1))
          eqn:E2; [discriminate|].
        injection H2 as <-.
        apply (expected_loop_split ext R f1 0 b (feed a st) st1); [exact H1|].
        cbn [RFB.expected_loop]. rewrite E2. f_equal. apply clear_flag_id.
        exact Ha1.
      * destruct (len (RFB._packet (feed b st1)) >=? RFB._expected_len (feed b st1))
          eqn:E2.
        -- rewrite (expected_loop_any_rec ext _ R) in H2.
           replace (f1 + S f2)%nat with (f1 + f2 + 1)%nat by lia.
           apply expected_loop_mono.
           by apply (expected_loop_split ext R f1 f2 b (feed a st) st1).
        -- injection H2 as <-.
           replace (f1 + S f2)%nat with (f1 + 0 + S f2)%nat by lia.
           apply expected_loop_mono.
           apply (expected_loop_split ext R f1 0 b (feed a st) st1); [exact H1|].
           cbn [RFB.expected_loop]. rewrite E2. f_equal. apply clear_flag_id.
           exact Ha1.
    + intros [= <-]. unfold RFB.dataReceived.
      cbn [RFB._handler RFB.set_packet feed]. rewrite Hh.
      fold (feed a st). fold (feed b (feed a st)). rewrite feed_feed.
      intros H. apply (handleExpected_mono ext f2 (S f1)) in H.
      replace (f2 + S f1)%nat with (S (f1 + f2)) in H by lia. exact H.
Qed.

Lemma data_received_in_pieces_witness :
  RFB._handler Samples.session = RFB.HandleExpected
  /\ exists st1 st2,
       RFB.dataReceived Samples.ext 5 (map z2b [0; 0]) Samples.session
       = RFB.Done st1
       /\ RFB.dataReceived Samples.ext 5 (map z2b [0; 0]) st1 = RFB.Done st2
       /\ RFB.dataReceived Samples.ext (5 + 5) (map z2b [0; 0] ++ map z2b [0; 0])
            Samples.session
          = RFB.Done st2.
Proof.
  assert (Hh : RFB._handler Samples.session = RFB.HandleExpected)
    by (vm_compute; reflexivity).
  split; [exact Hh|].
  assert (H1 : exists st1,
             RFB.dataReceived Samples.ext 5 (map z2b [0; 0]) Samples.session
             = RFB.Done st1)
    by (eexists; vm_compute; reflexivity).
  destruct H1 as [st1 H1].
  assert (H2 : exists st2,
             RFB.dataReceived Samples.ext 5 (map z2b [0; 0]) st1 = RFB.Done st2).
  { assert (Hs := H1). vm_compute in Hs. injection Hs as Hs. rewrite <- Hs.
    eexists. vm_compute. reflexivity. }
  destruct H2 as [st2 H2].
  exists st1, st2. split; [exact H1|]. split; [exact H2|].
  exact (data_received_in_pieces Samples.ext 5 5 (map z2b [0; 0])
           (map z2b [0; 0]) Samples.session st1 st2 Hh H1 H2).
Defined.

(** X2: Whenever dataReceived returns (top-level handler
    _handleExpected, called from outside the dispatch loop), the receive
    buffer holds fewer bytes than the pending handler expects, the
    _already_expecting flag is reset and the top-level handler is still
    _handleExpected: every complete block has been dispatched. *)
Theorem data_received_quiescent ext fuel data st st' :
  RFB._handler st = RFB.HandleExpected ->
  RFB._already_expecting st = false ->
  RFB.dataReceived ext fuel data st = RFB.Done st' ->
  len (RFB._packet st') < RFB._expected_len st'
  /\ RFB._already_expecting st' = false
  /\ RFB._handler st' = RFB.HandleExpected.
Proof.
  intros Hh Ha. unfold RFB.dataReceived. cbn [RFB._handler RFB.set_packet].
  rewrite Hh. fold (feed data st).
  assert (Hq : forall s, RFB._handleExpected ext 0 (feed data st) = RFB.Done s ->
               len (RFB._packet s) < RFB._expected_len s
               /\ RFB._already_expecting s = false
               /\ RFB._handler s = RFB.HandleExpected).
  { intros s. cbn [RFB._handleExpected].
    destruct (len (RFB._packet (feed data st))
              >=? RFB._expected_len (feed data st)) eqn:E; [discriminate|].
    intros [= <-]. repeat split; [lia | exact Ha | exact Hh]. }
  destruct fuel as [|fuel]; [apply Hq|]. cbn [RFB._handleExpected].
  destruct (len (RFB._packet (feed data st))
            >=? RFB._expected_len (feed data st)) eqn:E.
  - intros H. apply expected_loop_quiescent in H as (H1 & H2 & H3).
    repeat split; try assumption. rewrite H3. exact Hh.
  - intros H. apply Hq. cbn [RFB._handleExpected]. by rewrite E.
Qed.

Lemma data_received_quiescent_witness :
  (RFB._handler Samples.session = RFB.HandleExpected
   /\ RFB._already_expecting Samples.session = false)
  /\ exists st',
       RFB.dataReceived Samples.ext 5 (map z2b [0; 0; 0]) Samples.session
       = RFB.Done st'
       /\ len (RFB._packet st') < RFB._expected_len st'
       /\ RFB._already_expecting st' = false
       /\ RFB._handler st' = RFB.HandleExpected.
Proof.
  assert (Hh : RFB._handler Samples.session = RFB.HandleExpected)
    by (vm_compute; reflexivity).
  assert (Ha : RFB._already_expecting Samples.session = false)
    by (vm_compute; reflexivity).
  split; [exact (conj Hh Ha)|].
  assert (H1 : exists st',
             RFB.dataReceived Samples.ext 5 (map z2b [0; 0; 0]) Samples.session
             = RFB.Done st')
    by (eexists; vm_compute; reflexivity).
  destruct H1 as [st' H1]. exists st'. split; [exact H1|].
  exact (data_received_quiescent Samples.ext 5 (map z2b [0; 0; 0])
           Samples.session st' Hh Ha H1).
Defined.

(** The loop on a handler that expects nothing and asks for nothing else
    never ends. *)
Lemma expected_loop_conn_message_spins ext rec n st :
  RFB._expected_handler st = RFB.HConnMessage ->
  RFB._expected_len st = 0 ->
  RFB.expected_loop ext rec n st = RFB.OutOfFuel.
Proof.
  revert st. induction n as [|n IH]; intros st Hh Hl; cbn [RFB.expected_loop];
    rewrite Hl; pose proof (len_nonneg (RFB._packet st));
    replace (len (RFB._packet st) >=? 0) with true by (symmetry; lia);
    [reflexivity|].
  cbn [RFB._expected_handler RFB.set_packet RFB.set_already_expecting].
  rewrite Hh. cbn [RFB.invoke]. unfold RFB._handleConnMessage.
  cbn [RFB.obind]. apply IH.
  - unfold RFB.disconnect. cbn [RFB.writer RFB.set_packet RFB.set_already_expecting].
    destruct (RFB.writer st); simpl; exact Hh.
  - unfold RFB.disconnect. cbn [RFB.writer RFB.set_packet RFB.set_already_expecting].
    destruct (RFB.writer st); simpl; exact Hl.
Qed.

(** X3: A connection refusal whose reason has length 0 hangs the client:
    with _handleConnFailed expecting its 4 bytes and an empty buffer,
    once the four zero bytes have arrived the while loop of
    _handleExpected calls _handleConnMessage with an empty block again
    and again (the handler never calls expect, so the expected length
    stays 0); dataReceived exhausts every amount of fuel, whatever
    follows in the data. *)
Theorem conn_failed_empty_reason_never_returns ext fuel rest st :
  RFB._handler st = RFB.HandleExpected ->
  RFB._expected_handler st = RFB.HConnFailed ->
  RFB._expected_len st = 4 ->
  RFB._packet st = [] ->
  RFB.dataReceived ext fuel ([NUL; NUL; NUL; NUL] ++ rest) st = RFB.OutOfFuel.
Proof.
  intros Hh He Hl Hp. unfold RFB.dataReceived.
  cbn [RFB._handler RFB.set_packet]. rewrite Hh, Hp.
  assert (E : (len (RFB._packet (RFB.set_packet ([] ++ [NUL; NUL; NUL; NUL] ++ rest) st))
               >=? RFB._expected_len
                     (RFB.set_packet ([] ++ [NUL; NUL; NUL; NUL] ++ rest) st)) = true).
  { cbn [RFB._packet RFB._expected_len RFB.set_packet]. rewrite Hl.
    rewrite app_nil_l, len_app. pose proof (len_nonneg rest).
    change (len [NUL; NUL; NUL; NUL]) with 4. lia. }
  destruct fuel as [|fuel]; cbn [RFB._handleExpected]; rewrite E;
    [reflexivity|].
  destruct fuel as [|fuel]; cbn [RFB.expected_loop]; rewrite E; [reflexivity|].
  cbn [RFB._packet RFB._expected_len RFB._expected_handler RFB.set_packet
       RFB.set_already_expecting].
  rewrite He, Hl. cbn [RFB.invoke].
  change (slice_to ([] ++ [NUL; NUL; NUL; NUL] ++ rest) 4)
    with [NUL; NUL; NUL; NUL].
  unfold RFB._handleConnFailed.
  change (unpack "!I" [NUL; NUL; NUL; NUL]) with (Ok [VInt 0]).
  cbn [RFB.lift]. unfold RFB.expect.
  cbn [RFB._already_expecting RFB.set_packet RFB.set_already_expecting
       RFB.set_expected_handler RFB.set_expected_len RFB.obind].
  apply expected_loop_conn_message_spins; reflexivity.
Qed.

Lemma conn_failed_empty_reason_never_returns_witness :
  let st := RFB.set_expected_len 4
              (RFB.set_expected_handler RFB.HConnFailed Samples.session) in
  (RFB._handler st = RFB.HandleExpected
   /\ RFB._expected_handler st = RFB.HConnFailed
   /\ RFB._expected_len st = 4
   /\ RFB._packet st = [])
  /\ RFB.dataReceived Samples.ext 1000 ([NUL; NUL; NUL; NUL] ++ []) st
     = RFB.OutOfFuel.
Proof.
  intros st.
  assert (H1 : RFB._handler st = RFB.HandleExpected) by (vm_compute; reflexivity).
  assert (H2 : RFB._expected_handler st = RFB.HConnFailed) by reflexivity.
  assert (H3 : RFB._expected_len st = 4) by reflexivity.
  assert (H4 : RFB._packet st = []) by (vm_compute; reflexivity).
  split; [exact (conj H1 (conj H2 (conj H3 H4)))|].
  exact (conn_failed_empty_reason_never_returns Samples.ext 1000 [] st
           H1 H2 H3 H4).
Defined.

Lemma list_ascii_of_string_app (a b : string) :
  list_ascii_of_string (a +:+ b)
  = list_ascii_of_string a ++ list_ascii_of_string b.
Proof. induction a as [|c a IH]; simpl; [reflexivity | by rewrite IH]. Qed.

Lemma digit_val_pretty_N_char (d : N) :
  (d < 10)%N -> digit_val (pretty_N_char d) = Some (N.to_nat d).
Proof.
  intros H.
  assert (d = 0 \/ d = 1 \/ d = 2 \/ d = 3 \/ d = 4 \/ d = 5 \/ d = 6
          \/ d = 7 \/ d = 8 \/ d = 9)%N as Hd by lia.
  repeat (destruct Hd as [->|Hd]; [reflexivity|]). by subst.
Qed.

(** A repeat count written in decimal in front of a format character. *)
Lemma parse_items_count_go (x : N) (s : string) (tail : list ascii) :
  (0 < x)%N ->
  parse_items (list_ascii_of_string (pretty_N_go x s) ++ tail) None
  = parse_items (list_ascii_of_string s ++ tail) (Some (N.to_nat x)).
Proof.
  revert s. induction (N.lt_wf_0 x) as [x _ IH]. intros s Hx.
  rewrite pretty_N_go_step by assumption.
  destruct (decide (x `div` 10 = 0)%N) as [E|E].
  - rewrite E, pretty_N_go_0. cbn [list_ascii_of_string app parse_items].
    rewrite digit_val_pretty_N_char by (apply N.mod_lt; lia).
    cbn [default]. f_equal.
    assert (Hlt : (x < 10)%N) by (apply N.div_small_iff; first [exact E | discriminate]).
    rewrite N.mod_small by assumption. f_equal; lia.
  - rewrite IH; [| apply N.div_lt; lia | by apply N.neq_0_lt_0].
    cbn [list_ascii_of_string app parse_items].
    rewrite digit_val_pretty_N_char by (apply N.mod_lt; lia).
    cbn [default]. assert (Hdm := N.div_mod x 10 ltac:(discriminate)).
    revert Hdm. generalize (x `div` 10)%N (x `mod` 10)%N. intros q r Hdm.
    do 2 f_equal. unfold id. lia.
Qed.

Lemma parse_items_count (n : Z) (tail : list ascii) :
  0 <= n ->
  parse_items (list_ascii_of_string (pretty n) ++ tail) None
  = parse_items tail (Some (Z.to_nat n)).
Proof.
  intros Hn. destruct n as [|p|p]; [reflexivity | | lia].
  change (pretty (Z.pos p)) with (pretty (N.pos p)).
  unfold pretty, pretty_N. rewrite decide_False by discriminate.
  rewrite parse_items_count_go by lia. cbn [list_ascii_of_string app].
  f_equal.
Qed.

Lemma parse_format_count (n : Z) (tail : string) :
  0 <= n ->
  parse_format ("!" +:+ pretty n +:+ tail)
  = parse_items (list_ascii_of_string tail) (Some (Z.to_nat n)).
Proof.
  intros Hn. unfold parse_format.
  change ("!" +:+ pretty n +:+ tail) with (String "!" (pretty n +:+ tail)).
  cbn [list_ascii_of_string]. rewrite list_ascii_of_string_app.
  change (Ascii.eqb "!" "!") with true. cbv iota.
  by apply parse_items_count.
Qed.

Lemma unpack_items_bytes (block : bytes) :
  unpack_items (replicate (length block) FU8) block
  = map (fun b => VInt (b2z b)) block.
Proof.
  induction block as [|b block IH]; [reflexivity|].
  simpl. by rewrite take_0, drop_0, IH.
Qed.

Lemma calcsize_bytes n : calcsize_items (replicate n FU8) = n.
Proof. induction n; simpl; [reflexivity|]. f_equal. exact IHn. Qed.

(** [unpack(f"!{len(block)}B", block)]: the bytes of the block. *)
Lemma unpack_bytes (block : bytes) :
  unpack ("!" +:+ pretty (len block) +:+ "B") block
  = Ok (map (fun b => VInt (b2z b)) block).
Proof.
  unfold unpack. rewrite parse_format_count by apply len_nonneg.
  unfold len. rewrite Nat2Z.id. cbn [list_ascii_of_string parse_items digit_val].
  change (digit_val "B") with (@None nat). cbv iota.
  cbn. rewrite app_nil_r, calcsize_bytes, Nat.eqb_refl.
  by rewrite unpack_items_bytes.
Qed.

Lemma ints_of_bytes (block : bytes) :
  RFB.ints_of (map (fun b => VInt (b2z b)) block) = map b2z block.
Proof. induction block as [|b block IH]; [reflexivity|]. simpl. by rewrite <- IH. Qed.

Lemma fold_max_spec (l : list Z) (v : Z) :
  let m := fold_left Z.max l v in
  (m = v \/ In m l) /\ v <= m /\ forall u, In u l -> u <= m.
Proof.
  revert v. induction l as [|a l IH]; intros v; simpl.
  - repeat split; [by left | lia | tauto].
  - destruct (IH (Z.max v a)) as (H1 & H2 & H3). repeat split.
    + destruct H1 as [H1|H1]; [|by right; right].
      destruct (Z.max_spec v a) as [[_ E]|[_ E]]; rewrite E in H1;
        [right; left | left]; congruence.
    + lia.
    + intros u [<-|Hu]; [lia | by apply H3].
Qed.

Lemma max_int_spec (l : list Z) :
  match RFB.max_int l with
  | Ok m => In m l /\ forall u, In u l -> u <= m
  | Raise _ => l = []
  end.
Proof.
  destruct l as [|v l]; [reflexivity|]. cbn [RFB.max_int].
  destruct (fold_max_spec l v) as (H1 & H2 & H3). split.
  - destruct H1 as [->|H1]; [by left | by right].
  - intros u [<-|Hu]; [exact H2 | by apply H3].
Qed.

(** X4: Whatever list of security types the server offers,
    _handleSecurityTypes picks Diffie-Hellman (30) if it is offered,
    else VNC authentication (2), else None (1); it writes that one byte
    and expects the matching next message (for None: client
    initialisation below version 3.8, the security result otherwise). If
    none of the three is offered it disconnects without writing. *)
Theorem security_type_preference rec block st :
  let offered t := bool_decide (t ∈ map b2z block) in
  RFB._handleSecurityTypes rec block st
  = if offered 30 then RFB.expect rec RFB.HDHAuth 4 (RFB._write [z2b 30] st)
    else if offered 2 then
      RFB.expect rec RFB.HVNCAuth 16 (RFB._write [z2b 2] st)
    else if offered 1 then
      if RFB.ver_lt (RFB._version st) (3, 8)
      then RFB._doClientInitialization rec (RFB._write [z2b 1] st)
      else RFB.expect rec RFB.HVNCAuthResult 4 (RFB._write [z2b 1] st)
    else RFB.Done (RFB.disconnect st).
Proof.
  intros offered. unfold RFB._handleSecurityTypes.
  rewrite unpack_bytes. cbn [RFB.lift]. rewrite ints_of_bytes.
  set (valid := List.filter _ _).
  assert (Hv : forall t, In t valid
               <-> (t ∈ map b2z block) /\ (t = 1 \/ t = 2 \/ t = 30)).
  { intros t. unfold valid. rewrite filter_In, bool_decide_eq_true.
    rewrite <- list_elem_of_In. unfold RFB.SUPPORTED_AUTHS.
    rewrite !elem_of_cons, elem_of_nil. unfold RFB.AuthTypes.NONE,
      RFB.AuthTypes.VNC_AUTHENTICATION, RFB.AuthTypes.DIFFIE_HELLMAN. tauto. }
  pose proof (max_int_spec valid) as Hm.
  assert (Hw : RFB._version (RFB._write [z2b 1] st) = RFB._version st).
  { unfold RFB._write. by destruct (RFB.writer st). }
  destruct (RFB.max_int valid) as [m|e].
  - destruct Hm as [Hin Hmax].
    assert (Hne : negb (len valid =? 0) = true).
    { destruct valid; [destruct Hin|]. reflexivity. }
    rewrite Hne. cbn [RFB.lift].
    apply Hv in Hin as [Hoff Hcases].
    assert (Hsel : forall t, (t = 1 \/ t = 2 \/ t = 30) ->
                     offered t = true -> t <= m).
    { intros t Ht Ho. apply Hmax, Hv. split; [|exact Ht].
      by apply bool_decide_eq_true in Ho. }
    assert (Hom : offered m = true) by (by apply bool_decide_eq_true).
    destruct (offered 30) eqn:E30.
    { assert (30 <= m) by (apply Hsel; [tauto | exact E30]).
      assert (m = 30) as -> by lia. reflexivity. }
    destruct (offered 2) eqn:E2.
    { assert (m = 2) as ->.
      { assert (2 <= m) by (apply Hsel; [tauto | exact E2]).
        destruct Hcases as [->| [->| ->]]; [lia | reflexivity | congruence]. }
      reflexivity. }
    assert (m = 1) as -> by (destruct Hcases as [->| [->| ->]]; congruence).
    rewrite Hom. change (pack "!B" [VInt 1]) with (Ok [z2b 1]).
    cbn [RFB.lift]. change (1 =? RFB.AuthTypes.NONE) with true. cbv iota.
    rewrite Hw. reflexivity.
  - rewrite Hm. cbn.
    assert (Hnone : forall t, (t = 1 \/ t = 2 \/ t = 30) -> offered t = false).
    { intros t Ht. apply bool_decide_eq_false. intros Ho.
      assert (Hin : In t valid) by (apply Hv; tauto).
      rewrite Hm in Hin. destruct Hin. }
    rewrite !Hnone by tauto. reflexivity.
Qed.

Lemma unpack_items_cons k items hd tl :
  length hd = size_of k ->
  unpack_items (k :: items) (hd ++ tl)
  = unpack_field k hd ++ unpack_items items tl.
Proof.
  intros H. cbn [unpack_items].
  by rewrite take_app_length', drop_app_length' by (symmetry; exact H).
Qed.

(** A pixel format with typed fields survives the wire (the validation
    of [__post_init__] is off in [from_bytes]). *)
Lemma to_bytes_from_bytes (pf : PixelFormat.t) :
  PixelFormat.fields_typed pf = true ->
  exists block,
    PixelFormat.to_bytes pf = Ok block
    /\ length block = 16%nat
    /\ PixelFormat.from_bytes block = Ok pf.
Proof.
  intros Ht. apply fields_typed_elim in Ht.
  destruct Ht as (H1 & H2 & H3 & H4 & H5 & H6 & H7 & H8).
  destruct pf as [a b c d e f g h i j]. simpl in *.
  unfold PixelFormat.to_bytes, pack. rewrite STRUCT_items. simpl rbind.
  unfold PixelFormat.astuple. simpl.
  rewrite !pack_uint_int by (simpl; lia). simpl rbind.
  eexists. split; [reflexivity|]. split; [reflexivity|].
  unfold PixelFormat.from_bytes, unpack. rewrite STRUCT_items. simpl.
  rewrite !decode1', !decode2', !decode_bool by lia.
  reflexivity.
Qed.

(** X5: A ServerInit header packed from a width and a height below
    65536, a pixel format whose fields fit their struct codes and a name
    length below 2^32 is 24 bytes long, and _handleServerInit stores
    exactly that width, height and pixel format and then expects a name
    of the announced length. *)
Theorem server_init_parsed rec (w h namelen : Z) (pf : PixelFormat.t)
    (pixformat : bytes) (st : RFB.State) :
  0 <= w < 65536 -> 0 <= h < 65536 -> 0 <= namelen < 2 ^ 32 ->
  PixelFormat.fields_typed pf = true ->
  PixelFormat.to_bytes pf = Ok pixformat ->
  exists block,
    pack "!HH16sI" [VInt w; VInt h; VBytes pixformat; VInt namelen] = Ok block
    /\ len block = 24
    /\ RFB._handleServerInit rec block st
       = RFB.expect rec RFB.HServerName namelen
           (RFB.set_pixel_format pf (RFB.set_height h (RFB.set_width w st))).
Proof.
  intros Hw Hh Hn Ht Hpf.
  destruct (to_bytes_from_bytes pf Ht) as (block & Hb & Hlen & Hfrom).
  rewrite Hpf in Hb. injection Hb as <-.
  unfold pack.
  change (parse_format "!HH16sI") with (Ok [FU16; FU16; FStr 16; FU32]).
  cbn [rbind pack_items].
  rewrite !pack_uint_int by (simpl; lia).
  cbn [rbind pack_str]. rewrite Hlen. cbn [Nat.sub replicate].
  rewrite take_ge by lia. rewrite (app_nil_r pixformat).
  eexists. split; [reflexivity|].
  split.
  { unfold len. rewrite !length_app, !length_be_encode, Hlen. reflexivity. }
  unfold RFB._handleServerInit, unpack.
  change (parse_format "!HH16sI") with (Ok [FU16; FU16; FStr 16; FU32]).
  cbn [rbind]. rewrite !length_app, !length_be_encode, Hlen.
  match goal with
  | |- context [Nat.eqb ?a ?b] => change (Nat.eqb a b) with true
  end.
  cbv iota.
  rewrite !unpack_items_cons
    by (rewrite ?length_be_encode; first [reflexivity | exact Hlen]).
  cbn [unpack_items unpack_field app RFB.lift].
  rewrite !be_decode_encode by (simpl; lia).
  rewrite Hfrom. reflexivity.
Qed.

Lemma server_init_parsed_witness :
  (0 <= 640 < 65536 /\ 0 <= 480 < 65536 /\ 0 <= 3 < 2 ^ 32
   /\ PixelFormat.fields_typed PixelFormat.default = true)
  /\ exists pixformat block,
       PixelFormat.to_bytes PixelFormat.default = Ok pixformat
       /\ pack "!HH16sI" [VInt 640; VInt 480; VBytes pixformat; VInt 3]
          = Ok block
       /\ len block = 24
       /\ RFB._handleServerInit (fun s => RFB.Done s) block RFB.init
          = RFB.expect (fun s => RFB.Done s) RFB.HServerName 3
              (RFB.set_pixel_format PixelFormat.default
                 (RFB.set_height 480 (RFB.set_width 640 RFB.init))).
Proof.
  assert (H1 : 0 <= 640 < 65536) by lia.
  assert (H2 : 0 <= 480 < 65536) by lia.
  assert (H3 : 0 <= 3 < 2 ^ 32) by lia.
  assert (H4 : PixelFormat.fields_typed PixelFormat.default = true)
    by reflexivity.
  split; [exact (conj H1 (conj H2 (conj H3 H4)))|].
  assert (H5 : exists pixformat,
             PixelFormat.to_bytes PixelFormat.default = Ok pixformat)
    by (eexists; vm_compute; reflexivity).
  destruct H5 as [pixformat H5]. exists pixformat.
  destruct (server_init_parsed (fun s => RFB.Done s) 640 480 3
              PixelFormat.default pixformat RFB.init H1 H2 H3 H4 H5)
    as (block & Hb & Hl & Hrun).
  exists block. split; [exact H5|]. split; [exact Hb|].
  split; [exact Hl | exact Hrun].
Defined.

(** ** RRE subrectangles *)

Lemma rre_format (bypp : Z) :
  0 <= bypp ->
  parse_format ("!" +:+ pretty bypp +:+ "sHHHH")
  = Ok [FStr (Z.to_nat bypp); FU16; FU16; FU16; FU16].
Proof. intros H. by rewrite parse_format_count. Qed.

Lemma pack_uint_range n v bs :
  pack_uint n (VInt v) = Ok bs ->
  0 <= v < 256 ^ Z.of_nat n /\ bs = be_encode n v.
Proof.
  unfold pack_uint. simpl.
  destruct (0 <=? v) eqn:E1; [|discriminate].
  destruct (v <? 256 ^ Z.of_nat n) eqn:E2; [|discriminate].
  intros [= <-]. split; [lia | reflexivity].
Qed.

Lemma rre_wire_unpack (bypp : Z) (color : bytes) (x y w h : Z) (bs : bytes) :
  0 <= bypp -> len color = bypp ->
  rre_wire bypp (color, x, y, w, h) = Ok bs ->
  len bs = bypp + 8
  /\ unpack ("!" +:+ pretty bypp +:+ "sHHHH") bs
     = Ok [VBytes color; VInt x; VInt y; VInt w; VInt h].
Proof.
  intros Hb Hc. unfold rre_wire, pack, unpack. rewrite rre_format by exact Hb.
  cbn [rbind pack_items pack_str].
  assert (Hl : length color = Z.to_nat bypp) by (unfold len in Hc; lia).
  rewrite Hl, Nat.sub_diag. cbn [replicate].
  rewrite take_ge by lia. rewrite (app_nil_r color).
  destruct (pack_uint 2 (VInt x)) as [bx|] eqn:Ex; [|discriminate].
  destruct (pack_uint 2 (VInt y)) as [by_|] eqn:Ey; [|discriminate].
  destruct (pack_uint 2 (VInt w)) as [bw|] eqn:Ew; [|discriminate].
  destruct (pack_uint 2 (VInt h)) as [bh|] eqn:Eh; [|discriminate].
  apply pack_uint_range in Ex as [Hx ->], Ey as [Hy ->], Ew as [Hw ->],
    Eh as [Hh ->].
  cbn [rbind]. intros [= <-].
  set (tail := [_; _; _; _; _; _; _; _]).
  assert (Hlen : length (color ++ tail) = (Z.to_nat bypp + 8)%nat)
    by (rewrite length_app, Hl; reflexivity).
  split; [unfold len; rewrite Hlen; lia|].
  rewrite Hlen.
  replace (Z.to_nat bypp + 8 =?
           calcsize_items [FStr (Z.to_nat bypp); FU16; FU16; FU16; FU16])%nat
    with true
    by (symmetry; apply Nat.eqb_eq; unfold calcsize_items; simpl; lia).
  rewrite unpack_items_cons by exact Hl. subst tail.
  cbn [unpack_items unpack_field app size_of take drop].
  rewrite !decode2' by lia. reflexivity.
Qed.

Lemma slice_middle {A} (pre b rest : list A) :
  slice (pre ++ b ++ rest) (len pre) (len pre + len b) = b.
Proof.
  unfold slice, len. rewrite Nat2Z.id.
  replace (Z.to_nat (Z.of_nat (length pre) + Z.of_nat (length b) -
                     Z.of_nat (length pre))) with (length b) by lia.
  rewrite drop_app_length. by rewrite take_app_length.
Qed.

Lemma rre_subrects_run rec (b : Z) (n : nat) (topx topy : Z)
    (subs : list SubRect) (blocks : list bytes) (pre : bytes)
    (st : RFB.State) :
  0 <= b ->
  Forall2 (fun s bs => len (s.1.1.1.1) = b /\ rre_wire b s = Ok bs)
    subs blocks ->
  (length blocks <= n)%nat ->
  RFB.rre_subrects rec n (pre ++ concat blocks) topx topy (b + 8)
    ("!" +:+ pretty b +:+ "sHHHH") (len pre) st
  = RFB._doConnection rec (rre_fills topx topy subs st).
Proof.
  intros Hb Hall. revert n pre st.
  induction Hall as [|s bs subs blocks [Hc Hs] Hall IH]; intros n pre st Hn.
  - cbn [concat]. rewrite app_nil_r.
    destruct n; cbn [RFB.rre_subrects]; rewrite Z.ltb_irrefl; reflexivity.
  - destruct n as [|n]; [simpl in Hn; lia|].
    destruct s as [[[[color x] y] w] h]. cbn [fst] in Hc.
    destruct (rre_wire_unpack _ _ _ _ _ _ _ Hb Hc Hs) as [Hlen Hun].
    cbn [concat RFB.rre_subrects].
    replace (len pre <? len (pre ++ bs ++ concat blocks)) with true
      by (symmetry; rewrite !len_app; pose proof (len_nonneg (concat blocks));
          lia).
    rewrite <- Hlen at 1. rewrite slice_middle, Hun.
    cbn [RFB.lift RFB.fillRectangle RFB.obind].
    rewrite <- Hlen at 2. rewrite <- len_app, app_assoc.
    rewrite IH; [reflexivity | simpl in Hn; lia].
Qed.

(** X6: For any list of RRE subrectangles packed as the server packs
    them (a colour of bypp bytes and four 16-bit fields each),
    _handleRRESubRectangles calls fillRectangle once per subrectangle,
    in order, at the position offset by the rectangle's top-left corner,
    the colour repeated width * height times, and then goes on as
    _doConnection does. *)
Theorem rre_subrectangles_all_filled rec (topx topy : Z)
    (subs : list SubRect) (blocks : list bytes) (st : RFB.State) :
  0 <= RFB.bypp st ->
  Forall2 (fun s bs => len (s.1.1.1.1) = RFB.bypp st
                       /\ rre_wire (RFB.bypp st) s = Ok bs) subs blocks ->
  RFB._handleRRESubRectangles rec (concat blocks) topx topy st
  = RFB._doConnection rec (rre_fills topx topy subs st).
Proof.
  intros Hb Hall. unfold RFB._handleRRESubRectangles.
  pose proof (rre_subrects_run rec (RFB.bypp st) (length (concat blocks))
                topx topy subs blocks [] st Hb Hall) as H.
  cbn [app] in H. change (len []) with 0 in H. apply H.
  clear H. induction Hall as [|s bs subs blocks [Hc Hs] Hall IH]; [simpl; lia|].
  destruct s as [[[[color x] y] w] h]. cbn [fst] in Hc.
  destruct (rre_wire_unpack _ _ _ _ _ _ _ Hb Hc Hs) as [Hlen _].
  cbn [concat length]. rewrite length_app. unfold len in Hlen. lia.
Qed.

Lemma rre_subrectangles_all_filled_witness :
  let st := Samples.session in
  let red := map z2b [255; 0; 0; 255] in
  let subs := [(red, 1, 2, 3, 4); (red, 5, 6, 7, 8)] in
  exists blocks,
    (0 <= RFB.bypp st
     /\ Forall2 (fun s bs => len (s.1.1.1.1) = RFB.bypp st
                             /\ rre_wire (RFB.bypp st) s = Ok bs) subs blocks)
    /\ RFB._handleRRESubRectangles (fun s => RFB.Done s) (concat blocks)
         10 20 st
       = RFB._doConnection (fun s => RFB.Done s) (rre_fills 10 20 subs st).
Proof.
  intros st red subs.
  assert (Hb : 0 <= RFB.bypp st) by (vm_compute; discriminate).
  assert (H1 : exists b1, rre_wire (RFB.bypp st) (red, 1, 2, 3, 4) = Ok b1)
    by (eexists; vm_compute; reflexivity).
  assert (H2 : exists b2, rre_wire (RFB.bypp st) (red, 5, 6, 7, 8) = Ok b2)
    by (eexists; vm_compute; reflexivity).
  destruct H1 as [b1 H1], H2 as [b2 H2].
  assert (Hlen : len red = RFB.bypp st) by (vm_compute; reflexivity).
  assert (Hall : Forall2 (fun s bs => len (s.1.1.1.1) = RFB.bypp st
                                      /\ rre_wire (RFB.bypp st) s = Ok bs)
                   subs [b1; b2]).
  { constructor; [exact (conj Hlen H1)|].
    constructor; [exact (conj Hlen H2)|]. constructor. }
  exists [b1; b2]. split; [exact (conj Hb Hall)|].
  exact (rre_subrectangles_all_filled (fun s => RFB.Done s) 10 20 subs
           [b1; b2] st Hb Hall).
Defined.

(** ** After the transport is closed *)

Lemma transport_events_snoc tr e :
  is_transport_event e = false ->
  transport_events (tr ++ [e]) = transport_events tr.
Proof.
  intros H. unfold transport_events. rewrite List.filter_app. simpl. rewrite H.
  apply app_nil_r.
Qed.

Lemma closed_quiet_trans st st1 o :
  transport_events (RFB.trace st1) = transport_events (RFB.trace st) ->
  closed_quiet st1 o -> closed_quiet st o.
Proof. intros H. destruct o; simpl; [| |done]; intros [? ?]; split; congruence. Qed.

Ltac qleaf :=
  cbn [closed_quiet]; hnorm;
  split; [assumption | rewrite ?transport_events_snoc by reflexivity; reflexivity].

Ltac qcase :=
  match goal with
  | H : RFB._already_expecting ?st = true
    |- context [RFB._already_expecting ?st] => rewrite H
  | H : RFB.writer ?st = false |- context [RFB.writer ?st] => rewrite H
  | |- closed_quiet _ (RFB.Done _) => qleaf
  | |- closed_quiet _ (RFB.Raised _ _) => qleaf
  | |- closed_quiet _ RFB.OutOfFuel => exact I
  | |- closed_quiet _ ?X => case_on X
  end.

Ltac qsolve := repeat (hunfold; hnorm; qcase).

Section ClosedTransport.

Variable ext : RFB.Externals.
Variable rec : RFB.State -> RFB.outcome.

Ltac cq_ih IH :=
  eapply closed_quiet_trans;
  [| apply IH; hnorm; assumption];
  hnorm; rewrite ?transport_events_snoc by reflexivity; reflexivity.

Lemma closed_rre_subrects n block topx topy sz fmt pos :
  cq_goal (RFB.rre_subrects rec n block topx topy sz fmt pos).
Proof.
  revert pos. induction n as [|n IH]; intros pos st Hw Ha;
    cbn [RFB.rre_subrects].
  - qsolve.
  - repeat (hunfold; hnorm; first [cq_ih IH | qcase]).
Qed.

Lemma closed_corre_subrects n block topx topy sz fmt pos :
  cq_goal (RFB.corre_subrects rec n block topx topy sz fmt pos).
Proof.
  revert pos. induction n as [|n IH]; intros pos st Hw Ha;
    cbn [RFB.corre_subrects].
  - qsolve.
  - repeat (hunfold; hnorm; first [cq_ih IH | qcase]).
Qed.

Lemma closed_hextile_coloured n block sz bg color x y w h tx ty pos :
  cq_goal (RFB.hextile_coloured rec n block sz bg color x y w h tx ty pos).
Proof.
  revert pos color. induction n as [|n IH]; intros pos color st Hw Ha;
    cbn [RFB.hextile_coloured].
  - qsolve.
  - repeat (hunfold; hnorm; first [cq_ih IH | qcase]).
Qed.

Lemma closed_hextile_fg n block bg color x y w h tx ty pos :
  cq_goal (RFB.hextile_fg rec n block bg color x y w h tx ty pos).
Proof.
  revert pos. induction n as [|n IH]; intros pos st Hw Ha;
    cbn [RFB.hextile_fg].
  - qsolve.
  - repeat (hunfold; hnorm; first [cq_ih IH | qcase]).
Qed.

Lemma closed_zrle_tiles n it x y w h tx ty :
  cq_goal (RFB.zrle_tiles rec n it x y w h tx ty).
Proof.
  revert it tx ty. induction n as [|n IH]; intros it tx ty st Hw Ha;
    destruct it as [|s it]; cbn [RFB.zrle_tiles].
  - qsolve.
  - qsolve.
  - qsolve.
  - repeat (hunfold; hnorm; first [cq_ih IH | qcase]).
Qed.

Lemma closed_invoke h block : cq_goal (RFB.invoke ext rec h block).
Proof.
  intros st Hw Ha. destruct h; cbn [RFB.invoke].
  all: try (unfold RFB._handleRRESubRectangles;
            apply closed_rre_subrects; assumption).
  all: try (unfold RFB._handleDecodeCORRERectangles;
            apply closed_corre_subrects; assumption).
  all: try (unfold RFB._handleDecodeHextileSubrectsColoured;
            apply closed_hextile_coloured; assumption).
  all: try (unfold RFB._handleDecodeHextileSubrectsFG;
            apply closed_hextile_fg; assumption).
  all: try (unfold RFB._handleDecodeZRLEdata; hunfold; hnorm;
            destruct (RFB.zlib_decompress ext (RFB._zlib_stream st) block);
            [eapply closed_quiet_trans;
               [| apply closed_zrle_tiles; hnorm; assumption]; reflexivity
            | qsolve]).
  all: unfold RFB._handleNumberSecurityTypes, RFB._handleSecurityTypes,
    RFB._handleAuth, RFB._handleConnFailed, RFB._handleConnMessage,
    RFB._handleVNCAuth, RFB._handleDHAuth, RFB._handleDHAuthKey,
    RFB._handleDHAuthCert, RFB._handleVNCAuthResult, RFB._handleAuthFailed,
    RFB._handleAuthFailedMessage, RFB._handleServerInit, RFB._handleServerName,
    RFB._handleConnection, RFB._handleQEMUServerMessage,
    RFB._handleQEMUAudioServerMessage, RFB._handleQEMUAudioServerProviderMessage,
    RFB._handleQEMUAudioServerStreamMessage, RFB._handleFramebufferUpdate,
    RFB._handleRectangle, RFB._handleDecodeRAW, RFB._handleDecodeCopyrect,
    RFB._handleDecodeRRE, RFB._handleDecodeCORRE, RFB._handleDecodeHextile,
    RFB._handleDecodeHextileSubrect, RFB._handleDecodeHextileRAW,
    RFB._handleDecodeZRLE, RFB._handleDecodePsuedoCursor,
    RFB._handleColourMapEntries, RFB._handleColourMapEntriesValue,
    RFB._handleServerCutText, RFB._handleServerCutTextValue.
  all: qsolve.
Qed.

End ClosedTransport.

Lemma closed_expected_loop ext rec n st :
  RFB.writer st = false -> closed_quiet st (RFB.expected_loop ext rec n st).
Proof.
  revert st. induction n as [|n IH]; intros st Hw; cbn [RFB.expected_loop];
    destruct (len (RFB._packet st) >=? RFB._expected_len st);
    try exact I; try (split; [exact Hw | reflexivity]).
  match goal with
  | |- closed_quiet _ (RFB.obind (RFB.invoke _ _ ?h ?b ?s) _) =>
      pose proof (closed_invoke ext rec h b s Hw eq_refl) as Hi;
      destruct (RFB.invoke ext rec h b s) as [s1|e s1|]
  end; cbn [RFB.obind]; [| exact Hi | exact I].
  destruct Hi as [Hw1 Ht1]. eapply closed_quiet_trans; [| apply IH, Hw1].
  exact Ht1.
Qed.

Lemma closed_handleExpected ext fuel st :
  RFB.writer st = false -> closed_quiet st (RFB._handleExpected ext fuel st).
Proof.
  intros Hw. destruct fuel as [|fuel]; cbn [RFB._handleExpected];
    destruct (len (RFB._packet st) >=? RFB._expected_len st);
    try exact I; try (split; [exact Hw | reflexivity]).
  by apply closed_expected_loop.
Qed.

(** X7: Once the transport is gone (writer is None), no received data
    makes the engine write or close anything: whether dataReceived
    returns or raises, the writer is still None and the sequence of
    writes and closes is what it was before. *)
Theorem closed_transport_stays_quiet ext fuel data st st' :
  RFB.writer st = false ->
  (RFB.dataReceived ext fuel data st = RFB.Done st'
   \/ exists e, RFB.dataReceived ext fuel data st = RFB.Raised e st') ->
  RFB.writer st' = false
  /\ transport_events (RFB.trace st') = transport_events (RFB.trace st).
Proof.
  intros Hw Hrun.
  assert (Hq : closed_quiet st (RFB.dataReceived ext fuel data st)).
  { unfold RFB.dataReceived. cbn [RFB._handler RFB.set_packet].
    set (s := RFB.set_packet _ st).
    assert (Hws : RFB.writer s = false) by exact Hw.
    destruct (RFB._handler st).
    - unfold RFB._handleInitial. subst s.
      destruct (decide _).
      + destruct (RFB.int_of_digits _) as [major|]; cbn [RFB.lift];
          [|split; [exact Hw | reflexivity]].
        destruct (RFB.int_of_digits _) as [minor|]; cbn [RFB.lift];
          [|split; [exact Hw | reflexivity]].
        destruct (RFB.max_ver _) as [version|]; cbn [RFB.lift];
          [|split; [exact Hw | reflexivity]].
        unfold RFB._write.
        match goal with
        | |- context [if RFB.writer ?x then _ else _] =>
            change (RFB.writer x) with (RFB.writer st); rewrite Hw
        end.
        unfold RFB.expect.
        cbn [RFB._already_expecting RFB.set_packet RFB.set_handler
             RFB.set_version RFB.set_version_server RFB.set_expected_handler
             RFB.set_expected_len].
        destruct (RFB.ver_lt _ (3, 7)), (RFB._already_expecting st);
          try (split; [exact Hw | reflexivity]);
          (eapply closed_quiet_trans;
           [| apply closed_handleExpected; exact Hw]); reflexivity.
      + destruct (negb _); [|split; [exact Hw | reflexivity]].
        unfold RFB.disconnect.
        change (RFB.writer (RFB.set_packet (RFB._packet st ++ data) st))
          with (RFB.writer st).
        rewrite Hw. split; [exact Hw | reflexivity].
    - eapply closed_quiet_trans; [| apply closed_handleExpected; exact Hws].
      reflexivity. }
  destruct Hrun as [Hrun | [e Hrun]]; rewrite Hrun in Hq; exact Hq.
Qed.

Lemma closed_transport_stays_quiet_witness :
  let st := RFB.disconnect Samples.session in
  RFB.writer st = false
  /\ exists st',
       RFB.dataReceived Samples.ext 5 (map z2b [0; 0; 0; 0]) st = RFB.Done st'
       /\ RFB.writer st' = false
       /\ transport_events (RFB.trace st') = transport_events (RFB.trace st).
Proof.
  intros st.
  assert (Hw : RFB.writer st = false) by (vm_compute; reflexivity).
  split; [exact Hw|].
  assert (H1 : exists st',
             RFB.dataReceived Samples.ext 5 (map z2b [0; 0; 0; 0]) st
             = RFB.Done st')
    by (eexists; vm_compute; reflexivity).
  destruct H1 as [st' H1]. exists st'. split; [exact H1|].
  exact (closed_transport_stays_quiet Samples.ext 5 (map z2b [0; 0; 0; 0])
           st st' Hw (or_introl H1)).
Defined.

(** ** Pixel formats read from the wire *)

Lemma be_decode_1_range (b : byte) : 0 <= be_decode [b] < 256.
Proof. pose proof (b2z_range b). unfold be_decode. simpl. lia. Qed.

Lemma be_decode_2_range (a b : byte) : 0 <= be_decode [a; b] < 65536.
Proof.
  pose proof (b2z_range a). pose proof (b2z_range b).
  unfold be_decode. simpl. lia.
Qed.

(** X8: PixelFormat.from_bytes accepts every block of 16 bytes whatever
    its content (the fields of the result are in the ranges of their
    struct codes; nothing else, such as the bits per pixel being 8, 16
    or 32, is checked), and raises struct.error on a block of any other
    length. *)
Theorem from_bytes_any_block (block : bytes) :
  (length block = 16%nat ->
   exists pf, PixelFormat.from_bytes block = Ok pf
              /\ PixelFormat.fields_typed pf = true)
  /\ (length block <> 16%nat ->
      PixelFormat.from_bytes block = Raise StructError).
Proof.
  split.
  - intros Hl.
    do 16 (destruct block as [|? block]; [discriminate Hl|]).
    destruct block; [|discriminate Hl].
    unfold PixelFormat.from_bytes, unpack. rewrite STRUCT_items.
    cbn [rbind length]. 
    change (16 =? calcsize_items
              [FU8; FU8; FBool; FBool; FU16; FU16; FU16; FU8; FU8; FU8;
               FPad; FPad; FPad])%nat with true.
    cbv iota. cbn [unpack_items unpack_field size_of take drop app].
    eexists. split; [reflexivity|].
    unfold PixelFormat.fields_typed, PixelFormat.u8, PixelFormat.u16.
    cbn [PixelFormat.bpp PixelFormat.depth PixelFormat.redmax
         PixelFormat.greenmax PixelFormat.bluemax PixelFormat.redshift
         PixelFormat.greenshift PixelFormat.blueshift].
    repeat match goal with
    | |- context [be_decode [?x]] =>
        pose proof (be_decode_1_range x); generalize dependent (be_decode [x]);
        intros
    | |- context [be_decode [?x; ?y]] =>
        pose proof (be_decode_2_range x y);
        generalize dependent (be_decode [x; y]); intros
    end.
    lia.
  - intros Hl. unfold PixelFormat.from_bytes, unpack. rewrite STRUCT_items.
    cbn [rbind].
    replace (length block =? calcsize_items _)%nat with false; [reflexivity|].
    symmetry. apply Nat.eqb_neq. exact Hl.
Qed.

Lemma from_bytes_any_block_witness :
  (exists pf, PixelFormat.from_bytes (repeat NUL 16) = Ok pf
              /\ PixelFormat.fields_typed pf = true)
  /\ PixelFormat.from_bytes [NUL] = Raise StructError.
Proof.
  split.
  - apply (proj1 (from_bytes_any_block (repeat NUL 16))). reflexivity.
  - apply (proj2 (from_bytes_any_block [NUL])). discriminate.
Defined.

(** ** The banner *)

Lemma startswith_refl (a : bytes) : RFB.startswith a a = true.
Proof. induction a as [|x a IH]; [reflexivity|]. simpl. by rewrite Ascii.eqb_refl. Qed.

(** X9: _handleInitial looks at the first 12 bytes of the buffer with
    every digit replaced by 0: if they are not a prefix of the banner
    pattern the client disconnects; if they are a prefix and fewer than
    12 bytes have arrived, nothing happens and the buffer is kept for
    the next read. *)
Theorem initial_header_waits_or_disconnects rec (st : RFB.State) :
  let norm := RFB.translate_header (slice_to (RFB._packet st) 12) in
  (RFB.startswith RFB._HEADER norm = false ->
   RFB._handleInitial rec st = RFB.Done (RFB.disconnect st))
  /\ (RFB.startswith RFB._HEADER norm = true ->
      len (RFB._packet st) < 12 ->
      RFB._handleInitial rec st = RFB.Done st).
Proof.
  intros norm. unfold RFB._handleInitial. fold norm. split.
  - intros Hs. destruct (decide (norm = RFB._HEADER)) as [E|E].
    + rewrite E, startswith_refl in Hs. discriminate.
    + by rewrite Hs.
  - intros Hs Hl. destruct (decide (norm = RFB._HEADER)) as [E|E].
    + exfalso. apply (f_equal (@length _)) in E. unfold norm in E.
      unfold RFB.translate_header, slice_to in E.
      rewrite length_map, length_take in E. unfold len in Hl.
      change (length RFB._HEADER) with 12%nat in E. lia.
    + by rewrite Hs.
Qed.

Lemma initial_header_waits_or_disconnects_witness :
  let st0 := RFB.connect None None true RFB.init in
  let partial := RFB.set_packet (bytes_of "RFB 003.") st0 in
  let wrong := RFB.set_packet (bytes_of "HTTP/1.1 400") st0 in
  RFB._handleInitial (fun st => RFB.Done st) wrong
  = RFB.Done (RFB.disconnect wrong)
  /\ RFB._handleInitial (fun st => RFB.Done st) partial = RFB.Done partial.
Proof.
  intros st0 partial wrong. split.
  - apply (proj1 (initial_header_waits_or_disconnects _ wrong)). reflexivity.
  - apply (proj2 (initial_header_waits_or_disconnects _ partial));
      reflexivity.
Defined.

(** ** ZRLE tiles with a packed palette *)

Lemma palette_get_in (palette : list bytes) (i : Z) :
  0 <= i < len palette ->
  exists c, RFB.palette_get palette i = Ok c /\ In c palette.
Proof.
  intros Hi. unfold RFB.palette_get. replace (i <? 0) with false by lia.
  destruct (palette !! Z.to_nat i) as [c|] eqn:E.
  - exists c. split; [reflexivity|].
    apply list_elem_of_In. by eapply list_elem_of_lookup_2.
  - apply lookup_ge_None in E. unfold len in Hi. lia.
Qed.

Lemma packed_byte_run (shifts : list Z) (mask b : Z) (palette : list bytes)
    (p n : Z) (acc : bytes) :
  0 <= b -> 0 <= mask < len palette -> 1 <= p - n ->
  exists colours,
    Forall (fun c => In c palette) colours
    /\ if p - n <=? len shifts then
         len colours = p - n
         /\ RFB.packed_byte shifts mask b palette p n acc
            = Ok (true, p, acc ++ concat colours)
       else
         len colours = len shifts
         /\ RFB.packed_byte shifts mask b palette p n acc
            = Ok (false, n + len shifts, acc ++ concat colours).
Proof.
  intros Hb Hm. revert n acc.
  induction shifts as [|shift shifts IH]; intros n acc Hr.
  - exists []. split; [constructor|].
    replace (p - n <=? len []) with false
      by (symmetry; apply Z.leb_gt; unfold len; simpl; lia).
    split; [reflexivity|]. cbn [RFB.packed_byte concat].
    by rewrite app_nil_r, Z.add_0_r.
  - cbn [RFB.packed_byte].
    set (value := Z.land (Z.shiftr b shift) mask).
    assert (Hv : 0 <= value < len palette).
    { unfold value. split; [apply Z.land_nonneg; lia|].
      pose proof (land_le_r (Z.shiftr b shift) mask). lia. }
    destruct (palette_get_in palette value Hv) as (c & -> & Hc).
    cbn [rbind]. assert (Hlen : len (shift :: shifts) = len shifts + 1)
      by (unfold len; simpl length; lia).
    rewrite Hlen. pose proof (len_nonneg shifts).
    destruct (n + 1 =? p) eqn:E.
    + exists [c]. split; [by constructor|].
      replace (p - n <=? len shifts + 1) with true by lia.
      split; [unfold len; simpl; lia|]. cbn [concat]. rewrite app_nil_r.
      do 3 f_equal. lia.
    + destruct (IH (n + 1) (acc ++ c)) as (cs & Hcs & Hrun); [lia|].
      exists (c :: cs). split; [by constructor|].
      replace (p - (n + 1) <=? len shifts) with (p - n <=? len shifts + 1)
        in Hrun by lia.
      destruct (p - n <=? len shifts + 1); destruct Hrun as [Hl Hrun];
        (split; [unfold len in *; simpl length; lia|]); rewrite Hrun;
        cbn [concat]; rewrite <- app_assoc; do 3 f_equal; lia.
Qed.

Lemma packed_indices_run (d rest : bytes) (shifts : list Z) (mask : Z)
    (palette : list bytes) (p n : Z) (acc : bytes) :
  0 < len shifts -> 0 <= mask < len palette -> 1 <= p - n ->
  len d = (p - n + len shifts - 1) / len shifts ->
  exists colours,
    Forall (fun c => In c palette) colours
    /\ len colours = p - n
    /\ RFB.packed_indices (d ++ rest) shifts mask palette p n acc
       = Ok (rest, acc ++ concat colours).
Proof.
  intros Hk Hm. revert n acc.
  induction d as [|b d IH]; intros n acc Hr Hd.
  - exfalso. change (len (@nil ascii)) with 0 in Hd.
    assert (1 <= (p - n + len shifts - 1) / len shifts)
      by (apply Z.div_le_lower_bound; lia).
    lia.
  - cbn [app RFB.packed_indices].
    destruct (packed_byte_run shifts mask (b2z b) palette p n acc)
      as (cs & Hcs & Hrun); [pose proof (b2z_range b); lia | exact Hm | exact Hr |].
    assert (Hd' : len d + 1 = (p - n + len shifts - 1) / len shifts)
      by (rewrite <- Hd; unfold len; simpl length; lia).
    destruct (p - n <=? len shifts) eqn:E; destruct Hrun as [Hl ->];
      cbn [rbind].
    + assert ((p - n + len shifts - 1) / len shifts = 1).
      { symmetry. apply Z.div_unique with (p - n - 1); lia. }
      assert (d = []) as ->.
      { destruct d; [reflexivity|]. unfold len in *. simpl length in Hd'. lia. }
      exists cs. by repeat split.
    + destruct (IH (n + len shifts) (acc ++ concat cs)) as (cs' & Hcs' & Hl' & Hrun');
        [lia | |].
      { replace (p - (n + len shifts) + len shifts - 1)
          with ((p - n + len shifts - 1) + (-1) * len shifts) by lia.
        rewrite Z.div_add by lia. lia. }
      exists (cs ++ cs'). split; [by apply Forall_app|].
      split; [rewrite len_app; lia|].
      rewrite Hrun', concat_app, app_assoc. reflexivity.
Qed.

Lemma read_palette_run (n : nat) (pal rest : bytes) :
  length pal = (3 * n)%nat ->
  exists palette,
    RFB.read_palette n (pal ++ rest) = Ok (palette, rest)
    /\ length palette = n
    /\ Forall (fun c => len c = 4) palette.
Proof.
  revert pal. induction n as [|n IH]; intros pal Hl.
  - destruct pal; [|discriminate]. exists []. by repeat split.
  - destruct pal as [|a [|b [|c pal]]]; try (simpl in Hl; lia).
    destruct (IH pal) as (palette & Hrun & Hlen & Hall);
      [simpl in Hl; lia|].
    exists ([a; b; c; z2b 255] :: palette).
    cbn [app RFB.read_palette RFB.cpixel rbind]. rewrite Hrun. cbn [rbind].
    split; [reflexivity|]. split; [simpl; by rewrite Hlen|].
    by constructor.
Qed.

Lemma len_concat_colours (palette colours : list bytes) :
  Forall (fun c => len c = 4) palette ->
  Forall (fun c => In c palette) colours ->
  len (concat colours) = 4 * len colours.
Proof.
  intros Hp Hc. induction Hc as [|c cs Hin Hc IH]; [reflexivity|].
  cbn [concat]. rewrite len_app, IH.
  rewrite Forall_forall in Hp. apply list_elem_of_In, Hp in Hin.
  unfold len in *. simpl length. lia.
Qed.

Ltac eval_tests :=
  repeat match goal with
  | |- context [Z.land ?a ?b] =>
      let v := eval vm_compute in (Z.land a b) in
      progress change (Z.land a b) with v
  | |- context [Z.eqb ?a ?b] =>
      let v := eval vm_compute in (Z.eqb a b) in
      progress change (Z.eqb a b) with v
  | |- context [Z.gtb ?a ?b] =>
      let v := eval vm_compute in (Z.gtb a b) in
      progress change (Z.gtb a b) with v
  end; cbn [negb orb].

(** X10: A ZRLE tile with a packed palette of 2, 4 or 16 colours and p
    >= 1 pixels always decodes: it consumes 3 bytes per palette colour
    and ceil(p/8), ceil(p/4) or ceil(p/2) index bytes (the indices are
    packed across the rows of the tile, without padding at the end of a
    row), leaves the rest of the stream untouched and yields 4 bytes per
    pixel. *)
Theorem zrle_packed_palette_tile (ps per p : Z) (pal d rest : bytes) :
  (ps = 2 /\ per = 8) \/ (ps = 4 /\ per = 4) \/ (ps = 16 /\ per = 2) ->
  1 <= p ->
  len pal = 3 * ps ->
  len d = (p + per - 1) / per ->
  exists pixels,
    RFB.zrle_tile ps (pal ++ d ++ rest) p = Ok (RFB.TileUpdate pixels, rest)
    /\ len pixels = 4 * p.
Proof.
  intros Hps Hp Hpal Hd.
  assert (Hrp : exists palette,
             RFB.read_palette (Z.to_nat ps) (pal ++ d ++ rest)
             = Ok (palette, d ++ rest)
             /\ len palette = ps
             /\ Forall (fun c => len c = 4) palette).
  { destruct (read_palette_run (Z.to_nat ps) pal (d ++ rest))
      as (palette & H1 & H2 & H3); [unfold len in Hpal; lia|].
    exists palette. split; [exact H1|]. split; [unfold len; lia | exact H3]. }
  destruct Hrp as (palette & Hrun & Hlen & Hall).
  unfold RFB.zrle_tile.
  destruct Hps as [[-> ->] | [[-> ->] | [-> ->]]].
  - eval_tests. rewrite Hrun. cbn [rbind].
    destruct (packed_indices_run d rest [7; 6; 5; 4; 3; 2; 1; 0] 1 palette
                p 0 []) as (cs & Hcs & Hl & ->);
      [reflexivity | lia | lia
      | rewrite Hd, Z.sub_0_r; reflexivity |].
    cbn [rbind app]. eexists. split; [reflexivity|].
    rewrite (len_concat_colours palette) by assumption. lia.
  - eval_tests. rewrite Hrun. cbn [rbind].
    destruct (packed_indices_run d rest [6; 4; 2; 0] 3 palette
                p 0 []) as (cs & Hcs & Hl & ->);
      [reflexivity | lia | lia
      | rewrite Hd, Z.sub_0_r; reflexivity |].
    cbn [rbind app]. eexists. split; [reflexivity|].
    rewrite (len_concat_colours palette) by assumption. lia.
  - eval_tests. rewrite Hrun. cbn [rbind].
    destruct (packed_indices_run d rest [4; 0] 15 palette
                p 0 []) as (cs & Hcs & Hl & ->);
      [reflexivity | lia | lia
      | rewrite Hd, Z.sub_0_r; reflexivity |].
    cbn [rbind app]. eexists. split; [reflexivity|].
    rewrite (len_concat_colours palette) by assumption. lia.
Qed.

Lemma zrle_packed_palette_tile_witness :
  let pal := map z2b [1; 2; 3; 4; 5; 6] in
  let d := map z2b [170; 85] in
  ((2 = 2 /\ 8 = 8) \/ (2 = 4 /\ 8 = 4) \/ (2 = 16 /\ 8 = 2))
  /\ 1 <= 10 /\ len pal = 3 * 2 /\ len d = (10 + 8 - 1) / 8
  /\ exists pixels,
       RFB.zrle_tile 2 (pal ++ d ++ [z2b 9]) 10
       = Ok (RFB.TileUpdate pixels, [z2b 9])
       /\ len pixels = 4 * 10.
Proof.
  intros pal d.
  assert (H1 : (2 = 2 /\ 8 = 8) \/ (2 = 4 /\ 8 = 4) \/ (2 = 16 /\ 8 = 2))
    by (left; split; reflexivity).
  assert (H2 : 1 <= 10) by lia.
  assert (H3 : len pal = 3 * 2) by reflexivity.
  assert (H4 : len d = (10 + 8 - 1) / 8) by reflexivity.
  split; [exact H1|]. split; [exact H2|]. split; [exact H3|].
  split; [exact H4|].
  exact (zrle_packed_palette_tile 2 8 10 pal d [z2b 9] H1 H2 H3 H4).
Defined.

(** ** A framebuffer update of RAW rectangles *)

Lemma state_fields_eq (a b : RFB.State) :
  RFB._packet a = RFB._packet b ->
  RFB._handler a = RFB._handler b ->
  RFB._expected_handler a = RFB._expected_handler b ->
  RFB._expected_len a = RFB._expected_len b ->
  RFB._already_expecting a = RFB._already_expecting b ->
  RFB._version a = RFB._version b ->
  RFB._version_server a = RFB._version_server b ->
  RFB._zlib_stream a = RFB._zlib_stream b ->
  RFB.negotiated_encodings a = RFB.negotiated_encodings b ->
  RFB.pixel_format a = RFB.pixel_format b ->
  RFB.username a = RFB.username b ->
  RFB.password a = RFB.password b ->
  RFB.shared a = RFB.shared b ->
  RFB.writer a = RFB.writer b ->
  RFB.width a = RFB.width b ->
  RFB.height a = RFB.height b ->
  RFB.name a = RFB.name b ->
  RFB.rectangles a = RFB.rectangles b ->
  RFB.rectanglePos a = RFB.rectanglePos b ->
  RFB._challenge a = RFB._challenge b ->
  RFB.generator a = RFB.generator b ->
  RFB.keyLen a = RFB.keyLen b ->
  RFB.modulus a = RFB.modulus b ->
  RFB.serverKey a = RFB.serverKey b ->
  RFB.trace a = RFB.trace b ->
  a = b.
Proof. destruct a, b; simpl; intros; subst; reflexivity. Qed.

Ltac state_eq :=
  apply state_fields_eq; hunfold; hnorm; try reflexivity.

Lemma unpack_rect_header (x y w h : Z) :
  0 <= x < 65536 -> 0 <= y < 65536 -> 0 <= w < 65536 -> 0 <= h < 65536 ->
  unpack "!HHHHi"
    (be_encode 2 x ++ be_encode 2 y ++ be_encode 2 w ++ be_encode 2 h
       ++ be_encode 4 0)
  = Ok [VInt x; VInt y; VInt w; VInt h; VInt 0].
Proof.
  intros Hx Hy Hw Hh. unfold unpack.
  change (parse_format "!HHHHi") with (Ok [FU16; FU16; FU16; FU16; FI32]).
  cbn [rbind]. rewrite !length_app, !length_be_encode.
  change (2 + (2 + (2 + (2 + 4))) =?
          calcsize_items [FU16; FU16; FU16; FU16; FI32])%nat with true.
  cbv iota.
  rewrite <- (app_nil_r (be_encode 4 0)).
  rewrite !unpack_items_cons by (rewrite ?length_be_encode; reflexivity).
  cbn [unpack_items unpack_field app].
  rewrite !be_decode_encode by (simpl; lia). reflexivity.
Qed.

Lemma raw_wire_split (x y w h : Z) (data rest : bytes) :
  raw_wire ((x, y, w, h), data) ++ rest
  = (be_encode 2 x ++ be_encode 2 y ++ be_encode 2 w ++ be_encode 2 h
       ++ be_encode 4 0) ++ data ++ rest.
Proof. unfold raw_wire. by rewrite <- !app_assoc. Qed.

Lemma slice_to_prefix {A} (a b : list A) n :
  n = len a -> slice_to (a ++ b) n = a.
Proof.
  intros ->. unfold slice_to, len. rewrite Nat2Z.id. apply take_app_length.
Qed.

Lemma slice_from_prefix {A} (a b : list A) n :
  n = len a -> slice_from (a ++ b) n = b.
Proof.
  intros ->. unfold slice_from, len. rewrite Nat2Z.id. apply drop_app_length.
Qed.

(** One turn of the dispatch loop, when the block is there. *)
Lemma expected_loop_step ext rec (n : nat) (s : RFB.State)
    (block tail : bytes) :
  RFB._expected_len s = len block ->
  RFB._packet s = block ++ tail ->
  RFB.expected_loop ext rec (S n) s
  = RFB.obind
      (RFB.invoke ext rec (RFB._expected_handler s) block
         (RFB.set_packet tail (RFB.set_already_expecting true s)))
      (RFB.expected_loop ext rec n).
Proof.
  intros Hl Hp. cbn [RFB.expected_loop]. hnorm. rewrite Hp, Hl.
  replace (len (block ++ tail) >=? len block) with true
    by (symmetry; rewrite len_app; pose proof (len_nonneg tail); lia).
  by rewrite slice_to_prefix, slice_from_prefix.
Qed.

Lemma doConnection_commit rec (st : RFB.State) :
  RFB.rectangles st = 0 -> RFB.rectanglePos st <> [] ->
  RFB._already_expecting st = true ->
  RFB._doConnection rec st
  = RFB.Done
      (RFB.set_expected_len 1
         (RFB.set_expected_handler RFB.HConnection
            (RFB.log (RFB.CbCommitUpdate (RFB.rectanglePos st)) st))).
Proof.
  intros Hn Hp Ha. unfold RFB._doConnection. rewrite Hn.
  change (negb (0 =? 0)) with false. cbv iota.
  destruct (RFB.rectanglePos st) as [|p ps] eqn:E; [done|].
  unfold RFB.expect, RFB.log. hnorm. by rewrite Ha.
Qed.

Lemma doConnection_next rec (st : RFB.State) :
  RFB.rectangles st <> 0 ->
  RFB._already_expecting st = true ->
  RFB._doConnection rec st
  = RFB.Done
      (RFB.set_expected_len 12
         (RFB.set_expected_handler RFB.HRectangle st)).
Proof.
  intros Hn Ha. unfold RFB._doConnection.
  replace (negb (RFB.rectangles st =? 0)) with true
    by (symmetry; apply negb_true_iff; lia).
  unfold RFB.expect. hnorm. by rewrite Ha.
Qed.

Lemma raw_rects_loop ext rec (k : nat) (rects : list RawRect) (rest : bytes) :
  forall s,
  rects <> [] ->
  Forall (raw_rect_ok (RFB.bypp s)) rects ->
  RFB._expected_handler s = RFB.HRectangle ->
  RFB._expected_len s = 12 ->
  RFB._packet s = concat (map raw_wire rects) ++ rest ->
  RFB.rectangles s = len rects ->
  RFB.expected_loop ext rec (2 * length rects + k) s
  = RFB.expected_loop ext rec k
      (RFB.set_expected_len 1
         (RFB.set_expected_handler RFB.HConnection
            (RFB.set_trace
               (RFB.trace s ++ map raw_callback rects
                  ++ [RFB.CbCommitUpdate
                        (RFB.rectanglePos s ++ map fst rects)])
               (RFB.set_rectanglePos (RFB.rectanglePos s ++ map fst rects)
                  (RFB.set_rectangles 0
                     (RFB.set_packet rest
                        (RFB.set_already_expecting true s))))))).
Proof.
  induction rects as [|r rs IH]; intros s Hne Hall Hh Hl Hp Hn; [done|].
  destruct r as [[[[x y] w] h] data].
  apply Forall_cons in Hall as [(Hx & Hy & Hw & Hhh & Hd) Hall].
  assert (Hfuel : forall n, (2 * S n + k = S (S (2 * n + k)))%nat) by lia.
  change (length (((x, y, w, h), data) :: rs)) with (S (length rs)).
  rewrite Hfuel. clear Hfuel.
  assert (Hlen1 : forall n, Z.of_nat (S n) = Z.of_nat n + 1) by lia.
  unfold len in Hn. cbn [length] in Hn. rewrite Hlen1 in Hn. clear Hlen1.
  fold (len rs) in Hn.
  pose proof (len_nonneg rs) as Hrs.
  cbn [map concat] in Hp. rewrite <- app_assoc, raw_wire_split in Hp.
  set (tail := concat (map raw_wire rs) ++ rest) in *.
  set (hdr := be_encode 2 x ++ be_encode 2 y ++ be_encode 2 w
              ++ be_encode 2 h ++ be_encode 4 0) in *.
  assert (Hhdr : len hdr = 12) by reflexivity.
  (* the header *)
  rewrite (expected_loop_step ext rec _ s hdr (data ++ tail));
    [| rewrite Hl; exact Hhdr | exact Hp].
  rewrite Hh. cbn [RFB.invoke]. unfold RFB._handleRectangle. unfold hdr at 1.
  rewrite unpack_rect_header by assumption. cbn [RFB.lift].
  change (0 =? RFB.Encoding.PSEUDO_LAST_RECT) with false. cbv iota.
  hnorm. rewrite Hn.
  replace (negb (len rs + 1 =? 0)) with true
    by (symmetry; apply negb_true_iff; lia).
  change (0 =? RFB.Encoding.COPY_RECTANGLE) with false.
  change (0 =? RFB.Encoding.RAW) with true. cbv iota.
  unfold RFB.expect. hnorm. cbn [RFB.obind].
  (* the pixels *)
  match goal with
  | |- RFB.expected_loop _ _ _ ?s1 = _ =>
      rewrite (expected_loop_step ext rec _ s1 data tail);
        [| hnorm; unfold RFB.bypp; hnorm; fold (RFB.bypp s); lia
         | reflexivity]
  end.
  hnorm. cbn [RFB.invoke]. unfold RFB._handleDecodeRAW.
  destruct rs as [|r' rs'].
  - (* the last rectangle *)
    rewrite doConnection_commit;
      [| unfold RFB.updateRectangle, RFB.log; hnorm; reflexivity
       | unfold RFB.updateRectangle, RFB.log; hnorm;
         by destruct (RFB.rectanglePos s)
       | reflexivity].
    cbn [RFB.obind length Nat.mul Nat.add map concat app].
    f_equal. unfold RFB.updateRectangle. state_eq. by rewrite <- app_assoc.
  - rewrite doConnection_next;
      [| unfold RFB.updateRectangle, RFB.log; hnorm;
         unfold len; cbn [length]; lia
       | reflexivity].
    cbn [RFB.obind].
    rewrite IH; [| done | exact Hall | reflexivity | reflexivity
                 | reflexivity
                 | unfold RFB.updateRectangle, RFB.log; hnorm;
                   unfold len; cbn [length]; lia].
    f_equal. unfold RFB.updateRectangle. state_eq.
    + cbn [map fst]. by rewrite <- !app_assoc.
    + cbn [map fst raw_callback]. by rewrite <- !app_assoc.
Qed.

Lemma unpack_update_header (n : Z) :
  0 <= n < 65536 ->
  unpack "!xH" (NUL :: be_encode 2 n) = Ok [VInt n].
Proof.
  intros Hn. unfold unpack.
  change (parse_format "!xH") with (Ok [FPad; FU16]).
  cbn [rbind]. cbn [length]. rewrite length_be_encode.
  change (3 =? calcsize_items [FPad; FU16])%nat with true. cbv iota.
  change (NUL :: be_encode 2 n) with ([NUL] ++ be_encode 2 n ++ []).
  rewrite !unpack_items_cons by (rewrite ?length_be_encode; reflexivity).
  cbn [unpack_items unpack_field app].
  rewrite be_decode_encode by (simpl; lia). reflexivity.
Qed.

Lemma handleExpected_S ext (f : nat) (st : RFB.State) :
  RFB._handleExpected ext (S f) st
  = if len (RFB._packet st) >=? RFB._expected_len st
    then RFB.expected_loop ext (RFB._handleExpected ext f) f st
    else RFB.Done st.
Proof. reflexivity. Qed.

Lemma unpack_type_byte : unpack "!B" [z2b 0] = Ok [VInt 0].
Proof. vm_compute. reflexivity. Qed.

(** The message type 0 announces a framebuffer update. *)
Lemma update_type_step ext rec (n : nat) (s : RFB.State) (tail : bytes) :
  RFB._expected_handler s = RFB.HConnection ->
  RFB._expected_len s = 1 ->
  RFB._packet s = z2b 0 :: tail ->
  RFB.expected_loop ext rec (S n) s
  = RFB.expected_loop ext rec n
      (RFB.set_expected_len 3
         (RFB.set_expected_handler RFB.HFramebufferUpdate
            (RFB.set_packet tail (RFB.set_already_expecting true s)))).
Proof.
  intros Hh Hl Hp.
  rewrite (expected_loop_step ext rec n s [z2b 0] tail);
    [| rewrite Hl; reflexivity | exact Hp].
  rewrite Hh. cbn [RFB.invoke]. unfold RFB._handleConnection.
  rewrite unpack_type_byte. cbn [RFB.lift].
  change (0 =? RFB.MsgS2C.FRAMEBUFFER_UPDATE) with true. cbv iota.
  unfold RFB.expect. hnorm. reflexivity.
Qed.

(** The number of rectangles opens the update. *)
Lemma update_count_step ext rec (n : nat) (s : RFB.State) (c : Z)
    (tail : bytes) :
  0 < c < 65536 ->
  RFB._expected_handler s = RFB.HFramebufferUpdate ->
  RFB._expected_len s = 3 ->
  RFB._packet s = (NUL :: be_encode 2 c) ++ tail ->
  RFB.expected_loop ext rec (S n) s
  = RFB.expected_loop ext rec n
      (RFB.set_expected_len 12
         (RFB.set_expected_handler RFB.HRectangle
            (RFB.log RFB.CbBeginUpdate
               (RFB.set_rectanglePos []
                  (RFB.set_rectangles c
                     (RFB.set_packet tail
                        (RFB.set_already_expecting true s))))))).
Proof.
  intros Hc Hh Hl Hp.
  rewrite (expected_loop_step ext rec n s (NUL :: be_encode 2 c) tail);
    [| rewrite Hl; reflexivity | exact Hp].
  rewrite Hh. cbn [RFB.invoke]. unfold RFB._handleFramebufferUpdate.
  rewrite unpack_update_header by lia. cbn [RFB.lift].
  rewrite doConnection_next;
    [| unfold RFB.log; hnorm; lia | reflexivity].
  reflexivity.
Qed.

Lemma expected_loop_done ext rec (n : nat) (s : RFB.State) :
  len (RFB._packet s) < RFB._expected_len s ->
  RFB.expected_loop ext rec n s
  = RFB.Done (RFB.set_already_expecting false s).
Proof.
  intros H.
  assert (E : (len (RFB._packet s) >=? RFB._expected_len s) = false).
  { rewrite Z.geb_leb. apply Z.leb_gt. exact H. }
  destruct n; cbn [RFB.expected_loop]; by rewrite E.
Qed.

Lemma raw_update_loop ext rec (rects : list RawRect) (s : RFB.State) :
  rects <> [] ->
  len rects < 65536 ->
  Forall (raw_rect_ok (RFB.bypp s)) rects ->
  RFB._expected_handler s = RFB.HConnection ->
  RFB._expected_len s = 1 ->
  RFB._packet s = raw_update_wire rects ->
  RFB.expected_loop ext rec (S (S (2 * length rects + 0))) s
  = RFB.Done
      (RFB.set_already_expecting false
         (RFB.set_expected_len 1
            (RFB.set_expected_handler RFB.HConnection
               (RFB.set_trace
                  (RFB.trace s ++ [RFB.CbBeginUpdate]
                     ++ map raw_callback rects
                     ++ [RFB.CbCommitUpdate (map fst rects)])
                  (RFB.set_rectanglePos (map fst rects)
                     (RFB.set_rectangles 0 (RFB.set_packet [] s))))))).
Proof.
  intros Hne Hlen Hall Hh Hl Hp.
  assert (Hc : 0 < len rects < 65536).
  { destruct rects; [done|]. split; [|exact Hlen].
    unfold len. cbn [length]. lia. }
  rewrite (update_type_step ext rec _ s
             ((NUL :: be_encode 2 (len rects))
                ++ concat (map raw_wire rects) ++ []));
    [| exact Hh | exact Hl | rewrite Hp, app_nil_r; reflexivity].
  match goal with
  | |- RFB.expected_loop _ _ _ ?s1 = _ =>
      rewrite (update_count_step ext rec _ s1 (len rects)
                 (concat (map raw_wire rects) ++ []) Hc);
        [| reflexivity | reflexivity | reflexivity]
  end.
  rewrite (raw_rects_loop ext rec 0 rects []);
    [| exact Hne
     | unfold RFB.bypp in *; hnorm; exact Hall
     | reflexivity | reflexivity | reflexivity | reflexivity].
  rewrite expected_loop_done by reflexivity.
  f_equal. state_eq. by rewrite <- app_assoc.
Qed.

(** X11: An idle engine that receives a FramebufferUpdate message of n
    >= 1 RAW rectangles (each with width * height * bypp bytes of
    pixels) calls beginUpdate, then updateRectangle once per rectangle,
    in order and with its pixels, then commitUpdate with the list of all
    the rectangles, and is idle again with an empty buffer; 2n + 3 units
    of fuel suffice. *)
Theorem raw_update_delivered ext (rects : list RawRect) (st : RFB.State) :
  idle st ->
  rects <> [] ->
  len rects < 65536 ->
  Forall (raw_rect_ok (RFB.bypp st)) rects ->
  RFB.dataReceived ext (2 * length rects + 3) (raw_update_wire rects) st
  = RFB.Done (after_raw_update rects st).
Proof.
  intros (Hh & Heh & Hel & Hp & Hae) Hne Hlen Hall.
  unfold RFB.dataReceived. hnorm. rewrite Hh, Hp. cbn [app].
  replace (2 * length rects + 3)%nat with (S (S (S (2 * length rects + 0))))
    by lia.
  rewrite handleExpected_S. hnorm. rewrite Hel.
  replace (len (raw_update_wire rects) >=? 1) with true
    by (symmetry; unfold raw_update_wire; rewrite len_app;
        pose proof (len_nonneg (be_encode 2 (len rects)
                                  ++ concat (map raw_wire rects)));
        change (len [z2b 0; NUL]) with 2; lia).
  rewrite raw_update_loop;
    [| exact Hne | exact Hlen | unfold RFB.bypp in *; hnorm; exact Hall
     | hnorm; exact Heh | hnorm; exact Hel | reflexivity].
  f_equal. unfold after_raw_update. state_eq; try (symmetry; assumption).
Qed.

Lemma raw_update_delivered_witness :
  idle Samples.session
  /\ RFB.dataReceived Samples.ext 7
       (raw_update_wire
          [((0, 0, 1, 1), [z2b 1; z2b 2; z2b 3; z2b 4]);
           ((1, 0, 1, 1), [z2b 5; z2b 6; z2b 7; z2b 8])])
       Samples.session
     = RFB.Done
         (after_raw_update
            [((0, 0, 1, 1), [z2b 1; z2b 2; z2b 3; z2b 4]);
             ((1, 0, 1, 1), [z2b 5; z2b 6; z2b 7; z2b 8])]
            Samples.session).
Proof.
  assert (Hi : idle Samples.session) by (vm_compute; tauto).
  split; [exact Hi|].
  apply (raw_update_delivered Samples.ext
           [((0, 0, 1, 1), [z2b 1; z2b 2; z2b 3; z2b 4]);
            ((1, 0, 1, 1), [z2b 5; z2b 6; z2b 7; z2b 8])]
           Samples.session Hi).
  - discriminate.
  - reflexivity.
  - repeat constructor; vm_compute; try discriminate; reflexivity.
Defined.

(** ** Keys *)

Lemma keyEvent_written (key : Z) (down : bool) (st : RFB.State) :
  0 <= key < 2 ^ 32 ->
  RFB.keyEvent key down st = Ok (RFB._write (key_message down key) st).
Proof.
  intros Hk. unfold RFB.keyEvent, pack.
  change (parse_format "!BBxxI") with (Ok [FU8; FU8; FPad; FPad; FU32]).
  cbn [rbind pack_items]. rewrite (pack_uint_int 4 key) by (simpl; lia).
  destruct down; reflexivity.
Qed.

Lemma key_events_written (down : bool) (keys : list Z) (c : Client.t) :
  Forall (fun k => 0 <= k < 2 ^ 32) keys ->
  Client.key_events down keys c
  = Client.Done
      (Client.set_base
         (write_all (map (key_message down) keys) (Client.base c)) c).
Proof.
  intros H. revert c. induction H as [|k keys Hk H IH]; intros c.
  - by destruct c.
  - cbn [Client.key_events map write_all fold_left]. unfold Client.keyEvent.
    rewrite keyEvent_written by exact Hk. cbn [Client.lift Client.obind].
    rewrite IH. by destruct c.
Qed.

Lemma KEYMAP_range :
  Forall (fun kv : string * Z => 0 < kv.2 < 65536) Client.KEYMAP.
Proof. repeat constructor. Qed.

Lemma key_code_range (k : string) (v : Z) :
  Client.key_code k = Ok v -> 0 <= v < 2 ^ 32.
Proof.
  assert (Hord : Client.ord k = Ok v -> 0 <= v < 2 ^ 32).
  { destruct k as [|ch [|]]; try discriminate. intros [= <-].
    pose proof (b2z_range ch). lia. }
  unfold Client.key_code, Client.KEYMAP_get.
  destruct (List.find _ _) as [[k' v']|] eqn:E; cbn [fmap option_fmap option_map snd];
    [|exact Hord].
  apply find_some in E as [Hin _].
  pose proof KEYMAP_range as HR. rewrite Forall_forall in HR.
  apply list_elem_of_In, HR in Hin. cbn [snd] in Hin.
  destruct (v' =? 0) eqn:E0; [lia|]. intros [= <-]. lia.
Qed.

Lemma key_codes_range (ks : list string) (vs : list Z) :
  Client.key_codes ks = Ok vs -> Forall (fun v => 0 <= v < 2 ^ 32) vs.
Proof.
  revert vs. induction ks as [|k ks IH]; intros vs; cbn [Client.key_codes].
  - intros [= <-]. constructor.
  - destruct (Client.key_code k) as [v|] eqn:Ek; [|discriminate].
    cbn [rbind]. destruct (Client.key_codes ks) as [vs'|]; [|discriminate].
    cbn [rbind]. intros [= <-]. constructor; [by eapply key_code_range | by apply IH].
Qed.

Lemma decodeKey_range isupper cfg key keys :
  Client._decodeKey isupper cfg key = Ok keys ->
  Forall (fun v => 0 <= v < 2 ^ 32) keys.
Proof.
  unfold Client._decodeKey.
  destruct (if Client.force_caps cfg then _ else _) as [key'|]; [|discriminate].
  cbn [rbind]. apply key_codes_range.
Qed.

Lemma write_all_app (a b : list bytes) (st : RFB.State) :
  write_all (a ++ b) st = write_all b (write_all a st).
Proof. unfold write_all. by rewrite fold_left_app. Qed.

(** X12: If the key string decodes, keyPress writes one KeyEvent message
    with down set per key, in order, then one with down cleared per key
    in the reverse order, and nothing else (for ctrl-alt-del: ctrl, alt,
    del down, then del, alt, ctrl up). *)
Theorem key_press_down_then_up isupper cfg (key : string) (keys : list Z)
    (c : Client.t) :
  Client._decodeKey isupper cfg key = Ok keys ->
  Client.keyPress isupper cfg key c
  = Client.Done
      (Client.set_base
         (write_all (map (key_message true) keys
                     ++ map (key_message false) (rev keys))
            (Client.base c)) c).
Proof.
  intros Hd. pose proof (decodeKey_range _ _ _ _ Hd) as Hr.
  unfold Client.keyPress. rewrite Hd. cbn [Client.lift].
  rewrite key_events_written by exact Hr. cbn [Client.obind].
  rewrite key_events_written by (by apply Forall_rev).
  rewrite write_all_app. by destruct c.
Qed.

Lemma key_press_down_then_up_witness :
  Client._decodeKey (fun _ => false) Client.default_settings "ctrl-alt-del"
  = Ok [0xFFE3; 0xFFE9; 0xFFFF]
  /\ Client.keyPress (fun _ => false) Client.default_settings "ctrl-alt-del"
       Samples.client
     = Client.Done
         (Client.set_base
            (write_all
               (map (key_message true) [0xFFE3; 0xFFE9; 0xFFFF]
                ++ map (key_message false) (rev [0xFFE3; 0xFFE9; 0xFFFF]))
               (Client.base Samples.client)) Samples.client).
Proof.
  assert (H : Client._decodeKey (fun _ => false) Client.default_settings
                "ctrl-alt-del" = Ok [0xFFE3; 0xFFE9; 0xFFFF])
    by (vm_compute; reflexivity).
  split; [exact H|].
  exact (key_press_down_then_up (fun _ => false) Client.default_settings
           "ctrl-alt-del" [0xFFE3; 0xFFE9; 0xFFFF] Samples.client H).
Defined.

Lemma split_ends_with_sep (sep : ascii) (s : string) :
  exists hd tl,
    Client.split sep (s +:+ String sep EmptyString)
    = hd :: tl ++ [EmptyString].
Proof.
  induction s as [|ch s (hd & tl & IH)]; simpl.
  - rewrite Ascii.eqb_refl. by exists EmptyString, [].
  - rewrite IH. destruct (Ascii.eqb ch sep).
    + by exists EmptyString, (hd :: tl).
    + by exists (String ch hd), tl.
Qed.

Lemma key_code_error (k : string) (e : exn) :
  Client.key_code k = Raise e -> e = TypeError.
Proof.
  assert (Hord : Client.ord k = Raise e -> e = TypeError)
    by (destruct k as [|ch [|]]; simpl; congruence).
  unfold Client.key_code. destruct (Client.KEYMAP_get k) as [v|]; [|exact Hord].
  destruct (v =? 0); [exact Hord | discriminate].
Qed.

Lemma key_codes_failing (ks : list string) (k : string) :
  In k ks -> Client.key_code k = Raise TypeError ->
  Client.key_codes ks = Raise TypeError.
Proof.
  intros Hin Hk. induction ks as [|k' ks IH]; [destruct Hin|].
  cbn [Client.key_codes]. destruct (Client.key_code k') as [v|e] eqn:E.
  - cbn [rbind]. destruct Hin as [->|Hin]; [congruence|].
    by rewrite IH.
  - cbn [rbind]. f_equal. by eapply key_code_error.
Qed.

(** X13: With force_caps off, the dash key can only be sent alone:
    _decodeKey of the one-character string - gives [45], but every
    longer key string that ends with a dash (ctrl-- for instance) raises
    TypeError, because split leaves an empty last part and ord of the
    empty string fails. *)
Theorem dash_only_alone isupper cfg (s : string) :
  Client.force_caps cfg = false ->
  s <> EmptyString ->
  Client._decodeKey isupper cfg "-" = Ok [45]
  /\ Client._decodeKey isupper cfg (s +:+ "-") = Raise TypeError.
Proof.
  intros Hf Hs. unfold Client._decodeKey. rewrite Hf. cbn [rbind].
  split; [reflexivity|].
  assert (Hlen : (String.length (s +:+ "-") =? 1)%nat = false).
  { destruct s as [|ch [|ch' s]]; [done | reflexivity | reflexivity]. }
  rewrite Hlen. destruct (split_ends_with_sep "-" s) as (hd & tl & Hl).
  rewrite Hl. apply key_codes_failing with (k := EmptyString).
  - right. apply in_or_app. right. by left.
  - reflexivity.
Qed.

Lemma dash_only_alone_witness :
  (Client.force_caps Client.default_settings = false
   /\ "ctrl"%string <> EmptyString)
  /\ Client._decodeKey (fun _ => false) Client.default_settings "-" = Ok [45]
  /\ Client._decodeKey (fun _ => false) Client.default_settings "ctrl-"
     = Raise TypeError.
Proof.
  assert (H1 : Client.force_caps Client.default_settings = false)
    by reflexivity.
  assert (H2 : "ctrl"%string <> EmptyString) by discriminate.
  split; [exact (conj H1 H2)|].
  exact (dash_only_alone (fun _ => false) Client.default_settings "ctrl" H1 H2).
Defined.

(** ** Buttons *)

Lemma pointerEvent_message (px py mask : Z) (c : Client.t) :
  0 <= px < 65536 -> 0 <= py < 65536 -> 0 <= mask < 256 ->
  Client.pointerEvent px py mask c
  = Client.Done
      (Client.set_base
         (RFB._write (pointer_message mask px py) (Client.base c)) c).
Proof.
  intros Hx Hy Hm. unfold Client.pointerEvent.
  rewrite pointerEvent_written by assumption. reflexivity.
Qed.

(** X14: For a button from 1 to 8, with a position and a mask that fit
    the message, mousePress writes two PointerEvent messages at the
    current position, the first with the button's bit set in the mask
    and the second with it cleared; self.buttons ends with that bit
    cleared and every other bit unchanged, also when the button was held
    down before the click. *)
Theorem mouse_press_click (button : Z) (c : Client.t) :
  1 <= button <= 8 ->
  0 <= Client.buttons c < 256 ->
  0 <= Client.x c < 65536 -> 0 <= Client.y c < 65536 ->
  let m := 2 ^ (button - 1) in
  let released := Z.ldiff (Client.buttons c) m in
  Client.mousePress button c
  = Client.Done
      (Client.set_base
         (write_all
            [pointer_message (Z.lor (Client.buttons c) m) (Client.x c)
               (Client.y c);
             pointer_message released (Client.x c) (Client.y c)]
            (Client.base c))
         (Client.set_buttons released c))
  /\ forall i, 0 <= i ->
       Z.testbit released i
       = Z.testbit (Client.buttons c) i && negb (i =? button - 1).
Proof.
  intros Hb Hm Hx Hy m released.
  assert (Hsh : Client.shift_one (button - 1) = Ok m).
  { unfold Client.shift_one. replace (button - 1 <? 0) with false by lia.
    by rewrite Z.shiftl_1_l. }
  assert (Hm2 : 0 <= m < 2 ^ 8).
  { unfold m. split; [apply Z.pow_nonneg; lia|].
    apply Z.pow_lt_mono_r; lia. }
  assert (Hdown : 0 <= Z.lor (Client.buttons c) m < 256).
  { apply (lor_below_pow2 _ _ 8); lia. }
  assert (Hup : 0 <= released < 256).
  { unfold released. split; [apply Z.ldiff_nonneg; lia|].
    pose proof (ldiff_le_l (Client.buttons c) m). lia. }
  split.
  - unfold Client.mousePress, Client.mouseDown. rewrite Hsh.
    cbn [Client.lift Client.x Client.y Client.buttons Client.set_buttons].
    rewrite pointerEvent_message by assumption. cbn [Client.obind].
    unfold Client.mouseUp. rewrite Hsh.
    cbn [Client.lift Client.x Client.y Client.buttons Client.set_buttons
         Client.set_base].
    rewrite press_release_mask. fold released.
    rewrite pointerEvent_message by assumption.
    by destruct c.
  - intros i Hi. unfold released, m. rewrite Z.ldiff_spec.
    f_equal. rewrite Z.pow2_bits_eqb by lia. f_equal. apply Z.eqb_sym.
Qed.

Lemma mouse_press_click_witness :
  (1 <= 1 <= 8 /\ 0 <= Client.buttons Samples.client < 256
   /\ 0 <= Client.x Samples.client < 65536
   /\ 0 <= Client.y Samples.client < 65536)
  /\ Client.mousePress 1 Samples.client
     = Client.Done
         (Client.set_base
            (write_all
               [pointer_message (Z.lor (Client.buttons Samples.client) 1)
                  (Client.x Samples.client) (Client.y Samples.client);
                pointer_message (Z.ldiff (Client.buttons Samples.client) 1)
                  (Client.x Samples.client) (Client.y Samples.client)]
               (Client.base Samples.client))
            (Client.set_buttons (Z.ldiff (Client.buttons Samples.client) 1)
               Samples.client)).
Proof.
  assert (H1 : 1 <= 1 <= 8) by lia.
  assert (H2 : 0 <= Client.buttons Samples.client < 256) by (vm_compute; split; [discriminate | reflexivity]).
  assert (H3 : 0 <= Client.x Samples.client < 65536) by (vm_compute; split; [discriminate | reflexivity]).
  assert (H4 : 0 <= Client.y Samples.client < 65536) by (vm_compute; split; [discriminate | reflexivity]).
  split; [exact (conj H1 (conj H2 (conj H3 H4)))|].
  exact (proj1 (mouse_press_click 1 Samples.client H1 H2 H3 H4)).
Defined.

Lemma pointerEvent_bad_mask (px py mask : Z) (st : RFB.State) :
  256 <= mask -> RFB.pointerEvent px py mask st = Raise StructError.
Proof.
  intros Hm. unfold RFB.pointerEvent, pack.
  change (parse_format "!BBHH") with (Ok [FU8; FU8; FU16; FU16]).
  cbn [rbind pack_items]. change (pack_uint 1 (VInt 5)) with (Ok [z2b 5]).
  cbn [rbind]. unfold pack_uint at 1. cbn [as_int rbind].
  replace (mask <? 256 ^ Z.of_nat 1) with false
    by (symmetry; apply Z.ltb_ge; simpl; lia).
  rewrite andb_false_r. reflexivity.
Qed.

(** X15: mouseDown with a button number of 9 or more raises struct.error
    without writing anything, but only after it has stored the bit in
    self.buttons (which is then at least 256), so that every later
    mouseMove raises struct.error as well. *)
Theorem mouse_down_beyond_mask (button : Z) (c : Client.t) :
  9 <= button -> 0 <= Client.buttons c ->
  exists c1,
    Client.mouseDown button c = Client.Raised StructError c1
    /\ Client.base c1 = Client.base c
    /\ 256 <= Client.buttons c1
    /\ forall px py,
         Client.mouseMove px py c1
         = Client.Raised StructError (Client.set_xy px py c1).
Proof.
  intros Hb Hm.
  set (m := 2 ^ (button - 1)).
  assert (Hsh : Client.shift_one (button - 1) = Ok m).
  { unfold Client.shift_one. replace (button - 1 <? 0) with false by lia.
    by rewrite Z.shiftl_1_l. }
  assert (Hm8 : 2 ^ 8 <= m) by (apply Z.pow_le_mono_r; lia).
  assert (Hlor : 256 <= Z.lor (Client.buttons c) m).
  { assert (H0 : 0 <= Z.lor (Client.buttons c) m)
      by (apply Z.lor_nonneg; lia).
    assert (Hl : 8 <= Z.log2 (Z.lor (Client.buttons c) m)).
    { rewrite Z.log2_lor by lia. unfold m at 1.
      rewrite Z.log2_pow2 by lia. lia. }
    assert (Hpos : 0 < Z.lor (Client.buttons c) m).
    { destruct (Z.eq_dec (Z.lor (Client.buttons c) m) 0) as [E|E]; [|lia].
      rewrite E in Hl. simpl in Hl. lia. }
    change 256 with (2 ^ 8). by apply Z.log2_le_pow2. }
  exists (Client.set_buttons (Z.lor (Client.buttons c) m) c).
  split; [|split; [reflexivity | split; [exact Hlor|]]].
  - unfold Client.mouseDown. rewrite Hsh. cbn [Client.lift].
    unfold Client.pointerEvent. rewrite pointerEvent_bad_mask by exact Hlor.
    reflexivity.
  - intros px py. unfold Client.mouseMove, Client.pointerEvent.
    rewrite pointerEvent_bad_mask by exact Hlor. reflexivity.
Qed.

Lemma mouse_down_beyond_mask_witness :
  (9 <= 9 /\ 0 <= Client.buttons Samples.client)
  /\ exists c1,
       Client.mouseDown 9 Samples.client = Client.Raised StructError c1
       /\ Client.base c1 = Client.base Samples.client
       /\ 256 <= Client.buttons c1
       /\ forall px py,
            Client.mouseMove px py c1
            = Client.Raised StructError (Client.set_xy px py c1).
Proof.
  assert (H1 : 9 <= 9) by lia.
  assert (H2 : 0 <= Client.buttons Samples.client) by (vm_compute; discriminate).
  split; [exact (conj H1 H2)|].
  exact (mouse_down_beyond_mask 9 Samples.client H1 H2).
Defined.

(** ** The image mode *)

(** X16: setImageMode never raises and always leaves the client with a
    pixel format that is a key of PF2IM and with image_mode its entry: a
    supported format is kept, an unsupported one is replaced by BGR16
    when the server version is (3, 889) and by RGB32 otherwise. *)
Theorem set_image_mode_known (c : Client.t) :
  exists c',
    Client.setImageMode c = Client.Done c'
    /\ Client.PF2IM_get (RFB.pixel_format (Client.base c'))
       = Some (Client.image_mode c')
    /\ (RFB.pixel_format (Client.base c') = RFB.pixel_format (Client.base c)
        \/ (Client.PF2IM_get (RFB.pixel_format (Client.base c)) = None
            /\ RFB.pixel_format (Client.base c')
               = if ((RFB._version_server (Client.base c)).1 =? 3)
                    && ((RFB._version_server (Client.base c)).2 =? 889)
                 then Client.BGR16 else Client.RGB32)).
Proof.
  unfold Client.setImageMode.
  destruct (Client.PF2IM_get (RFB.pixel_format (Client.base c))) as [mode|] eqn:E.
  - eexists. split; [reflexivity|]. split; [exact E | by left].
  - destruct (((RFB._version_server (Client.base c)).1 =? 3)
              && ((RFB._version_server (Client.base c)).2 =? 889)).
    + eexists. split; [reflexivity|]. split; [reflexivity|]. right. by split.
    + eexists. split; [reflexivity|]. split; [reflexivity|]. right. by split.
Qed.

(** ** Dragging *)

Lemma range3_between (start stop step : Z) (l : list Z) :
  Client.range3 start stop step = Ok l ->
  Forall (fun v => if 0 <? step then start <= v < stop
                   else stop < v <= start) l.
Proof.
  unfold Client.range3. destruct (step =? 0) eqn:E0; [discriminate|].
  intros [= <-]. apply Forall_forall. intros v Hv.
  apply list_elem_of_In, in_map_iff in Hv as (i & <- & Hi).
  apply list_elem_of_In, elem_of_seqZ in Hi.
  destruct (0 <? step) eqn:Es.
  - assert (Hs : 0 < step) by lia.
    pose proof (Z.mul_div_le (stop - start + step - 1) step Hs).
    set (n := (stop - start + step - 1) / step) in *. nia.
  - assert (Hs : 0 < - step) by lia.
    pose proof (Z.mul_div_le (start - stop - step - 1) (- step) Hs).
    set (n := (start - stop - step - 1) / - step) in *. nia.
Qed.

Lemma range3_total (start stop step : Z) :
  step <> 0 -> exists l, Client.range3 start stop step = Ok l.
Proof.
  intros H. unfold Client.range3.
  replace (step =? 0) with false by lia. by eexists.
Qed.

Lemma pointer_position_message (mask px py : Z) :
  0 <= mask < 256 -> 0 <= px < 65536 -> 0 <= py < 65536 ->
  pointer_position (RFB.Write (pointer_message mask px py)) = Some (px, py).
Proof.
  intros Hm Hx Hy. unfold pointer_position, pointer_message, unpack.
  change (parse_format "!BBHH") with (Ok [FU8; FU8; FU16; FU16]).
  cbn [rbind]. rewrite !length_app, !length_be_encode.
  change (length [z2b 5; z2b mask] + (2 + 2) =?
          calcsize_items [FU8; FU8; FU16; FU16])%nat with true.
  cbv iota.
  change ([z2b 5; z2b mask] ++ be_encode 2 px ++ be_encode 2 py)
    with ([z2b 5] ++ [z2b mask] ++ be_encode 2 px ++ be_encode 2 py ++ []).
  rewrite !unpack_items_cons by (rewrite ?length_be_encode; reflexivity).
  cbn [unpack_items unpack_field app].
  rewrite !be_decode_encode by (simpl; lia).
  change (be_decode [z2b 5]) with 5.
  reflexivity.
Qed.

Lemma pointer_positions_snoc (tr : list RFB.Event) (e : RFB.Event) :
  pointer_positions (tr ++ [e])
  = pointer_positions tr
      ++ match pointer_position e with Some p => [p] | None => [] end.
Proof.
  unfold pointer_positions. by rewrite omap_app.
Qed.

Lemma pointer_positions_write (mask px py : Z) (st : RFB.State) :
  RFB.writer st = true ->
  0 <= mask < 256 -> 0 <= px < 65536 -> 0 <= py < 65536 ->
  RFB.writer (RFB._write (pointer_message mask px py) st) = true
  /\ pointer_positions (RFB.trace (RFB._write (pointer_message mask px py) st))
     = pointer_positions (RFB.trace st) ++ [(px, py)].
Proof.
  intros Hw Hm Hx Hy. unfold RFB._write. rewrite Hw. cbn [RFB.log RFB.writer
    RFB.trace RFB.set_trace]. split; [exact Hw|].
  by rewrite pointer_positions_snoc, pointer_position_message.
Qed.

Lemma last_cons_default {A} (a : A) (l : list A) (d d' : A) :
  List.last (a :: l) d = List.last (a :: l) d'.
Proof.
  revert a. induction l as [|b l IH]; intros a; [reflexivity|].
  change (List.last (b :: l) d = List.last (b :: l) d'). apply IH.
Qed.

Lemma drag_y_path (ys : list Z) (c : Client.t) :
  Forall (fun v => 0 <= v < 65536) ys ->
  0 <= Client.x c < 65536 -> 0 <= Client.buttons c < 256 ->
  RFB.writer (Client.base c) = true ->
  exists c',
    Client.drag_y ys c = Client.Done c'
    /\ Client.x c' = Client.x c
    /\ Client.y c' = List.last ys (Client.y c)
    /\ Client.buttons c' = Client.buttons c
    /\ RFB.writer (Client.base c') = true
    /\ pointer_positions (RFB.trace (Client.base c'))
       = pointer_positions (RFB.trace (Client.base c))
           ++ map (fun v => (Client.x c, v)) ys.
Proof.
  intros Hys. revert c. induction Hys as [|v ys Hv Hys IH]; intros c Hx Hb Hw.
  - exists c. rewrite app_nil_r. by repeat split.
  - cbn [Client.drag_y]. rewrite mouseMove_written by assumption.
    cbn [Client.obind].
    destruct (pointer_positions_write (Client.buttons c) (Client.x c) v
                (Client.base c) Hw Hb Hx Hv) as [Hw1 Hp1].
    fold (pointer_message (Client.buttons c) (Client.x c) v).
    set (c1 := Client.sleep 200 _).
    destruct (IH c1) as (c' & Hrun & H1 & H2 & H3 & H4 & H5);
      [exact Hx | exact Hb | exact Hw1 |].
    exists c'. split; [exact Hrun|]. split; [exact H1|].
    split.
    { rewrite H2. destruct ys as [|a ys']; [reflexivity|].
      change (List.last (v :: a :: ys') (Client.y c))
        with (List.last (a :: ys') (Client.y c)).
      apply last_cons_default. }
    split; [exact H3|].
    split; [exact H4|]. rewrite H5.
    change (pointer_positions (RFB.trace (Client.base c1)))
      with (pointer_positions
              (RFB.trace (RFB._write (pointer_message (Client.buttons c)
                                        (Client.x c) v) (Client.base c))
               ++ [RFB.Sleep 200])).
    rewrite pointer_positions_snoc. cbn [pointer_position].
    rewrite app_nil_r, Hp1, <- app_assoc. reflexivity.
Qed.

Lemma drag_x_path (xs : list Z) (c : Client.t) :
  Forall (fun v => 0 <= v < 65536) xs ->
  0 <= Client.y c < 65536 -> 0 <= Client.buttons c < 256 ->
  RFB.writer (Client.base c) = true ->
  exists c',
    Client.drag_x xs c = Client.Done c'
    /\ Client.y c' = Client.y c
    /\ Client.buttons c' = Client.buttons c
    /\ RFB.writer (Client.base c') = true
    /\ pointer_positions (RFB.trace (Client.base c'))
       = pointer_positions (RFB.trace (Client.base c))
           ++ map (fun v => (v, Client.y c)) xs.
Proof.
  intros Hxs. revert c. induction Hxs as [|v xs Hv Hxs IH]; intros c Hy Hb Hw.
  - exists c. rewrite app_nil_r. by repeat split.
  - cbn [Client.drag_x]. rewrite mouseMove_written by assumption.
    cbn [Client.obind].
    destruct (pointer_positions_write (Client.buttons c) v (Client.y c)
                (Client.base c) Hw Hb Hv Hy) as [Hw1 Hp1].
    fold (pointer_message (Client.buttons c) v (Client.y c)).
    set (c1 := Client.sleep 200 _).
    destruct (IH c1) as (c' & Hrun & H1 & H3 & H4 & H5);
      [exact Hy | exact Hb | exact Hw1 |].
    exists c'. split; [exact Hrun|]. split; [exact H1|].
    split; [exact H3|]. split; [exact H4|]. rewrite H5.
    change (pointer_positions (RFB.trace (Client.base c1)))
      with (pointer_positions
              (RFB.trace (RFB._write (pointer_message (Client.buttons c)
                                        v (Client.y c)) (Client.base c))
               ++ [RFB.Sleep 200])).
    rewrite pointer_positions_snoc. cbn [pointer_position].
    rewrite app_nil_r, Hp1, <- app_assoc. reflexivity.
Qed.

(** X17: For every non-zero step (negative ones included) and
    coordinates that fit 16 bits, mouseDrag returns with the pointer at
    the target; the last pointer event it sends is at the target, and
    every event before it lies in the bounding box of the start and the
    target. *)
Theorem mouse_drag_reaches_target (px py step : Z) (c : Client.t) :
  step <> 0 ->
  0 <= px < 65536 -> 0 <= py < 65536 ->
  0 <= Client.x c < 65536 -> 0 <= Client.y c < 65536 ->
  0 <= Client.buttons c < 256 ->
  RFB.writer (Client.base c) = true ->
  exists c' path,
    Client.mouseDrag px py step c = Client.Done c'
    /\ Client.x c' = px /\ Client.y c' = py
    /\ pointer_positions (RFB.trace (Client.base c'))
       = pointer_positions (RFB.trace (Client.base c)) ++ path ++ [(px, py)]
    /\ Forall (fun p => Z.min (Client.x c) px <= p.1 <= Z.max (Client.x c) px
                        /\ Z.min (Client.y c) py <= p.2
                           <= Z.max (Client.y c) py) path.
Proof.
  intros Hs Hpx Hpy Hx Hy Hb Hw. unfold Client.mouseDrag.
  set (rx := if px <? Client.x c then _ else _).
  set (ry := if py <? Client.y c then _ else _).
  assert (Hrx : exists xs, rx = Ok xs
                /\ Forall (fun v => Z.min (Client.x c) px <= v
                                    <= Z.max (Client.x c) px) xs).
  { unfold rx. destruct (px <? Client.x c) eqn:E.
    - destruct (range3_total (Client.x c - step) px (- step)) as [l Hl];
        [lia|]. exists l. split; [exact Hl|].
      apply range3_between in Hl. eapply Forall_impl; [exact Hl|].
      intros v. cbv beta. destruct (0 <? - step) eqn:E2; lia.
    - destruct (range3_total (Client.x c + step) px step) as [l Hl];
        [lia|]. exists l. split; [exact Hl|].
      apply range3_between in Hl. eapply Forall_impl; [exact Hl|].
      intros v. cbv beta. destruct (0 <? step) eqn:E2; lia. }
  assert (Hry : exists ys, ry = Ok ys
                /\ Forall (fun v => Z.min (Client.y c) py <= v
                                    <= Z.max (Client.y c) py) ys).
  { unfold ry. destruct (py <? Client.y c) eqn:E.
    - destruct (range3_total (Client.y c - step) py (- step)) as [l Hl];
        [lia|]. exists l. split; [exact Hl|].
      apply range3_between in Hl. eapply Forall_impl; [exact Hl|].
      intros v. cbv beta. destruct (0 <? - step) eqn:E2; lia.
    - destruct (range3_total (Client.y c + step) py step) as [l Hl];
        [lia|]. exists l. split; [exact Hl|].
      apply range3_between in Hl. eapply Forall_impl; [exact Hl|].
      intros v. cbv beta. destruct (0 <? step) eqn:E2; lia. }
  destruct Hrx as (xs & -> & Hxs). destruct Hry as (ys & -> & Hys).
  cbn [Client.lift].
  assert (Hys16 : Forall (fun v => 0 <= v < 65536) ys)
    by (eapply Forall_impl; [exact Hys|]; intros v; cbv beta; lia).
  assert (Hxs16 : Forall (fun v => 0 <= v < 65536) xs)
    by (eapply Forall_impl; [exact Hxs|]; intros v; cbv beta; lia).
  destruct (drag_y_path ys c Hys16 Hx Hb Hw)
    as (c1 & Hrun1 & Hx1 & Hy1 & Hb1 & Hw1 & Hp1).
  rewrite Hrun1. cbn [Client.obind].
  assert (Hy1r : Z.min (Client.y c) py <= Client.y c1
                 <= Z.max (Client.y c) py).
  { rewrite Hy1. destruct (list_eq_nil_dec ys) as [->|Hne]; [simpl; lia|].
    pose proof (@List.exists_last _ ys) as Hl.
    destruct Hl as (ys' & v & ->); [exact Hne|].
    rewrite List.last_last. apply Forall_app in Hys as [_ Hv].
    by apply Forall_inv in Hv. }
  destruct (drag_x_path xs c1 Hxs16) as (c2 & Hrun2 & Hy2 & Hb2 & Hw2 & Hp2);
    [lia | lia | exact Hw1 |].
  rewrite Hrun2. cbn [Client.obind].
  rewrite mouseMove_written by (rewrite ?Hb2, ?Hb1; assumption).
  eexists. exists (map (fun v => (Client.x c, v)) ys
                   ++ map (fun v => (v, Client.y c1)) xs).
  split; [reflexivity|]. split; [reflexivity|]. split; [reflexivity|].
  split.
  - cbn [Client.base Client.set_base Client.set_xy].
    fold (pointer_message (Client.buttons c2) px py).
    destruct (pointer_positions_write (Client.buttons c2) px py
                (Client.base c2) Hw2) as [_ Hp3];
      [rewrite Hb2, Hb1; assumption | assumption | assumption |].
    rewrite Hp3, Hp2, Hp1, <- !app_assoc. reflexivity.
  - apply Forall_app. split; apply Forall_map.
    + eapply Forall_impl; [exact Hys|]. intros v Hv. cbv beta in Hv. simpl. lia.
    + eapply Forall_impl; [exact Hxs|]. intros v Hv. cbv beta in Hv. simpl. lia.
Qed.

Lemma mouse_drag_reaches_target_witness :
  (3 <> 0 /\ 0 <= 10 < 65536 /\ 0 <= 7 < 65536
   /\ 0 <= Client.x Samples.client < 65536
   /\ 0 <= Client.y Samples.client < 65536
   /\ 0 <= Client.buttons Samples.client < 256
   /\ RFB.writer (Client.base Samples.client) = true)
  /\ exists c' path,
       Client.mouseDrag 10 7 3 Samples.client = Client.Done c'
       /\ Client.x c' = 10 /\ Client.y c' = 7
       /\ pointer_positions (RFB.trace (Client.base c'))
          = pointer_positions (RFB.trace (Client.base Samples.client))
              ++ path ++ [(10, 7)]
       /\ Forall (fun p =>
                    Z.min (Client.x Samples.client) 10 <= p.1
                    <= Z.max (Client.x Samples.client) 10
                    /\ Z.min (Client.y Samples.client) 7 <= p.2
                       <= Z.max (Client.y Samples.client) 7) path.
Proof.
  assert (H1 : 3 <> 0) by discriminate.
  assert (H2 : 0 <= 10 < 65536) by lia.
  assert (H3 : 0 <= 7 < 65536) by lia.
  assert (H4 : 0 <= Client.x Samples.client < 65536)
    by (vm_compute; split; [discriminate | reflexivity]).
  assert (H5 : 0 <= Client.y Samples.client < 65536)
    by (vm_compute; split; [discriminate | reflexivity]).
  assert (H6 : 0 <= Client.buttons Samples.client < 256)
    by (vm_compute; split; [discriminate | reflexivity]).
  assert (H7 : RFB.writer (Client.base Samples.client) = true)
    by reflexivity.
  split; [exact (conj H1 (conj H2 (conj H3 (conj H4 (conj H5 (conj H6 H7))))))|].
  exact (mouse_drag_reaches_target 10 7 3 Samples.client H1 H2 H3 H4 H5 H6 H7).
Defined.

(** ** SetEncodings *)

Lemma pack_i32_ok (e : Z) :
  - 2 ^ 31 <= e < 2 ^ 31 ->
  pack "!i" [VInt e] = Ok (be_encode 4 (e mod 2 ^ 32)).
Proof.
  intros He. unfold pack. change (parse_format "!i") with (Ok [FI32]).
  cbn [rbind pack_items]. unfold pack_i32. cbn [as_int rbind].
  replace ((- 2 ^ 31 <=? e) && (e <? 2 ^ 31)) with true by lia.
  cbn [rbind]. by rewrite app_nil_r.
Qed.

Lemma pack_i32_bad (e : Z) :
  ~ (- 2 ^ 31 <= e < 2 ^ 31) -> pack "!i" [VInt e] = Raise StructError.
Proof.
  intros He. unfold pack. change (parse_format "!i") with (Ok [FI32]).
  cbn [rbind pack_items]. unfold pack_i32. cbn [as_int rbind].
  replace ((- 2 ^ 31 <=? e) && (e <? 2 ^ 31)) with false by lia.
  reflexivity.
Qed.

Lemma unpack_i32 (e : Z) :
  - 2 ^ 31 <= e < 2 ^ 31 ->
  unpack "!i" (be_encode 4 (e mod 2 ^ 32)) = Ok [VInt e].
Proof.
  intros He. unfold unpack. change (parse_format "!i") with (Ok [FI32]).
  cbn [rbind]. rewrite length_be_encode.
  change (4 =? calcsize_items [FI32])%nat with true. cbv iota.
  cbn [unpack_items size_of]. rewrite take_ge by (rewrite length_be_encode; lia).
  cbn [unpack_field app].
  assert (Hu : 0 <= e mod 2 ^ 32 < 2 ^ 32) by (apply Z.mod_pos_bound; lia).
  rewrite be_decode_encode by (simpl; lia).
  do 3 f_equal.
  destruct (Z_lt_le_dec e 0).
  - replace (e mod 2 ^ 32) with (e + 2 ^ 32)
      by (apply Z.mod_unique with (-1); lia).
    replace (2 ^ 31 <=? e + 2 ^ 32) with true by lia. lia.
  - rewrite Z.mod_small by lia. replace (2 ^ 31 <=? e) with false by lia.
    reflexivity.
Qed.

Lemma write_encodings_good (good tail : list Z) (st : RFB.State) :
  Forall (fun e => - 2 ^ 31 <= e < 2 ^ 31) good ->
  RFB.write_encodings (good ++ tail) st
  = RFB.write_encodings tail
      (write_all (map (fun e => be_encode 4 (e mod 2 ^ 32)) good) st).
Proof.
  intros H. revert st. induction H as [|e good He H IH]; intros st;
    [reflexivity|].
  cbn [app RFB.write_encodings map write_all fold_left].
  rewrite pack_i32_ok by exact He. apply IH.
Qed.

Lemma set_encodings_header (l : list Z) :
  len l < 65536 ->
  pack "!BxH" [VInt 2; VInt (len l)]
  = Ok ([z2b 2; NUL] ++ be_encode 2 (len l)).
Proof.
  intros Hl. unfold pack. change (parse_format "!BxH") with (Ok [FU8; FPad; FU16]).
  cbn [rbind pack_items]. change (pack_uint 1 (VInt 2)) with (Ok [z2b 2]).
  rewrite pack_uint_int by (pose proof (len_nonneg l); simpl; lia).
  cbn [rbind app]. by rewrite app_nil_r.
Qed.

(** X18: For fewer than 65536 encodings that each fit a signed 32-bit
    integer, setEncodings writes the header (type 2, a padding byte, the
    count on 16 bits) and then one 4-byte message per encoding, in
    order, negative pseudo-encodings in two's complement; each of these
    messages unpacks to the encoding again. *)
Theorem set_encodings_written (l : list Z) (st : RFB.State) :
  len l < 65536 ->
  Forall (fun e => - 2 ^ 31 <= e < 2 ^ 31) l ->
  RFB.setEncodings l st
  = (write_all
       (([z2b 2; NUL] ++ be_encode 2 (len l))
        :: map (fun e => be_encode 4 (e mod 2 ^ 32)) l) st, None)
  /\ Forall (fun e => unpack "!i" (be_encode 4 (e mod 2 ^ 32)) = Ok [VInt e]) l.
Proof.
  intros Hl Hall. split.
  - unfold RFB.setEncodings. rewrite set_encodings_header by exact Hl.
    pose proof (write_encodings_good l []
                  (RFB._write ([z2b 2; NUL] ++ be_encode 2 (len l)) st) Hall)
      as H.
    rewrite app_nil_r in H. rewrite H. reflexivity.
  - eapply Forall_impl; [exact Hall|]. intros e. apply unpack_i32.
Qed.

Lemma set_encodings_written_witness :
  let l := [RFB.Encoding.RAW; RFB.Encoding.PSEUDO_DESKTOP_SIZE;
            RFB.Encoding.PSEUDO_LAST_RECT] in
  (len l < 65536 /\ Forall (fun e => - 2 ^ 31 <= e < 2 ^ 31) l)
  /\ RFB.setEncodings l Samples.session
     = (write_all
          (([z2b 2; NUL] ++ be_encode 2 (len l))
           :: map (fun e => be_encode 4 (e mod 2 ^ 32)) l) Samples.session,
        None)
  /\ Forall (fun e => unpack "!i" (be_encode 4 (e mod 2 ^ 32)) = Ok [VInt e]) l.
Proof.
  intros l.
  assert (H1 : len l < 65536) by reflexivity.
  assert (H2 : Forall (fun e => - 2 ^ 31 <= e < 2 ^ 31) l).
  { repeat constructor; try discriminate. }
  split; [exact (conj H1 H2)|].
  exact (set_encodings_written l Samples.session H1 H2).
Defined.

(** X19: If an encoding of the list does not fit a signed 32-bit
    integer, setEncodings raises struct.error after it has written the
    header, which counts the whole list, and the encodings before the
    bad one: fewer encodings are on the wire than the header announces. *)
Theorem set_encodings_partial (good rest : list Z) (bad : Z)
    (st : RFB.State) :
  len (good ++ bad :: rest) < 65536 ->
  Forall (fun e => - 2 ^ 31 <= e < 2 ^ 31) good ->
  ~ (- 2 ^ 31 <= bad < 2 ^ 31) ->
  RFB.setEncodings (good ++ bad :: rest) st
  = (write_all
       (([z2b 2; NUL] ++ be_encode 2 (len (good ++ bad :: rest)))
        :: map (fun e => be_encode 4 (e mod 2 ^ 32)) good) st,
     Some StructError).
Proof.
  intros Hl Hall Hbad. unfold RFB.setEncodings.
  rewrite set_encodings_header by exact Hl.
  rewrite write_encodings_good by exact Hall.
  cbn [RFB.write_encodings]. rewrite pack_i32_bad by exact Hbad. reflexivity.
Qed.

Lemma set_encodings_partial_witness :
  (len ([0] ++ 0x80000000 :: [1]) < 65536
   /\ Forall (fun e => - 2 ^ 31 <= e < 2 ^ 31) [0]
   /\ ~ (- 2 ^ 31 <= 0x80000000 < 2 ^ 31))
  /\ RFB.setEncodings ([0] ++ 0x80000000 :: [1]) Samples.session
     = (write_all
          (([z2b 2; NUL] ++ be_encode 2 (len ([0] ++ 0x80000000 :: [1])))
           :: map (fun e => be_encode 4 (e mod 2 ^ 32)) [0]) Samples.session,
        Some StructError).
Proof.
  assert (H1 : len ([0] ++ 0x80000000 :: [1]) < 65536) by reflexivity.
  assert (H2 : Forall (fun e => - 2 ^ 31 <= e < 2 ^ 31) [0]).
  { repeat constructor; try discriminate. }
  assert (H3 : ~ (- 2 ^ 31 <= 0x80000000 < 2 ^ 31)) by lia.
  split; [exact (conj H1 (conj H2 H3))|].
  exact (set_encodings_partial [0] [1] 0x80000000 Samples.session H1 H2 H3).
Defined.

(** ** Rectangles on the screen *)

(** X20: A non-empty update whose size differs from the size of the
    screen moves the pointer: updateRectangle sends a pointer event at
    (width, height) and one at (0, 0), and the client's pointer position
    is (0, 0) afterwards, whether the rest of the call returns or
    raises. *)
Theorem update_rectangle_moves_pointer
    (pil : Imaging) (px py width height : Z) (data : bytes)
    (c : Client.t) (scr : Image.t RGB) :
  Client.screen c = Some scr ->
  Image.size scr <> (width, height) ->
  data <> [] ->
  0 <= width < 65536 -> 0 <= height < 65536 ->
  0 <= Client.buttons c < 256 ->
  RFB.writer (Client.base c) = true ->
  let c' := after (Client.updateRectangle pil px py width height data c) in
  Client.x c' = 0 /\ Client.y c' = 0
  /\ pointer_positions (RFB.trace (Client.base c'))
     = pointer_positions (RFB.trace (Client.base c))
         ++ [(width, height); (0, 0)].
Proof.
  intros Hscr Hsize Hdata Hw Hh Hb Hwr.
  unfold Client.updateRectangle.
  replace (len data =? 0) with false
    by (destruct data; [done | unfold len; simpl; lia]).
  rewrite Hscr. cbn [fst snd].
  assert (Hne : negb (width =? (Image.size scr).1)
                || negb (height =? (Image.size scr).2) = true).
  { destruct (Image.size scr) as [W H]. cbn [fst snd].
    destruct (width =? W) eqn:E1, (height =? H) eqn:E2; try reflexivity.
    exfalso. apply Hsize. f_equal; lia. }
  rewrite Hne. rewrite mouseMove_written by assumption. cbn [Client.obind].
  rewrite mouseMove_written by (cbn; lia). cbn [Client.obind].
  fold (pointer_message (Client.buttons c) width height).
  set (st1 := RFB._write (pointer_message (Client.buttons c) width height) _).
  set (c2 := Client.set_base _ _).
  assert (Hc2 : Client.x c2 = 0 /\ Client.y c2 = 0
                /\ pointer_positions (RFB.trace (Client.base c2))
                   = pointer_positions (RFB.trace (Client.base c))
                       ++ [(width, height); (0, 0)]).
  { split; [reflexivity|]. split; [reflexivity|].
    destruct (pointer_positions_write (Client.buttons c) width height
                (Client.base c) Hwr Hb Hw Hh) as [Hw1 Hp1].
    destruct (pointer_positions_write (Client.buttons c) 0 0 st1 Hw1 Hb)
      as [_ Hp2]; [lia | lia |].
    change (RFB.trace (Client.base c2))
      with (RFB.trace (RFB._write (pointer_message (Client.buttons c) 0 0) st1)).
    rewrite Hp2. unfold st1. rewrite Hp1, <- app_assoc. reflexivity. }
  destruct (frombytes_RGB pil (width, height) data (Client.image_mode c2))
    as [update|e]; cbn [Client.lift]; [|exact Hc2].
  change (Client.screen c2) with (Client.screen c). rewrite Hscr.
  destruct (((Image.size scr).1 <? px + width) || _).
  all: match goal with
  | |- context [Client.drawCursor ?c3] =>
      assert (Hd : Client.x (after (Client.drawCursor c3)) = Client.x c3
                   /\ Client.y (after (Client.drawCursor c3)) = Client.y c3
                   /\ Client.base (after (Client.drawCursor c3))
                      = Client.base c3);
      [ unfold Client.drawCursor;
        destruct (Client.cursor c3), (Client.screen c3), (Client.cfocus c3);
        by repeat split
      | destruct Hd as (H1 & H2 & H3); cbv zeta; rewrite H1, H2, H3 ]
  end.
  all: exact Hc2.
Qed.

Lemma update_rectangle_moves_pointer_witness :
  let c := Samples.client_2x2 in
  let data := map z2b [1; 2; 3; 0] in
  exists scr,
    (Client.screen c = Some scr
     /\ Image.size scr <> (1, 1)
     /\ data <> []
     /\ 0 <= 1 < 65536 /\ 0 <= 1 < 65536
     /\ 0 <= Client.buttons c < 256
     /\ RFB.writer (Client.base c) = true)
    /\ let c' := after (Client.updateRectangle Samples.pil 0 0 1 1 data c) in
       Client.x c' = 0 /\ Client.y c' = 0
       /\ pointer_positions (RFB.trace (Client.base c'))
          = pointer_positions (RFB.trace (Client.base c)) ++ [(1, 1); (0, 0)].
Proof.
  intros c data.
  assert (H1 : exists scr, Client.screen c = Some scr) by (eexists; reflexivity).
  destruct H1 as [scr H1].
  assert (H2 : Image.size scr <> (1, 1)).
  { assert (Hs := H1). injection Hs as <-. discriminate. }
  assert (H3 : data <> []) by discriminate.
  assert (H4 : 0 <= 1 < 65536) by lia.
  assert (H5 : 0 <= Client.buttons c < 256)
    by (vm_compute; split; [discriminate | reflexivity]).
  assert (H6 : RFB.writer (Client.base c) = true) by reflexivity.
  exists scr.
  split; [exact (conj H1 (conj H2 (conj H3 (conj H4 (conj H4 (conj H5 H6))))))|].
  exact (update_rectangle_moves_pointer Samples.pil 0 0 1 1 data c scr
           H1 H2 H3 H4 H4 H5 H6).
Defined.


